(** * scientiajoints: the geometric measurement engine

    A shallow embedding of [geometry.py] (Point, Vector3D, Face, Edge) and of
    the batch processing of [parser.py] (MeasurementsParser), with the
    properties of the measurement engine stated and proved over it.

    Numbers.  Python floats are embedded as the real numbers [R] of the
    Standard Library: every arithmetic operation is the exact one, there is
    no rounding, no overflow, no NaN and no signed zero.  The functions of
    Python's [math] module are embedded by their mathematical definitions
    ([sqrt], [sin], [cos], [atan], [acos] of the Standard Library), together
    with the exceptions they raise outside their domain.

    Rounding.  In two places the source wraps an angle by adding 360 to a
    negative number, and there the rounding of the binary64 floats changes
    the range of the result: the sum of 360 and a tiny negative number is
    360.0.  Module [Binary64] embeds these two computations a second time,
    over the doubles with rounding to nearest.  Everything else is stated
    in exact arithmetic; the centre of an edge or a face, which the host
    stores in single precision, is the exact mean here.

    Effects.  Methods mutate [self] and may raise; [try]/[except] blocks log
    and carry on with whatever was assigned so far.  Both are embedded with
    one monad [M S A] over the object under mutation: a computation returns
    a result or an exception, the object as the computation left it, and the
    records it sent to the logger.

    Left out.  The host application ([bpy], [mathutils]): a point is its
    three coordinates, and the strokes of the annotation layer are an
    argument of [parse_dimensions].  The text of a log record keeps the
    source's wording; a float rendered into a message is a placeholder. *)

From Stdlib Require Import Reals Lra Lia ZArith List String DecimalString.
Import ListNotations.
Local Open Scope R_scope.

(** ** The Python runtime: exceptions, the logger, mutable objects *)

Inductive exn : Type :=
| ValueError
| ZeroDivisionError
| AttributeError
| IndexError.

Inductive result (A : Type) : Type :=
| Ok (a : A)
| Raise (e : exn).
Arguments Ok {A} a.
Arguments Raise {A} e.

Inductive level : Type := INFO | WARNING | ERROR.

Record log_record : Type := LogRecord { lvl : level; text : string }.

Definition exn_name (e : exn) : string :=
  match e with
  | ValueError => "ValueError"
  | ZeroDivisionError => "ZeroDivisionError"
  | AttributeError => "AttributeError"
  | IndexError => "IndexError"
  end.

Definition str_of_nat (n : nat) : string :=
  NilZero.string_of_uint (Nat.to_uint n).

(** [M S A]: a computation over a mutable object of type [S].  The object is
    returned also when the computation raises, as Python leaves it. *)
Definition M (S A : Type) : Type := S -> result A * S * list log_record.

Definition ret {S A : Type} (a : A) : M S A :=
  fun s => (Ok a, s, []).

Definition bind {S A B : Type} (m : M S A) (k : A -> M S B) : M S B :=
  fun s =>
    match m s with
    | (Ok a, s1, l1) =>
        match k a s1 with
        | (r, s2, l2) => (r, s2, l1 ++ l2)
        end
    | (Raise e, s1, l1) => (Raise e, s1, l1)
    end.

Declare Scope py_scope.
Delimit Scope py_scope with py.
Notation "x <- m ;; k" := (bind m (fun x => k))
  (at level 61, m at next level, right associativity) : py_scope.
Notation "m ;; k" := (bind m (fun _ => k))
  (at level 61, right associativity) : py_scope.
Local Open Scope py_scope.

Definition raise {S A : Type} (e : exn) : M S A :=
  fun s => (Raise e, s, []).

Definition get {S : Type} : M S S :=
  fun s => (Ok s, s, []).

Definition put {S : Type} (s' : S) : M S unit :=
  fun _ => (Ok tt, s', []).

Definition modify {S : Type} (f : S -> S) : M S unit :=
  fun s => (Ok tt, f s, []).

Definition lift {S A : Type} (r : result A) : M S A :=
  fun s => (r, s, []).

(** [logger.info], [logger.warning], [logger.error] *)
Definition log {S : Type} (l : level) (msg : string) : M S unit :=
  fun s => (Ok tt, s, [LogRecord l msg]).

(** [try: m except Exception as e: handler e] *)
Definition try_except {S A : Type} (m : M S A) (handler : exn -> M S A) : M S A :=
  fun s =>
    match m s with
    | (Ok a, s1, l1) => (Ok a, s1, l1)
    | (Raise e, s1, l1) =>
        match handler e s1 with
        | (r, s2, l2) => (r, s2, l1 ++ l2)
        end
    end.

(** Reading an attribute that was never assigned raises [AttributeError]. *)
Definition getattr {S A : Type} (field : S -> option A) : M S A :=
  fun s =>
    match field s with
    | Some v => (Ok v, s, [])
    | None => (Raise AttributeError, s, [])
    end.

(** A method call [obj.m()] on a temporary object [obj] of another class:
    the caller sees the result and the log, the temporary is dropped. *)
Definition on_object {S T A : Type} (obj : T) (m : M T A) : M S A :=
  fun s =>
    match m obj with
    | (r, _, l) => (r, s, l)
    end.

(** [xs[i]] *)
Definition index {S A : Type} (xs : list A) (i : nat) : M S A :=
  fun s =>
    match nth_error xs i with
    | Some v => (Ok v, s, [])
    | None => (Raise IndexError, s, [])
    end.

(** ** Python's [math] module and float operators, over [R] *)

Module PyMath.

(** [math.radians], [math.degrees] *)
Definition radians (d : R) : R := d * (PI / 180).
Definition degrees (r : R) : R := r * (180 / PI).

(** [math.sqrt]: [ValueError] (math domain error) on a negative argument. *)
Definition py_sqrt (x : R) : result R :=
  if Rlt_dec x 0 then Raise ValueError else Ok (sqrt x).

(** [math.acos]: [ValueError] outside [[-1, 1]]. *)
Definition py_acos (x : R) : result R :=
  if Rlt_dec x (-1) then Raise ValueError
  else if Rlt_dec 1 x then Raise ValueError
  else Ok (acos x).

(** [x / y] on floats: [ZeroDivisionError] when [y] is zero. *)
Definition py_div (x y : R) : result R :=
  if Req_dec_T y 0 then Raise ZeroDivisionError else Ok (x / y).

(** [x % m] on floats for a non-zero modulus (the source only divides by
    the literal 360): the remainder of the floored division. *)
Definition py_mod (x m : R) : R := x - m * IZR (Zfloor (x / m)).

(** [math.atan2 y x]: the angle of the point [(x, y)], in [(-PI, PI]];
    0 at the origin. *)
Definition atan2 (y x : R) : R :=
  if Rlt_dec 0 x then atan (y / x)
  else if Rlt_dec x 0 then
    if Rle_dec 0 y then atan (y / x) + PI else atan (y / x) - PI
  else
    if Rlt_dec 0 y then PI / 2
    else if Rlt_dec y 0 then - (PI / 2)
    else 0.

End PyMath.
Import PyMath.

(** ** geometry.py *)

(** *** class Point *)
Module Point.

Record t : Type := mk { x : R; y : R; z : R }.

(** [Point.rotated(self, center, azimuth)] *)
Definition rotated (self center : t) (azimuth : R) : result t :=
  let x_a := x self in
  let y_a := y self in
  let z_a := z self in
  let x_c := x center in
  let y_c := y center in
  match py_sqrt ((x_c - x_a) ^ 2 + (y_c - y_a) ^ 2) with
  | Raise e => Raise e
  | Ok length_c_a =>
      let x_b := length_c_a * cos (radians azimuth) in
      let y_b := length_c_a * sin (radians azimuth) in
      Ok (mk x_b y_b z_a)
  end.

(** [__add__], [__sub__] *)
Definition add (self other : t) : t :=
  mk (x self + x other) (y self + y other) (z self + z other).

Definition sub (self other : t) : t :=
  mk (x self - x other) (y self - y other) (z self - z other).

End Point.

(** *** class Vector3D *)
Module Vector3D.

Record t : Type := mk { x : R; y : R; z : R }.

(** [Vector3D(point1, point2)] *)
Definition of_points (point1 point2 : Point.t) : t :=
  mk (Point.x point2 - Point.x point1)
     (Point.y point2 - Point.y point1)
     (Point.z point2 - Point.z point1).

(** [multiply_minus]: reverse the direction, in place. *)
Definition multiply_minus : M t unit :=
  modify (fun self => mk (- x self) (- y self) (- z self)).

(** [length] *)
Definition length : M t R :=
  self <- get ;;
  lift (py_sqrt (x self ^ 2 + y self ^ 2 + z self ^ 2)).

(** [azimuth]: negates [self] in place when [z] is negative. *)
Definition azimuth : M t R :=
  self <- get ;;
  (if Rlt_dec (z self) 0 then multiply_minus else ret tt) ;;
  self <- get ;;
  ret (py_mod (degrees (atan2 (x self) (y self))) 360).

(** [dip] *)
Definition dip : M t R :=
  self <- get ;;
  horizontal_length <- lift (py_sqrt (x self ^ 2 + y self ^ 2)) ;;
  ret (degrees (atan2 horizontal_length (z self))).

(** [edge2face]: overwrite [z], then [x], then [y], in place. *)
Definition edge2face : M t unit :=
  az <- azimuth ;;
  self <- get ;;
  len <- lift (py_sqrt (x self ^ 2 + y self ^ 2)) ;;
  modify (fun self => mk (x self) (y self) (- len)) ;;
  modify (fun self => mk (z self * sin (radians az)) (y self) (z self)) ;;
  modify (fun self => mk (x self) (z self * cos (radians az)) (z self)).

(** [degrees_with]: every exception is caught, logged, and turned into 0.0. *)
Definition degrees_with (other : t) : M t R :=
  try_except
    (self <- get ;;
     let dot_product := x self * x other + y self * y other + z self * z other in
     len_self <- length ;;
     len_other <- on_object other length ;;
     let lengths_product := len_self * len_other in
     q <- lift (py_div dot_product lengths_product) ;;
     c <- lift (py_acos q) ;;
     ret (degrees c))
    (fun e =>
       log ERROR ("Error calculating degrees between vectors: " ++ exn_name e) ;;
       ret 0).

(** [__mul__]: the cross product, a new vector. *)
Definition mul (self other : t) : t :=
  mk (y self * z other - y other * z self)
     (- (x self * z other - x other * z self))
     (x self * y other - x other * y self).

End Vector3D.

(** A method call [self.attr.m()] on the object held by an attribute: the
    attribute's object is mutated in place, also when the method raises. *)
Definition call_on {S T A : Type}
    (field : S -> option T) (set : T -> S -> S) (m : M T A) : M S A :=
  fun s =>
    match field s with
    | None => (Raise AttributeError, s, [])
    | Some obj =>
        match m obj with
        | (r, obj', l) => (r, set obj' s, l)
        end
    end.

(** *** class Face *)
Module Face.

(** A Python object: an attribute is [None] until it is assigned. *)
Record t : Type := mk {
  point1 : option Point.t;
  point2 : option Point.t;
  point3 : option Point.t;
  center : option Point.t;
  ab : option Vector3D.t;
  azimuth : option R;
  dip : option R;
  area : option R;
  rotated_azimuth : option R;
  degree : option R
}.

Definition empty : t :=
  mk None None None None None None None None None None.

Definition set_point1 (v : Point.t) (o : t) : t :=
  mk (Some v) (point2 o) (point3 o) (center o) (ab o) (azimuth o) (dip o)
     (area o) (rotated_azimuth o) (degree o).
Definition set_point2 (v : Point.t) (o : t) : t :=
  mk (point1 o) (Some v) (point3 o) (center o) (ab o) (azimuth o) (dip o)
     (area o) (rotated_azimuth o) (degree o).
Definition set_point3 (v : Point.t) (o : t) : t :=
  mk (point1 o) (point2 o) (Some v) (center o) (ab o) (azimuth o) (dip o)
     (area o) (rotated_azimuth o) (degree o).
Definition set_center (v : Point.t) (o : t) : t :=
  mk (point1 o) (point2 o) (point3 o) (Some v) (ab o) (azimuth o) (dip o)
     (area o) (rotated_azimuth o) (degree o).
Definition set_ab (v : Vector3D.t) (o : t) : t :=
  mk (point1 o) (point2 o) (point3 o) (center o) (Some v) (azimuth o) (dip o)
     (area o) (rotated_azimuth o) (degree o).
Definition set_azimuth (v : R) (o : t) : t :=
  mk (point1 o) (point2 o) (point3 o) (center o) (ab o) (Some v) (dip o)
     (area o) (rotated_azimuth o) (degree o).
Definition set_dip (v : R) (o : t) : t :=
  mk (point1 o) (point2 o) (point3 o) (center o) (ab o) (azimuth o) (Some v)
     (area o) (rotated_azimuth o) (degree o).
Definition set_area (v : R) (o : t) : t :=
  mk (point1 o) (point2 o) (point3 o) (center o) (ab o) (azimuth o) (dip o)
     (Some v) (rotated_azimuth o) (degree o).
Definition set_rotated_azimuth (v : R) (o : t) : t :=
  mk (point1 o) (point2 o) (point3 o) (center o) (ab o) (azimuth o) (dip o)
     (area o) (Some v) (degree o).
Definition set_degree (v : R) (o : t) : t :=
  mk (point1 o) (point2 o) (point3 o) (center o) (ab o) (azimuth o) (dip o)
     (area o) (rotated_azimuth o) (Some v).

Definition calculate_center : M t Point.t :=
  p1 <- getattr point1 ;;
  p2 <- getattr point2 ;;
  p3 <- getattr point3 ;;
  let x := (Point.x p1 + Point.x p2 + Point.x p3) / 3 in
  let y := (Point.y p1 + Point.y p2 + Point.y p3) / 3 in
  let z := (Point.z p1 + Point.z p2 + Point.z p3) / 3 in
  ret (Point.mk x y z).

Definition ab_vector : M t Vector3D.t :=
  p1 <- getattr point1 ;;
  p2 <- getattr point2 ;;
  p3 <- getattr point3 ;;
  let a := Vector3D.of_points p2 p1 in
  let b := Vector3D.of_points p3 p1 in
  ret (Vector3D.mul a b).

Definition calculate_degree : M t R :=
  p1 <- getattr point1 ;;
  p2 <- getattr point2 ;;
  p3 <- getattr point3 ;;
  let a := Vector3D.of_points p2 p1 in
  let b := Vector3D.of_points p2 p3 in
  on_object a (Vector3D.degrees_with b).

Definition calculate_area : M t R :=
  len <- call_on ab set_ab Vector3D.length ;;
  ret (len / 2).

(** The body of [__init__]'s [try] block. *)
Definition init_body (p1 p2 p3 : Point.t) : M t unit :=
  modify (set_point1 p1) ;;
  modify (set_point2 p2) ;;
  modify (set_point3 p3) ;;
  c <- calculate_center ;; modify (set_center c) ;;
  v <- ab_vector ;; modify (set_ab v) ;;
  az <- call_on ab set_ab Vector3D.azimuth ;; modify (set_azimuth az) ;;
  d <- call_on ab set_ab Vector3D.dip ;; modify (set_dip d) ;;
  ar <- calculate_area ;; modify (set_area ar) ;;
  modify (set_rotated_azimuth 0) ;;
  dg <- calculate_degree ;; modify (set_degree dg).

(** [__init__]: on an exception the object keeps the attributes assigned
    so far; the message shows the center (rendered here as a placeholder). *)
Definition init (p1 p2 p3 : Point.t) : M t unit :=
  try_except (init_body p1 p2 p3)
    (fun e =>
       _ <- calculate_center ;;
       log ERROR ("Error initializing Face at center {center}: " ++ exn_name e)).

(** [Face(p1, p2, p3)]: a fresh object, initialised. *)
Definition new {S : Type} (p1 p2 p3 : Point.t) : M S t :=
  fun s =>
    match init p1 p2 p3 empty with
    | (Ok _, obj, l) => (Ok obj, s, l)
    | (Raise e, _, l) => (Raise e, s, l)
    end.

End Face.

(** *** class Edge *)
Module Edge.

Record t : Type := mk {
  point1 : option Point.t;
  point2 : option Point.t;
  center : option Point.t;
  a : option Vector3D.t;
  length : option R;
  azimuth : option R;
  dip : option R;
  edge_azimuth : option R;
  edge_dip : option R;
  rotated_azimuth : option R
}.

Definition empty : t :=
  mk None None None None None None None None None None.

Definition set_point1 (v : Point.t) (o : t) : t :=
  mk (Some v) (point2 o) (center o) (a o) (length o) (azimuth o) (dip o)
     (edge_azimuth o) (edge_dip o) (rotated_azimuth o).
Definition set_point2 (v : Point.t) (o : t) : t :=
  mk (point1 o) (Some v) (center o) (a o) (length o) (azimuth o) (dip o)
     (edge_azimuth o) (edge_dip o) (rotated_azimuth o).
Definition set_center (v : Point.t) (o : t) : t :=
  mk (point1 o) (point2 o) (Some v) (a o) (length o) (azimuth o) (dip o)
     (edge_azimuth o) (edge_dip o) (rotated_azimuth o).
Definition set_a (v : Vector3D.t) (o : t) : t :=
  mk (point1 o) (point2 o) (center o) (Some v) (length o) (azimuth o) (dip o)
     (edge_azimuth o) (edge_dip o) (rotated_azimuth o).
Definition set_length (v : R) (o : t) : t :=
  mk (point1 o) (point2 o) (center o) (a o) (Some v) (azimuth o) (dip o)
     (edge_azimuth o) (edge_dip o) (rotated_azimuth o).
Definition set_azimuth (v : R) (o : t) : t :=
  mk (point1 o) (point2 o) (center o) (a o) (length o) (Some v) (dip o)
     (edge_azimuth o) (edge_dip o) (rotated_azimuth o).
Definition set_dip (v : R) (o : t) : t :=
  mk (point1 o) (point2 o) (center o) (a o) (length o) (azimuth o) (Some v)
     (edge_azimuth o) (edge_dip o) (rotated_azimuth o).
Definition set_edge_azimuth (v : R) (o : t) : t :=
  mk (point1 o) (point2 o) (center o) (a o) (length o) (azimuth o) (dip o)
     (Some v) (edge_dip o) (rotated_azimuth o).
Definition set_edge_dip (v : R) (o : t) : t :=
  mk (point1 o) (point2 o) (center o) (a o) (length o) (azimuth o) (dip o)
     (edge_azimuth o) (Some v) (rotated_azimuth o).
Definition set_rotated_azimuth (v : R) (o : t) : t :=
  mk (point1 o) (point2 o) (center o) (a o) (length o) (azimuth o) (dip o)
     (edge_azimuth o) (edge_dip o) (Some v).

Definition calculate_center : M t Point.t :=
  p1 <- getattr point1 ;;
  p2 <- getattr point2 ;;
  let x := (Point.x p1 + Point.x p2) / 2 in
  let y := (Point.y p1 + Point.y p2) / 2 in
  let z := (Point.z p1 + Point.z p2) / 2 in
  ret (Point.mk x y z).

(** The body of [__init__]'s [try] block: length, azimuth and dip are read
    off [self.a] before [edge2face] overwrites it, [edge_azimuth] and
    [edge_dip] after. *)
Definition init_body (p1 p2 : Point.t) : M t unit :=
  modify (set_point1 p1) ;;
  modify (set_point2 p2) ;;
  c <- calculate_center ;; modify (set_center c) ;;
  modify (set_a (Vector3D.of_points p1 p2)) ;;
  len <- call_on a set_a Vector3D.length ;; modify (set_length len) ;;
  az <- call_on a set_a Vector3D.azimuth ;; modify (set_azimuth az) ;;
  d <- call_on a set_a Vector3D.dip ;; modify (set_dip d) ;;
  call_on a set_a Vector3D.edge2face ;;
  eaz <- call_on a set_a Vector3D.azimuth ;; modify (set_edge_azimuth eaz) ;;
  ed <- call_on a set_a Vector3D.dip ;; modify (set_edge_dip ed) ;;
  modify (set_rotated_azimuth 0).

Definition init (p1 p2 : Point.t) : M t unit :=
  try_except (init_body p1 p2)
    (fun e =>
       _ <- calculate_center ;;
       log ERROR ("Error initializing Edge at center {center}: " ++ exn_name e)).

(** [Edge(p1, p2)]: a fresh object, initialised. *)
Definition new {S : Type} (p1 p2 : Point.t) : M S t :=
  fun s =>
    match init p1 p2 empty with
    | (Ok _, obj, l) => (Ok obj, s, l)
    | (Raise e, _, l) => (Raise e, s, l)
    end.

End Edge.

(** ** parser.py *)

(** [for x in xs: body], with the loop's local variable threaded through. *)
Fixpoint for_each {S A B : Type}
    (xs : list A) (body : A -> B -> M S B) (acc : B) : M S B :=
  match xs with
  | [] => ret acc
  | x :: xs' => acc' <- body x acc ;; for_each xs' body acc'
  end.

Module MeasurementsParser.

Record t : Type := mk {
  faces : list (list Point.t);
  edges : list (list Point.t)
}.

(** [parse_dimensions], over the strokes of the host's annotation layer,
    all frames in sequence ([None]: the layer is missing); every stroke is
    the list of its points, already converted by [Point(p)]. *)
Definition parse_dimensions (layer : option (list (list Point.t))) : M t unit :=
  put (mk [] []) ;;
  match layer with
  | None => log WARNING "No annotations or 'RulerData3D' layer found."
  | Some strokes =>
      log INFO "Annotations and RulerData3D layer found." ;;
      for_each strokes
        (fun point_objects (_ : unit) =>
           self <- get ;;
           if (List.length point_objects =? 3)%nat then
             put (mk (faces self ++ [point_objects]) (edges self))
           else if (List.length point_objects =? 2)%nat then
             put (mk (faces self) (edges self ++ [point_objects]))
           else
             log WARNING ("Stroke with unexpected number of points: "
                          ++ str_of_nat (List.length point_objects)))
        tt ;;
      self <- get ;;
      log INFO ("Parsed " ++ str_of_nat (List.length (faces self)) ++ " faces and "
                ++ str_of_nat (List.length (edges self)) ++ " edges.")
  end.

(** The calibration delta of [get_processed_edges] and
    [get_processed_faces] (the same four lines in both). *)
Definition calibration_delta (az_real az_model : R) : R :=
  let pre_delta := az_real - az_model in
  if Rlt_dec pre_delta 0 then pre_delta + 360 else py_mod pre_delta 360.

(** The value both loops assign to [rotated_azimuth]. *)
Definition wrap_rotated (rot_azimuth : R) : R :=
  if Rge_dec rot_azimuth 360 then rot_azimuth - 360
  else if Rlt_dec rot_azimuth 0 then rot_azimuth + 360
  else rot_azimuth.

Definition get_processed_edges (az_real az_model : R) : M t (list Edge.t) :=
  let delta := calibration_delta az_real az_model in
  self <- get ;;
  processed_edges <-
    for_each (edges self)
      (fun edge_points processed_edges =>
         if (2 <=? List.length edge_points)%nat then
           try_except
             (p0 <- index edge_points 0 ;;
              p1 <- index edge_points 1 ;;
              edge <- Edge.new p0 p1 ;;
              az <- on_object edge (getattr Edge.azimuth) ;;
              let rot_azimuth := az + delta in
              let edge := Edge.set_rotated_azimuth (wrap_rotated rot_azimuth) edge in
              ret (processed_edges ++ [edge]))
             (fun e =>
                log ERROR ("Error processing edge: " ++ exn_name e) ;;
                ret processed_edges)
         else
           log WARNING "Edge with less than 2 points encountered during processing." ;;
           ret processed_edges)
      [] ;;
  log INFO ("Processed " ++ str_of_nat (List.length processed_edges) ++ " edges.") ;;
  ret processed_edges.

Definition get_processed_faces (az_real az_model : R) : M t (list Face.t) :=
  let delta := calibration_delta az_real az_model in
  self <- get ;;
  processed_faces <-
    for_each (faces self)
      (fun face_points processed_faces =>
         if (3 <=? List.length face_points)%nat then
           try_except
             (p0 <- index face_points 0 ;;
              p1 <- index face_points 1 ;;
              p2 <- index face_points 2 ;;
              face <- Face.new p0 p1 p2 ;;
              az <- on_object face (getattr Face.azimuth) ;;
              let rot_azimuth := az + delta in
              let face := Face.set_rotated_azimuth (wrap_rotated rot_azimuth) face in
              ret (processed_faces ++ [face]))
             (fun e =>
                log ERROR ("Error processing face: " ++ exn_name e) ;;
                ret processed_faces)
         else
           log WARNING "Face with less than 3 points encountered during processing." ;;
           ret processed_faces)
      [] ;;
  log INFO ("Processed " ++ str_of_nat (List.length processed_faces) ++ " faces.") ;;
  ret processed_faces.

(** [__init__]: both lists are emptied, then [parse_dimensions] fills
    them. *)
Definition init (layer : option (list (list Point.t))) : M t unit :=
  modify (fun self => mk [] (edges self)) ;;
  modify (fun self => mk (faces self) []) ;;
  parse_dimensions layer.

(** [MeasurementsParser()]: a fresh parser over the annotation layer. *)
Definition new {S : Type} (layer : option (list (list Point.t))) : M S t :=
  fun s =>
    match init layer (mk [] []) with
    | (Ok _, obj, l) => (Ok obj, s, l)
    | (Raise e, _, l) => (Raise e, s, l)
    end.

End MeasurementsParser.

(** ** The two wraps, with the rounding of binary64

    [Vector3D.azimuth] wraps its angle with the float operator [%], which
    adds the modulus to a remainder of the other sign, and the batch adds
    360 to a negative difference of the calibration inputs.  Both sums are
    rounded.  A computation is a relation here: a result is any double
    nearest to the exact value. *)
Module Binary64.

(** The finite doubles: [m * 2 ^ e] with [|m| < 2 ^ 53] and
    [-1074 <= e <= 971]. *)
Definition representable (f : R) : Prop :=
  exists m e : Z,
    f = IZR m * powerRZ 2 e /\ (Z.abs m < 2 ^ 53)%Z /\ (-1074 <= e <= 971)%Z.

(** [f] is a double nearest to the real [y], either neighbour on a tie.
    Overflow is left out: the angles of the source stay far below the
    largest double. *)
Definition nearest (y f : R) : Prop :=
  representable f /\
  forall g, representable g -> Rabs (f - y) <= Rabs (g - y).

(** C's [fmod]: the remainder of the division truncated towards zero; it
    is exact. *)
Definition trunc (x : R) : Z := if Rlt_dec x 0 then Zceil x else Zfloor x.

Definition fmod (v w : R) : R := v - w * IZR (trunc (v / w)).

Definition negative (x : R) : bool := if Rlt_dec x 0 then true else false.

(** [v % w] on floats for a non-zero modulus (the source only divides by
    the literal 360), as the interpreter computes it: [fmod], then the
    modulus is added when the remainder is not zero and its sign differs
    from the sign of the modulus; this sum is rounded. *)
Definition py_mod (v w r : R) : Prop :=
  let m := fmod v w in
  if Req_dec_T m 0 then r = 0
  else if Bool.eqb (negative w) (negative m) then r = m
  else nearest (m + w) r.

(** [Vector3D.azimuth].  The negation is exact.  [angle x y] is the double
    that [degrees(atan2(x, y))] evaluates to: the math library is outside
    the repository. *)
Definition azimuth (angle : R -> R -> R) (self : Vector3D.t)
    (az : R) (self' : Vector3D.t) : Prop :=
  self' = (if Rlt_dec (Vector3D.z self) 0
           then Vector3D.mk (- Vector3D.x self) (- Vector3D.y self)
                            (- Vector3D.z self)
           else self) /\
  py_mod (angle (Vector3D.x self') (Vector3D.y self')) 360 az.

(** The math library without any error of its own. *)
Definition exact_angle (x y : R) : R := degrees (atan2 x y).

(** The calibration delta of [get_processed_edges] and
    [get_processed_faces]. *)
Definition calibration_delta (az_real az_model delta : R) : Prop :=
  exists pre_delta,
    nearest (az_real - az_model) pre_delta /\
    if Rlt_dec pre_delta 0 then nearest (pre_delta + 360) delta
    else py_mod pre_delta 360 delta.

End Binary64.

(** ** visualization.py *)

(** *** numpy, as far as [Visualizer] uses it

    [np.mean], [np.median], [np.std], [np.min] and [np.max] by their
    mathematical definitions over [R].  The source calls them on a list
    that it has found not to be empty; the list comes here as its first
    item and the rest, and the empty array (on which numpy returns nan or
    raises) is not embedded. *)
Module Numpy.

Definition sum (l : list R) : R := fold_right Rplus 0 l.

Definition mean (x : R) (xs : list R) : R :=
  sum (x :: xs) / INR (List.length (x :: xs)).

Definition min (x : R) (xs : list R) : R := fold_right Rmin x xs.

Definition max (x : R) (xs : list R) : R := fold_right Rmax x xs.

Fixpoint insert (a : R) (l : list R) : list R :=
  match l with
  | [] => [a]
  | b :: l' => if Rle_dec a b then a :: b :: l' else b :: insert a l'
  end.

Definition sort (l : list R) : list R := fold_right insert [] l.

(** The middle item of the sorted list, or the mean of the two middle
    items when their number is even. *)
Definition median (x : R) (xs : list R) : R :=
  let sorted := sort (x :: xs) in
  let n := List.length sorted in
  if Nat.even n
  then (nth (n / 2 - 1) sorted 0 + nth (n / 2) sorted 0) / 2
  else nth (n / 2) sorted 0.

(** The population standard deviation ([ddof = 0], numpy's default). *)
Definition std (x : R) (xs : list R) : R :=
  let m := mean x xs in
  match map (fun v => (v - m) ^ 2) (x :: xs) with
  | [] => 0
  | d :: ds => sqrt (mean d ds)
  end.

End Numpy.

(** *** class Visualizer *)
Module Visualizer.

Record t : Type := mk {
  edges_data : list Edge.t;
  faces_data : list Face.t;
  figure_width : R;
  figure_height : R;
  marker_size : R;
  edge_width : R
}.

(** A Python dict with string keys, in insertion order. *)
Definition dict : Type := list (string * R).

(** [d[key]]: [None] stands for the [KeyError]. *)
Fixpoint dict_get (d : dict) (key : string) : option R :=
  match d with
  | [] => None
  | (k, v) :: d' => if String.eqb k key then Some v else dict_get d' key
  end.

(** [[edge.length for edge in self.edges_data]] *)
Definition edge_lengths (edges : list Edge.t) : M t (list R) :=
  for_each edges
    (fun edge lengths =>
       len <- on_object edge (getattr Edge.length) ;;
       ret (lengths ++ [len]))
    [].

(** [get_edges_statistics].  [numpy_import] is the outcome of the
    [import numpy as np] that stands before the [try] block: when it fails,
    the exception reaches the caller. *)
Definition get_edges_statistics (numpy_import : result unit) : M t dict :=
  lift numpy_import ;;
  try_except
    (self <- get ;;
     lengths <- edge_lengths (edges_data self) ;;
     match lengths with
     | [] => ret []
     | x :: xs =>
         let mean := Numpy.mean x xs in
         let median := Numpy.median x xs in
         let std_dev := Numpy.std x xs in
         let min_val := Numpy.min x xs in
         let max_val := Numpy.max x xs in
         ret [("Mean"%string, mean); ("Median"%string, median); ("Std Dev"%string, std_dev);
              ("Min"%string, min_val); ("Max"%string, max_val)]
     end)
    (fun e =>
       log ERROR ("Error calculating edge statistics: " ++ exn_name e) ;;
       ret []).

Section Plotting.

(** The plotting libraries are outside the repository.  [imports] is the
    outcome of the [import] statements at the head of the [try] block;
    [draw_stereonet] and [draw_histogram] stand for the calls from the
    creation of the figure to [savefig] and [close], and return the path
    of the image or raise.  [numpy_import] is the outcome of the import
    that [get_edges_statistics] makes when [plot_edges_histogram] calls
    it. *)
Variable imports : result unit.
Variable numpy_import : result unit.
Variable draw_stereonet : R -> R -> list R -> list R -> R -> R -> result string.
Variable draw_histogram : R -> R -> list R -> result string.

(** [plot_faces_stereonet] *)
Definition plot_faces_stereonet : M t (option string) :=
  try_except
    (lift imports ;;
     self <- get ;;
     match faces_data self with
     | [] =>
         log WARNING "No face data to plot." ;;
         ret None
     | _ :: _ =>
         sd <- for_each (faces_data self)
                 (fun face (sd : list R * list R) =>
                    rot <- on_object face (getattr Face.rotated_azimuth) ;;
                    let strike := py_mod (rot + 90) 360 in
                    dip <- on_object face (getattr Face.dip) ;;
                    ret (fst sd ++ [strike], snd sd ++ [dip]))
                 ([], []) ;;
         stereonet_path <-
           lift (draw_stereonet (figure_width self) (figure_height self)
                   (fst sd) (snd sd) (marker_size self) (edge_width self)) ;;
         log INFO ("Faces stereonet saved to " ++ stereonet_path) ;;
         ret (Some stereonet_path)
     end)
    (fun e =>
       log ERROR ("Error generating faces stereonet: " ++ exn_name e) ;;
       ret None).

(** [plot_edges_histogram] *)
Definition plot_edges_histogram : M t (option string * dict) :=
  try_except
    (lift imports ;;
     self <- get ;;
     lengths <- edge_lengths (edges_data self) ;;
     match lengths with
     | [] =>
         log WARNING "No edge data to plot." ;;
         ret (None, [])
     | _ :: _ =>
         stats <- get_edges_statistics numpy_import ;;
         histogram_path <-
           lift (draw_histogram (figure_width self) (figure_height self) lengths) ;;
         log INFO ("Edges histogram saved to " ++ histogram_path) ;;
         ret (Some histogram_path, stats)
     end)
    (fun e =>
       log ERROR ("Error generating edges histogram: " ++ exn_name e) ;;
       ret (None, [])).

End Plotting.

End Visualizer.

(** * Closed forms

    What the methods return and leave behind, written as plain functions;
    the run lemmas below relate each of them to the method it describes.
    Also the sample inputs and the vocabulary the claims are stated in. *)

Module VectorForms.
Import Vector3D.

(** The state [azimuth] leaves [self] in: negated when [z] is negative. *)
Definition canonical (v : t) : t :=
  if Rlt_dec (z v) 0 then mk (- x v) (- y v) (- z v) else v.

(** The bearing of a vector's horizontal part, in degrees. *)
Definition bearing (v : t) : R :=
  py_mod (degrees (atan2 (x v) (y v))) 360.

Definition horizontal (v : t) : R := sqrt (x v ^ 2 + y v ^ 2).

(** The vector [edge2face] writes, from the bearing and the horizontal
    length of the canonical state. *)
Definition face_normal (v : t) : t :=
  let az := bearing (canonical v) in
  let len := horizontal (canonical v) in
  mk (- len * sin (radians az)) (- len * cos (radians az)) (- len).

End VectorForms.

Module EdgeForms.
Import VectorForms.

Definition midpoint (p1 p2 : Point.t) : Point.t :=
  Point.mk ((Point.x p1 + Point.x p2) / 2)
           ((Point.y p1 + Point.y p2) / 2)
           ((Point.z p1 + Point.z p2) / 2).

(** The vector [self.a] while length, azimuth and dip are read. *)
Definition edge_vector (p1 p2 : Point.t) : Vector3D.t :=
  canonical (Vector3D.of_points p1 p2).

(** The vector [self.a] once [edge2face] and the second [azimuth] call
    have overwritten it. *)
Definition normal_vector (p1 p2 : Point.t) : Vector3D.t :=
  canonical (face_normal (edge_vector p1 p2)).

(** The object [Edge(p1, p2)] builds, attribute by attribute. *)
Definition built (p1 p2 : Point.t) : Edge.t :=
  let v0 := Vector3D.of_points p1 p2 in
  let v := edge_vector p1 p2 in
  let n := normal_vector p1 p2 in
  Edge.mk (Some p1) (Some p2) (Some (midpoint p1 p2)) (Some n)
    (Some (sqrt (Vector3D.x v0 ^ 2 + Vector3D.y v0 ^ 2 + Vector3D.z v0 ^ 2)))
    (Some (bearing v))
    (Some (degrees (atan2 (horizontal v) (Vector3D.z v))))
    (Some (bearing n))
    (Some (degrees (atan2 (horizontal n) (Vector3D.z n))))
    (Some 0).

End EdgeForms.

Module AngleForms.
Import Vector3D.

Definition dot (a b : t) : R := x a * x b + y a * y b + z a * z b.
Definition norm (a : t) : R := sqrt (x a ^ 2 + y a ^ 2 + z a ^ 2).

(** What [self.degrees_with(other)] returns ... *)
Definition angle (self other : t) : R :=
  if Req_dec_T (norm self * norm other) 0 then 0
  else degrees (acos (dot self other / (norm self * norm other))).

(** ... and what it logs. *)
Definition angle_log (self other : t) : list log_record :=
  if Req_dec_T (norm self * norm other) 0
  then [LogRecord ERROR "Error calculating degrees between vectors: ZeroDivisionError"]
  else [].

End AngleForms.

Module FaceForms.
Import VectorForms AngleForms.

Definition centroid (p1 p2 p3 : Point.t) : Point.t :=
  Point.mk ((Point.x p1 + Point.x p2 + Point.x p3) / 3)
           ((Point.y p1 + Point.y p2 + Point.y p3) / 3)
           ((Point.z p1 + Point.z p2 + Point.z p3) / 3).

(** What [ab_vector] returns. *)
Definition ab_raw (p1 p2 p3 : Point.t) : Vector3D.t :=
  Vector3D.mul (Vector3D.of_points p2 p1) (Vector3D.of_points p3 p1).

(** The two sides [calculate_degree] measures the angle between. *)
Definition side_a (p1 p2 : Point.t) : Vector3D.t := Vector3D.of_points p2 p1.
Definition side_b (p2 p3 : Point.t) : Vector3D.t := Vector3D.of_points p2 p3.

(** The object [Face(p1, p2, p3)] builds, attribute by attribute. *)
Definition built (p1 p2 p3 : Point.t) : Face.t :=
  let ab := canonical (ab_raw p1 p2 p3) in
  Face.mk (Some p1) (Some p2) (Some p3) (Some (centroid p1 p2 p3)) (Some ab)
    (Some (bearing ab))
    (Some (degrees (atan2 (horizontal ab) (Vector3D.z ab))))
    (Some (norm ab / 2))
    (Some 0)
    (Some (angle (side_a p1 p2) (side_b p2 p3))).

End FaceForms.

Module BatchForms.
Import VectorForms AngleForms MeasurementsParser.

(** The edge a group of at least two points yields. *)
Definition processed_edge (delta : R) (p0 p1 : Point.t) : Edge.t :=
  Edge.set_rotated_azimuth
    (wrap_rotated (bearing (EdgeForms.edge_vector p0 p1) + delta))
    (EdgeForms.built p0 p1).

Definition edge_item (delta : R) (edge_points : list Point.t) : list Edge.t :=
  match edge_points with
  | p0 :: p1 :: _ => [processed_edge delta p0 p1]
  | _ => []
  end.

Definition edge_warning : log_record :=
  LogRecord WARNING "Edge with less than 2 points encountered during processing.".

Definition edge_logs (edge_points : list Point.t) : list log_record :=
  match edge_points with
  | _ :: _ :: _ => []
  | _ => [edge_warning]
  end.

(** The face a group of at least three points yields. *)
Definition processed_face (delta : R) (p0 p1 p2 : Point.t) : Face.t :=
  Face.set_rotated_azimuth
    (wrap_rotated (bearing (canonical (FaceForms.ab_raw p0 p1 p2)) + delta))
    (FaceForms.built p0 p1 p2).

Definition face_item (delta : R) (face_points : list Point.t) : list Face.t :=
  match face_points with
  | p0 :: p1 :: p2 :: _ => [processed_face delta p0 p1 p2]
  | _ => []
  end.

Definition face_warning : log_record :=
  LogRecord WARNING "Face with less than 3 points encountered during processing.".

Definition face_logs (face_points : list Point.t) : list log_record :=
  match face_points with
  | p0 :: p1 :: p2 :: _ => angle_log (FaceForms.side_a p0 p1) (FaceForms.side_b p1 p2)
  | _ => [face_warning]
  end.

End BatchForms.

Module Face350.

Definition p1 : Point.t := Point.mk 0 0 0.
Definition p2 : Point.t := Point.mk 0 0 1.
Definition p3 : Point.t := Point.mk (cos (PI / 18)) (sin (PI / 18)) 0.

End Face350.

Module Wording.
Import VectorForms.

(** The rotated azimuth in the claims' words: raw azimuth plus delta,
    reduced by 360 if the sum reaches 360. *)
Definition reduced_sum (az delta : R) : R :=
  if Rge_dec (az + delta) 360 then az + delta - 360 else az + delta.

(** The delta in the claims' words: the difference, plus 360 when it is
    negative. *)
Definition wrapped_difference (az_real az_model : R) : R :=
  if Rlt_dec (az_real - az_model) 0
  then az_real - az_model + 360
  else az_real - az_model.

(** An edge pointing along +Y: its azimuth is 0. *)
Definition origin : Point.t := Point.mk 0 0 0.
Definition north : Point.t := Point.mk 0 1 0.

Definition east : Point.t := Point.mk 1 0 0.
Definition up : Point.t := Point.mk 0 0 1.

(** The face over (0,0,0), (0,1,0), (1,0,0): its cross product points
    down. *)
Definition south_east_face : Point.t * Point.t * Point.t :=
  (Point.mk 0 0 0, Point.mk 0 1 0, Point.mk 1 0 0).

(** The cross product of the claim: [cross(P2 - P1, P3 - P1)]. *)
Definition cross_of_sides (p1 p2 p3 : Point.t) : Vector3D.t :=
  Vector3D.mul (Vector3D.of_points p1 p2) (Vector3D.of_points p1 p3).

Definition zero_vector : Vector3D.t := Vector3D.mk 0 0 0.

Definition degrees_error : log_record :=
  LogRecord ERROR "Error calculating degrees between vectors: ZeroDivisionError".

(** The entity the batch makes of a group of points: the [Edge] over its
    first two points, the [Face] over its first three, as the constructor
    builds it, with [rotated_azimuth] set to [rot] of its azimuth. *)
Definition edge_of_group (rot : R -> R) (points : list Point.t) (e : Edge.t) : Prop :=
  exists p0 p1 rest e0 az,
    points = p0 :: p1 :: rest /\
    Edge.new p0 p1 tt = (Ok e0, tt, []) /\
    Edge.azimuth e0 = Some az /\
    e = Edge.set_rotated_azimuth (rot az) e0.

Definition face_of_group (rot : R -> R) (points : list Point.t) (f : Face.t) : Prop :=
  exists p0 p1 p2 rest f0 log az,
    points = p0 :: p1 :: p2 :: rest /\
    Face.new p0 p1 p2 tt = (Ok f0, tt, log) /\
    Face.azimuth f0 = Some az /\
    f = Face.set_rotated_azimuth (rot az) f0.

End Wording.

(** The vocabulary of the further properties. *)
Module ExtraForms.

Definition level_eqb (a b : level) : bool :=
  match a, b with
  | INFO, INFO | WARNING, WARNING | ERROR, ERROR => true
  | _, _ => false
  end.

(** The records of one level, in the order they were logged. *)
Definition records_at (l : level) (log : list log_record) : list log_record :=
  filter (fun r => level_eqb (lvl r) l) log.

(** The strokes [parse_dimensions] takes for faces, for edges, and the
    record it logs for each of the others. *)
Definition has_three (points : list Point.t) : bool :=
  (List.length points =? 3)%nat.

Definition has_two (points : list Point.t) : bool :=
  (List.length points =? 2)%nat.

Definition stroke_log (points : list Point.t) : list log_record :=
  if has_three points then []
  else if has_two points then []
  else [LogRecord WARNING ("Stroke with unexpected number of points: "
                           ++ str_of_nat (List.length points))].

Definition layer_found : log_record :=
  LogRecord INFO "Annotations and RulerData3D layer found.".

Definition layer_missing : log_record :=
  LogRecord WARNING "No annotations or 'RulerData3D' layer found.".

Definition parsed_summary (n_faces n_edges : nat) : log_record :=
  LogRecord INFO ("Parsed " ++ str_of_nat n_faces ++ " faces and "
                  ++ str_of_nat n_edges ++ " edges.").

Definition processed_summary (n : nat) (what : string) : log_record :=
  LogRecord INFO ("Processed " ++ str_of_nat n ++ " " ++ what ++ ".").

(** The strike [plot_faces_stereonet] plots a face at. *)
Definition strike_of (rotated_azimuth : R) : R :=
  py_mod (rotated_azimuth + 90) 360.

(** The dict [get_edges_statistics] makes of the lengths. *)
Definition stats_of (lengths : list R) : Visualizer.dict :=
  match lengths with
  | [] => []
  | x :: xs =>
      [("Mean"%string, Numpy.mean x xs); ("Median"%string, Numpy.median x xs);
       ("Std Dev"%string, Numpy.std x xs); ("Min"%string, Numpy.min x xs);
       ("Max"%string, Numpy.max x xs)]
  end.

Definition statistics_error : log_record :=
  LogRecord ERROR "Error calculating edge statistics: AttributeError".

Definition no_face_data : log_record :=
  LogRecord WARNING "No face data to plot.".

Definition no_edge_data : log_record :=
  LogRecord WARNING "No edge data to plot.".

Definition stereonet_saved (path : string) : log_record :=
  LogRecord INFO ("Faces stereonet saved to " ++ path).

Definition stereonet_error (e : exn) : log_record :=
  LogRecord ERROR ("Error generating faces stereonet: " ++ exn_name e).

Definition histogram_saved (path : string) : log_record :=
  LogRecord INFO ("Edges histogram saved to " ++ path).

Definition histogram_error (e : exn) : log_record :=
  LogRecord ERROR ("Error generating edges histogram: " ++ exn_name e).

End ExtraForms.

(** * Properties *)

(** ** The [math] layer *)

Ltac run_monad :=
  cbv beta iota zeta delta
    [bind ret get put modify lift log raise try_except getattr on_object
     index call_on];
  cbn [app].

Section MathFacts.

Lemma py_sqrt_nonneg (x : R) : 0 <= x -> py_sqrt x = Ok (sqrt x).
Proof.
  intros Hx. unfold py_sqrt. destruct (Rlt_dec x 0); [lra | reflexivity].
Qed.

Lemma sum_sq2_nonneg (a b : R) : 0 <= a ^ 2 + b ^ 2.
Proof. pose proof (pow2_ge_0 a). pose proof (pow2_ge_0 b). lra. Qed.

Lemma sum_sq3_nonneg (a b c : R) : 0 <= a ^ 2 + b ^ 2 + c ^ 2.
Proof. pose proof (sum_sq2_nonneg a b). pose proof (pow2_ge_0 c). lra. Qed.

Lemma degrees_radians (d : R) : degrees (radians d) = d.
Proof. unfold degrees, radians. pose proof PI_RGT_0. field. lra. Qed.

Lemma radians_degrees (r : R) : radians (degrees r) = r.
Proof. unfold degrees, radians. pose proof PI_RGT_0. field. lra. Qed.

Lemma degrees_le (a b : R) : a <= b -> degrees a <= degrees b.
Proof.
  intros H. unfold degrees. apply Rmult_le_compat_r; [| exact H].
  pose proof PI_RGT_0. apply Rlt_le, Rdiv_lt_0_compat; lra.
Qed.

Lemma degrees_lt (a b : R) : a < b -> degrees a < degrees b.
Proof.
  intros H. unfold degrees. apply Rmult_lt_compat_r; [| exact H].
  pose proof PI_RGT_0. apply Rdiv_lt_0_compat; lra.
Qed.

Lemma degrees_PI : degrees PI = 180.
Proof. unfold degrees. pose proof PI_RGT_0. field. lra. Qed.

Lemma degrees_0 : degrees 0 = 0.
Proof. unfold degrees. lra. Qed.

(** The floored remainder lies in [[0, m)]. *)
Lemma py_mod_range (x m : R) : 0 < m -> 0 <= py_mod x m < m.
Proof.
  intros Hm. unfold py_mod.
  destruct (Zfloor_bound (x / m)) as [Hlo Hhi].
  assert (Hx : x = m * (x / m)) by (field; lra).
  split.
  - apply (Rmult_le_compat_l m) in Hlo; lra.
  - apply (Rmult_lt_compat_l m) in Hhi; lra.
Qed.

Lemma py_mod_small (x m : R) : 0 <= x < m -> py_mod x m = x.
Proof.
  intros [Hlo Hhi]. unfold py_mod.
  assert (Hm : 0 < m) by lra.
  rewrite (Zfloor_eq 0 (x / m)); [lra |].
  split.
  - apply Rmult_le_pos; [lra |]. apply Rlt_le, Rinv_0_lt_compat, Hm.
  - apply (Rmult_lt_reg_r m); [exact Hm |].
    replace (x / m * m) with x by (field; lra). lra.
Qed.

Lemma py_mod_neg (x m : R) : - m <= x < 0 -> py_mod x m = x + m.
Proof.
  intros [Hlo Hhi]. unfold py_mod.
  assert (Hm : 0 < m) by lra.
  rewrite (Zfloor_eq (-1) (x / m)); [lra |].
  split.
  - apply (Rmult_le_reg_r m); [exact Hm |].
    replace (x / m * m) with x by (field; lra). lra.
  - apply (Rmult_lt_reg_r m); [exact Hm |].
    replace (x / m * m) with x by (field; lra). lra.
Qed.

(** [atan2] lies in [(-PI, PI]]. *)
Lemma atan2_bound (y x : R) : - PI < atan2 y x <= PI.
Proof.
  unfold atan2. pose proof PI_RGT_0 as HPI.
  pose proof (atan_bound (y / x)) as Hb.
  destruct (Rlt_dec 0 x) as [Hx | Hx]; [lra |].
  destruct (Rlt_dec x 0) as [Hx' | Hx'].
  - assert (Hinv : / x < 0) by (apply Rinv_lt_0_compat; exact Hx').
    destruct (Rle_dec 0 y) as [Hy | Hy].
    + assert (y / x <= 0) by (unfold Rdiv; nra).
      assert (atan (y / x) <= 0).
      { destruct (Req_dec (y / x) 0) as [E | E].
        - rewrite E, atan_0. lra.
        - left. rewrite <- atan_0. apply atan_increasing. lra. }
      lra.
    + assert (0 < y / x) by (unfold Rdiv; nra).
      assert (0 < atan (y / x)).
      { rewrite <- atan_0. apply atan_increasing. lra. }
      lra.
  - destruct (Rlt_dec 0 y); [lra |].
    destruct (Rlt_dec y 0); lra.
Qed.

(** On a non-negative first argument [atan2] lies in [[0, PI]]. *)
Lemma atan2_nonneg (y x : R) : 0 <= y -> 0 <= atan2 y x <= PI.
Proof.
  intros Hy. pose proof (atan2_bound y x) as [_ Hhi]. split; [| exact Hhi].
  unfold atan2. pose proof PI_RGT_0 as HPI.
  pose proof (atan_bound (y / x)) as Hb.
  destruct (Rlt_dec 0 x) as [Hx | Hx].
  - assert (Hinv : 0 < / x) by (apply Rinv_0_lt_compat; exact Hx).
    assert (0 <= y / x) by (unfold Rdiv; nra).
    destruct (Req_dec (y / x) 0) as [E | E].
    + rewrite E, atan_0. lra.
    + left. rewrite <- atan_0. apply atan_increasing. lra.
  - destruct (Rlt_dec x 0) as [Hx' | Hx'].
    + destruct (Rle_dec 0 y); lra.
    + destruct (Rlt_dec 0 y); [lra |].
      destruct (Rlt_dec y 0); lra.
Qed.

End MathFacts.

Section Atan2Trig.

Lemma hypot_pos (x y : R) : x <> 0 \/ y <> 0 -> 0 < sqrt (x ^ 2 + y ^ 2).
Proof.
  intros H. apply sqrt_lt_R0.
  pose proof (pow2_ge_0 x). pose proof (pow2_ge_0 y).
  destruct H as [H | H].
  - assert (0 < x ^ 2) by (rewrite <- Rsqr_pow2; apply Rlt_0_sqr, H). lra.
  - assert (0 < y ^ 2) by (rewrite <- Rsqr_pow2; apply Rlt_0_sqr, H). lra.
Qed.

Lemma hypot_factor (x y : R) :
  x <> 0 -> sqrt (x ^ 2 + y ^ 2) = Rabs x * sqrt (1 + (y / x)²).
Proof.
  intros Hx.
  rewrite <- (sqrt_Rsqr_abs x), <- sqrt_mult.
  - f_equal. unfold Rsqr. field. exact Hx.
  - apply Rle_0_sqr.
  - pose proof (Rle_0_sqr (y / x)). lra.
Qed.

Lemma sqrt_one_plus_sqr_pos (t : R) : 0 < sqrt (1 + t²).
Proof. apply sqrt_lt_R0. pose proof (Rle_0_sqr t). lra. Qed.

(** [atan2 y x] is the angle of [(x, y)]: its sine and cosine are the
    normalised coordinates. *)
Lemma sin_cos_atan2 (y x : R) :
  x <> 0 \/ y <> 0 ->
  sin (atan2 y x) = y / sqrt (x ^ 2 + y ^ 2) /\
  cos (atan2 y x) = x / sqrt (x ^ 2 + y ^ 2).
Proof.
  intros Hne. pose proof (hypot_pos x y Hne) as HS.
  unfold atan2.
  destruct (Rlt_dec 0 x) as [Hx | Hx].
  - pose proof (sqrt_one_plus_sqr_pos (y / x)) as Hq.
    rewrite sin_atan, cos_atan, (hypot_factor x y) by lra.
    rewrite Rabs_pos_eq by lra.
    split; field; lra.
  - destruct (Rlt_dec x 0) as [Hx' | Hx'].
    + pose proof (sqrt_one_plus_sqr_pos (y / x)) as Hq.
      assert (Hsin : forall a, sin (a - PI) = - sin a).
      { intros a. rewrite sin_minus, sin_PI, cos_PI. ring. }
      assert (Hcos : forall a, cos (a - PI) = - cos a).
      { intros a. rewrite cos_minus, sin_PI, cos_PI. ring. }
      destruct (Rle_dec 0 y) as [Hy | Hy].
      * rewrite neg_sin, neg_cos, sin_atan, cos_atan, (hypot_factor x y) by lra.
        rewrite Rabs_left by lra.
        split; field; lra.
      * rewrite Hsin, Hcos, sin_atan, cos_atan, (hypot_factor x y) by lra.
        rewrite Rabs_left by lra.
        split; field; lra.
    + assert (x = 0) by lra. subst x.
      assert (Hy : y <> 0) by (destruct Hne; [lra | assumption]).
      replace (0 ^ 2 + y ^ 2) with (y²) in * by (unfold Rsqr; ring).
      rewrite sqrt_Rsqr_abs in *.
      destruct (Rlt_dec 0 y) as [Hy1 | Hy1].
      * rewrite sin_PI2, cos_PI2, Rabs_pos_eq by lra.
        split; field; lra.
      * destruct (Rlt_dec y 0) as [Hy2 | Hy2]; [| lra].
        rewrite sin_neg, cos_neg, sin_PI2, cos_PI2, Rabs_left by lra.
        split; field; lra.
Qed.

Lemma atan2_diag (l : R) : 0 < l -> atan2 l l = PI / 4.
Proof.
  intros Hl. unfold atan2.
  destruct (Rlt_dec 0 l); [| lra].
  replace (l / l) with 1 by (field; lra). apply atan_1.
Qed.

Lemma atan2_origin : atan2 0 0 = 0.
Proof.
  unfold atan2.
  destruct (Rlt_dec 0 0); [lra |]. reflexivity.
Qed.

Lemma atan2_pos_axis (y : R) : 0 < y -> atan2 y 0 = PI / 2.
Proof.
  intros Hy. unfold atan2.
  destruct (Rlt_dec 0 0); [lra |].
  destruct (Rlt_dec 0 y); [reflexivity | lra].
Qed.

(** Wrapping an angle of [(-180, 180]] degrees into [[0, 360)] moves it by
    a whole turn at most: sine and cosine are unchanged. *)
Lemma trig_radians_wrapped (r : R) :
  - PI < r <= PI ->
  sin (radians (py_mod (degrees r) 360)) = sin r /\
  cos (radians (py_mod (degrees r) 360)) = cos r.
Proof.
  intros [Hlo Hhi]. pose proof PI_RGT_0 as HPI.
  assert (Hd : -180 < degrees r <= 180).
  { pose proof (degrees_lt _ _ Hlo) as H1.
    pose proof (degrees_le _ _ Hhi) as H2.
    replace (degrees (- PI)) with (- degrees PI) in H1 by (unfold degrees; ring).
    rewrite degrees_PI in H1, H2. lra. }
  destruct (Rlt_dec (degrees r) 0) as [Hneg | Hpos].
  - rewrite py_mod_neg by lra.
    replace (radians (degrees r + 360)) with (r + 2 * PI).
    + rewrite sin_plus, cos_plus, sin_2PI, cos_2PI. split; ring.
    + unfold radians. rewrite <- (radians_degrees r) at 1.
      unfold radians. field.
  - rewrite py_mod_small by lra.
    rewrite radians_degrees. split; reflexivity.
Qed.

End Atan2Trig.

(** ** Vector3D: what each method returns and leaves behind *)

Module Vector3DFacts.
Import Vector3D VectorForms.

Lemma length_run (v : t) :
  length v = (Ok (sqrt (x v ^ 2 + y v ^ 2 + z v ^ 2)), v, []).
Proof.
  unfold length. run_monad.
  rewrite py_sqrt_nonneg by apply sum_sq3_nonneg. reflexivity.
Qed.

Lemma azimuth_run (v : t) :
  azimuth v = (Ok (bearing (canonical v)), canonical v, []).
Proof.
  unfold azimuth, canonical, bearing, multiply_minus. run_monad.
  destruct (Rlt_dec (z v) 0); reflexivity.
Qed.

Lemma dip_run (v : t) :
  dip v = (Ok (degrees (atan2 (horizontal v) (z v))), v, []).
Proof.
  unfold dip, horizontal. run_monad.
  rewrite py_sqrt_nonneg by apply sum_sq2_nonneg. reflexivity.
Qed.

Lemma edge2face_run (v : t) :
  edge2face v = (Ok tt, face_normal v, []).
Proof.
  unfold edge2face. unfold bind at 1. rewrite azimuth_run.
  unfold face_normal, horizontal. run_monad.
  rewrite py_sqrt_nonneg by apply sum_sq2_nonneg. reflexivity.
Qed.

Lemma canonical_z_nonneg (v : t) : 0 <= z (canonical v).
Proof.
  unfold canonical. destruct (Rlt_dec (z v) 0); cbn [z]; lra.
Qed.

Lemma canonical_idem (v : t) : 0 <= z v -> canonical v = v.
Proof.
  intros H. unfold canonical. destruct (Rlt_dec (z v) 0); [lra | reflexivity].
Qed.

Lemma bearing_range (v : t) : 0 <= bearing v < 360.
Proof. unfold bearing. apply py_mod_range. lra. Qed.

Lemma horizontal_nonneg (v : t) : 0 <= horizontal v.
Proof. unfold horizontal. apply sqrt_pos. Qed.

Lemma horizontal_canonical (v : t) : horizontal (canonical v) = horizontal v.
Proof.
  unfold canonical, horizontal. destruct (Rlt_dec (z v) 0); cbn [x y]; [| reflexivity].
  f_equal. ring.
Qed.

End Vector3DFacts.

(** ** Edge: the constructor never raises *)

Module EdgeFacts.
Import VectorForms Vector3DFacts EdgeForms.

Ltac run_edge :=
  cbv beta iota zeta delta
    [bind ret get put modify lift log raise try_except getattr on_object
     index call_on
     Edge.point1 Edge.point2 Edge.center Edge.a Edge.length Edge.azimuth
     Edge.dip Edge.edge_azimuth Edge.edge_dip Edge.rotated_azimuth
     Edge.set_point1 Edge.set_point2 Edge.set_center Edge.set_a
     Edge.set_length Edge.set_azimuth Edge.set_dip Edge.set_edge_azimuth
     Edge.set_edge_dip Edge.set_rotated_azimuth Edge.empty
     Edge.calculate_center Edge.init_body Edge.init Edge.new];
  cbn [app].

Lemma edge_init_run (p1 p2 : Point.t) :
  Edge.init p1 p2 Edge.empty = (Ok tt, built p1 p2, []).
Proof.
  run_edge.
  rewrite length_run. run_edge.
  rewrite azimuth_run. run_edge.
  rewrite dip_run. run_edge.
  rewrite edge2face_run. run_edge.
  rewrite azimuth_run. run_edge.
  rewrite dip_run. run_edge.
  reflexivity.
Qed.

Lemma edge_new_run {S : Type} (p1 p2 : Point.t) (s : S) :
  Edge.new p1 p2 s = (Ok (built p1 p2), s, []).
Proof. unfold Edge.new. rewrite edge_init_run. reflexivity. Qed.

End EdgeFacts.

(** ** Vector3D.degrees_with: the only exception is the division by zero *)

Module AngleFacts.
Import Vector3D AngleForms.

Lemma norm_nonneg (a : t) : 0 <= norm a.
Proof. apply sqrt_pos. Qed.

Lemma norm_sq (a : t) : norm a * norm a = x a ^ 2 + y a ^ 2 + z a ^ 2.
Proof. unfold norm. apply sqrt_sqrt, sum_sq3_nonneg. Qed.

(** Cauchy-Schwarz, through Lagrange's identity. *)
Lemma dot_sq_le (a b : t) : dot a b * dot a b <= (norm a * norm b) * (norm a * norm b).
Proof.
  replace (norm a * norm b * (norm a * norm b))
    with ((norm a * norm a) * (norm b * norm b)) by ring.
  rewrite !norm_sq. unfold dot.
  pose proof (pow2_ge_0 (y a * z b - y b * z a)).
  pose proof (pow2_ge_0 (x a * z b - x b * z a)).
  pose proof (pow2_ge_0 (x a * y b - x b * y a)).
  nra.
Qed.

Lemma cosine_in_domain (a b : t) :
  norm a * norm b <> 0 -> -1 <= dot a b / (norm a * norm b) <= 1.
Proof.
  intros Hne.
  pose proof (norm_nonneg a). pose proof (norm_nonneg b).
  assert (Hpos : 0 < norm a * norm b).
  { assert (0 <= norm a * norm b) by (apply Rmult_le_pos; assumption). lra. }
  pose proof (dot_sq_le a b) as Hcs.
  assert (Habs : - (norm a * norm b) <= dot a b <= norm a * norm b).
  { assert (Hle : Rabs (dot a b) <= Rabs (norm a * norm b))
      by (apply Rsqr_le_abs_0; unfold Rsqr; exact Hcs).
    rewrite (Rabs_pos_eq (norm a * norm b)) in Hle by lra.
    pose proof (Rle_abs (dot a b)).
    pose proof (Rle_abs (- dot a b)) as Hn. rewrite Rabs_Ropp in Hn.
    lra. }
  assert (Hq : dot a b / (norm a * norm b) * (norm a * norm b) = dot a b).
  { unfold Rdiv. rewrite Rmult_assoc, Rinv_l by exact Hne. ring. }
  split.
  - apply (Rmult_le_reg_r (norm a * norm b)); [exact Hpos |].
    rewrite Hq. lra.
  - apply (Rmult_le_reg_r (norm a * norm b)); [exact Hpos |].
    rewrite Hq. lra.
Qed.

Lemma degrees_with_run (self other : t) :
  degrees_with other self = (Ok (angle self other), self, angle_log self other).
Proof.
  unfold degrees_with, try_except, angle, angle_log.
  unfold bind at 1. unfold get at 1. cbv beta iota zeta.
  unfold bind at 1. rewrite Vector3DFacts.length_run. cbv beta iota.
  unfold bind at 1. unfold on_object at 1.
  rewrite Vector3DFacts.length_run. cbv beta iota.
  fold (norm self). fold (norm other). fold (dot self other).
  unfold py_div.
  destruct (Req_dec_T (norm self * norm other) 0) as [Hz | Hnz].
  - run_monad. reflexivity.
  - run_monad.
    pose proof (cosine_in_domain self other Hnz) as [Hlo Hhi].
    unfold py_acos.
    destruct (Rlt_dec (dot self other / (norm self * norm other)) (-1)); [lra |].
    destruct (Rlt_dec 1 (dot self other / (norm self * norm other))); [lra |].
    reflexivity.
Qed.

End AngleFacts.

(** ** Face: the constructor never raises *)

Module FaceFacts.
Import VectorForms Vector3DFacts AngleForms AngleFacts FaceForms.

Ltac run_face :=
  cbv beta iota zeta delta
    [bind ret get put modify lift log raise try_except getattr on_object
     index call_on
     Face.point1 Face.point2 Face.point3 Face.center Face.ab Face.azimuth
     Face.dip Face.area Face.rotated_azimuth Face.degree
     Face.set_point1 Face.set_point2 Face.set_point3 Face.set_center
     Face.set_ab Face.set_azimuth Face.set_dip Face.set_area
     Face.set_rotated_azimuth Face.set_degree Face.empty
     Face.calculate_center Face.ab_vector Face.calculate_degree
     Face.calculate_area Face.init_body Face.init Face.new];
  cbn [app].

Lemma face_init_run (p1 p2 p3 : Point.t) :
  Face.init p1 p2 p3 Face.empty
  = (Ok tt, built p1 p2 p3, angle_log (side_a p1 p2) (side_b p2 p3)).
Proof.
  run_face.
  rewrite azimuth_run. run_face.
  rewrite dip_run. run_face.
  rewrite length_run. run_face.
  rewrite degrees_with_run. run_face.
  rewrite app_nil_r. reflexivity.
Qed.

Lemma face_new_run {S : Type} (p1 p2 p3 : Point.t) (s : S) :
  Face.new p1 p2 p3 s
  = (Ok (built p1 p2 p3), s, angle_log (side_a p1 p2) (side_b p2 p3)).
Proof. unfold Face.new. rewrite face_init_run. reflexivity. Qed.

End FaceFacts.

(** ** MeasurementsParser: the batch loops in closed form *)

Module ParserFacts.
Import VectorForms AngleForms MeasurementsParser BatchForms.

(** A loop whose body appends at most one item and never raises is a
    filtering map, and its log is the bodies' logs in order. *)
Lemma for_each_collect {S A B : Type}
    (body : A -> list B -> M S (list B))
    (item : A -> list B) (logs : A -> list log_record) :
  (forall x acc s, body x acc s = (Ok (acc ++ item x), s, logs x)) ->
  forall xs acc s,
    for_each xs body acc s
    = (Ok (acc ++ flat_map item xs), s, flat_map logs xs).
Proof.
  intros Hbody xs. induction xs as [| x xs IH]; intros acc s.
  - cbn [for_each flat_map]. unfold ret. rewrite app_nil_r. reflexivity.
  - cbn [for_each flat_map]. unfold bind. rewrite Hbody, IH.
    rewrite app_assoc. reflexivity.
Qed.

Lemma get_processed_edges_run (az_real az_model : R) (self : t) :
  let out := flat_map (edge_item (calibration_delta az_real az_model)) (edges self) in
  get_processed_edges az_real az_model self
  = (Ok out, self,
     flat_map edge_logs (edges self)
     ++ [LogRecord INFO ("Processed " ++ str_of_nat (List.length out) ++ " edges.")]).
Proof.
  intros out. unfold get_processed_edges.
  unfold bind at 1. unfold get at 1. cbv beta iota zeta.
  unfold bind at 1.
  rewrite (for_each_collect _ (edge_item (calibration_delta az_real az_model)) edge_logs).
  - cbn [app]. fold out. run_monad. reflexivity.
  - intros ps acc s.
    destruct ps as [| p0 [| p1 rest]].
    + cbn. rewrite app_nil_r. reflexivity.
    + cbn. rewrite app_nil_r. reflexivity.
    + cbn [List.length Nat.leb edge_item edge_logs].
      unfold try_except, index. cbn [nth_error].
      unfold bind at 1. cbv beta iota.
      unfold bind at 1. cbv beta iota.
      unfold bind at 1. rewrite EdgeFacts.edge_new_run. cbv beta iota.
      reflexivity.
Qed.

Lemma get_processed_faces_run (az_real az_model : R) (self : t) :
  let out := flat_map (face_item (calibration_delta az_real az_model)) (faces self) in
  get_processed_faces az_real az_model self
  = (Ok out, self,
     flat_map face_logs (faces self)
     ++ [LogRecord INFO ("Processed " ++ str_of_nat (List.length out) ++ " faces.")]).
Proof.
  intros out. unfold get_processed_faces.
  unfold bind at 1. unfold get at 1. cbv beta iota zeta.
  unfold bind at 1.
  rewrite (for_each_collect _ (face_item (calibration_delta az_real az_model)) face_logs).
  - cbn [app]. fold out. run_monad. reflexivity.
  - intros ps acc s.
    destruct ps as [| p0 [| p1 [| p2 rest]]].
    + cbn. rewrite app_nil_r. reflexivity.
    + cbn. rewrite app_nil_r. reflexivity.
    + cbn. rewrite app_nil_r. reflexivity.
    + cbn [List.length Nat.leb face_item face_logs].
      unfold try_except, index. cbn [nth_error].
      unfold bind at 1. cbv beta iota.
      unfold bind at 1. cbv beta iota.
      unfold bind at 1. cbv beta iota.
      unfold bind at 1. rewrite FaceFacts.face_new_run. cbv beta iota.
      run_monad.
      change (Face.azimuth (FaceForms.built p0 p1 p2))
        with (Some (bearing (canonical (FaceForms.ab_raw p0 p1 p2)))).
      cbv beta iota. cbn [app]. rewrite app_nil_r. reflexivity.
Qed.

(** [parse_dimensions] and the constructor in closed form: the strokes
    are sorted by their number of points. *)
Section ParseRun.
Import ExtraForms.

Lemma parse_loop (strokes : list (list Point.t)) :
  forall fs es,
    for_each strokes
      (fun point_objects (_ : unit) =>
         self <- get ;;
         if (List.length point_objects =? 3)%nat then
           put (mk (faces self ++ [point_objects]) (edges self))
         else if (List.length point_objects =? 2)%nat then
           put (mk (faces self) (edges self ++ [point_objects]))
         else
           log WARNING ("Stroke with unexpected number of points: "
                        ++ str_of_nat (List.length point_objects)))
      tt (mk fs es)
    = (Ok tt,
       mk (fs ++ filter has_three strokes) (es ++ filter has_two strokes),
       flat_map stroke_log strokes).
Proof.
  unfold stroke_log, has_three, has_two.
  induction strokes as [| ps strokes IH]; intros fs es.
  - cbn [for_each filter flat_map]. unfold ret. rewrite !app_nil_r. reflexivity.
  - cbn [for_each filter flat_map]. unfold bind at 1.
    unfold bind at 1, get at 1. cbv beta iota.
    destruct (List.length ps =? 3)%nat eqn:E3.
    + assert (E2 : (List.length ps =? 2)%nat = false).
      { apply Nat.eqb_eq in E3. rewrite E3. reflexivity. }
      rewrite E2. unfold put. cbn [faces edges app].
      rewrite IH. rewrite <- app_assoc. reflexivity.
    + destruct (List.length ps =? 2)%nat eqn:E2.
      * unfold put. cbn [faces edges app].
        rewrite IH. rewrite <- app_assoc. reflexivity.
      * unfold log. cbn [app]. rewrite IH. reflexivity.
Qed.

Lemma parse_dimensions_run (strokes : list (list Point.t)) (self : t) :
  parse_dimensions (Some strokes) self
  = (Ok tt,
     mk (filter has_three strokes) (filter has_two strokes),
     layer_found :: flat_map stroke_log strokes
     ++ [parsed_summary (List.length (filter has_three strokes))
                        (List.length (filter has_two strokes))]).
Proof.
  unfold parse_dimensions.
  unfold bind at 1, put at 1. cbv beta iota.
  unfold bind at 1, log at 1. cbv beta iota.
  unfold bind at 1. rewrite parse_loop. cbn [app].
  run_monad. reflexivity.
Qed.

Lemma new_run (strokes : list (list Point.t)) :
  MeasurementsParser.new (Some strokes) tt
  = (Ok (mk (filter has_three strokes) (filter has_two strokes)), tt,
     layer_found :: flat_map stroke_log strokes
     ++ [parsed_summary (List.length (filter has_three strokes))
                        (List.length (filter has_two strokes))]).
Proof.
  unfold MeasurementsParser.new, MeasurementsParser.init.
  unfold bind at 1, modify at 1. cbv beta iota.
  unfold bind at 1, modify at 1. cbv beta iota.
  rewrite parse_dimensions_run. reflexivity.
Qed.

Lemma stroke_logs_are_warnings (strokes : list (list Point.t)) :
  records_at WARNING (flat_map stroke_log strokes) = flat_map stroke_log strokes.
Proof.
  induction strokes as [| ps strokes IH]; [reflexivity |].
  cbn [flat_map]. unfold records_at in *. rewrite filter_app, IH. f_equal.
  unfold stroke_log. destruct (has_three ps); [reflexivity |].
  destruct (has_two ps); reflexivity.
Qed.

End ParseRun.

(** Upstream of the batch, [parse_dimensions] keeps the strokes of two and
    of three points only: a stroke of four points is dropped with a warning
    and never reaches [self.edges]. *)
Lemma parse_dimensions_drops_long_stroke (p q a b c d : Point.t) (self : t) :
  parse_dimensions (Some [[p; q]; [a; b; c; d]]) self
  = (Ok tt, mk [] [[p; q]],
     [LogRecord INFO "Annotations and RulerData3D layer found.";
      LogRecord WARNING "Stroke with unexpected number of points: 4";
      LogRecord INFO "Parsed 0 faces and 1 edges."]).
Proof. reflexivity. Qed.

End ParserFacts.

(** ** Azimuth correction *)

Module CorrectionFacts.
Import VectorForms Vector3DFacts MeasurementsParser.
Import BatchForms ParserFacts.

Lemma calibration_delta_neg (az_real az_model : R) :
  az_real - az_model < 0 ->
  calibration_delta az_real az_model = az_real - az_model + 360.
Proof.
  intros H. unfold calibration_delta.
  destruct (Rlt_dec (az_real - az_model) 0); [reflexivity | lra].
Qed.

Lemma calibration_delta_small (az_real az_model : R) :
  0 <= az_real - az_model < 360 ->
  calibration_delta az_real az_model = az_real - az_model.
Proof.
  intros H. unfold calibration_delta.
  destruct (Rlt_dec (az_real - az_model) 0); [lra |].
  apply py_mod_small, H.
Qed.

(** The delta is a bearing as soon as the difference is not below -360. *)
Lemma calibration_delta_range (az_real az_model : R) :
  -360 <= az_real - az_model ->
  0 <= calibration_delta az_real az_model < 360.
Proof.
  intros H. unfold calibration_delta.
  destruct (Rlt_dec (az_real - az_model) 0); [lra |].
  apply py_mod_range. lra.
Qed.

Lemma wrap_rotated_nonneg (r : R) :
  0 <= r ->
  wrap_rotated r = if Rge_dec r 360 then r - 360 else r.
Proof.
  intros H. unfold wrap_rotated.
  destruct (Rge_dec r 360); [reflexivity |].
  destruct (Rlt_dec r 0); [lra | reflexivity].
Qed.



(** Below -720 the correction leaves [[0, 360)], already at azimuth 0. *)
Lemma correction_escapes (az_real az_model : R) :
  az_real - az_model < -720 ->
  wrap_rotated (0 + calibration_delta az_real az_model) < 0.
Proof.
  intros H. rewrite calibration_delta_neg by lra. unfold wrap_rotated.
  destruct (Rge_dec (0 + (az_real - az_model + 360)) 360); [lra |].
  destruct (Rlt_dec (0 + (az_real - az_model + 360)) 0); lra.
Qed.

(** Both attributes of a processed edge, and of a processed face. *)
Lemma processed_edge_azimuths (delta : R) (p0 p1 : Point.t) :
  let az := bearing (EdgeForms.edge_vector p0 p1) in
  Edge.azimuth (processed_edge delta p0 p1) = Some az /\
  Edge.rotated_azimuth (processed_edge delta p0 p1) = Some (wrap_rotated (az + delta)) /\
  0 <= az < 360.
Proof.
  cbv zeta. repeat split; try reflexivity; apply bearing_range.
Qed.

Lemma processed_face_azimuths (delta : R) (p0 p1 p2 : Point.t) :
  let az := bearing (canonical (FaceForms.ab_raw p0 p1 p2)) in
  Face.azimuth (processed_face delta p0 p1 p2) = Some az /\
  Face.rotated_azimuth (processed_face delta p0 p1 p2) = Some (wrap_rotated (az + delta)) /\
  0 <= az < 360.
Proof.
  cbv zeta. repeat split; try reflexivity; apply bearing_range.
Qed.

(** A property of every processed edge is a property of the batch. *)
Lemma Forall_edge_items (P : Edge.t -> Prop) (delta : R) (groups : list (list Point.t)) :
  (forall p0 p1, P (processed_edge delta p0 p1)) ->
  Forall P (flat_map (edge_item delta) groups).
Proof.
  intros HP. apply Forall_flat_map, Forall_forall. intros ps _.
  destruct ps as [| p0 [| p1 rest]]; cbn [edge_item]; auto.
Qed.

Lemma Forall_face_items (P : Face.t -> Prop) (delta : R) (groups : list (list Point.t)) :
  (forall p0 p1 p2, P (processed_face delta p0 p1 p2)) ->
  Forall P (flat_map (face_item delta) groups).
Proof.
  intros HP. apply Forall_flat_map, Forall_forall. intros ps _.
  destruct ps as [| p0 [| p1 [| p2 rest]]]; cbn [face_item]; auto.
Qed.

(** The batch makes one entity of every group that is long enough, in
    the order of the groups. *)
Lemma edges_of_groups (rot : R -> R) (delta : R) (groups : list (list Point.t)) :
  (forall az, 0 <= az < 360 -> wrap_rotated (az + delta) = rot az) ->
  Forall2 (Wording.edge_of_group rot)
    (filter (fun ps => (2 <=? List.length ps)%nat) groups)
    (flat_map (edge_item delta) groups).
Proof.
  intros Hrot. induction groups as [| ps groups IH]; [constructor |].
  cbn [filter flat_map].
  destruct ps as [| p0 [| p1 rest]];
    cbn [List.length Nat.leb edge_item app]; try exact IH.
  constructor; [| exact IH].
  exists p0, p1, rest, (EdgeForms.built p0 p1),
    (bearing (EdgeForms.edge_vector p0 p1)).
  split; [reflexivity |].
  split; [apply EdgeFacts.edge_new_run |].
  split; [reflexivity |].
  unfold processed_edge. f_equal. apply Hrot, bearing_range.
Qed.

Lemma faces_of_groups (rot : R -> R) (delta : R) (groups : list (list Point.t)) :
  (forall az, 0 <= az < 360 -> wrap_rotated (az + delta) = rot az) ->
  Forall2 (Wording.face_of_group rot)
    (filter (fun ps => (3 <=? List.length ps)%nat) groups)
    (flat_map (face_item delta) groups).
Proof.
  intros Hrot. induction groups as [| ps groups IH]; [constructor |].
  cbn [filter flat_map].
  destruct ps as [| p0 [| p1 [| p2 rest]]];
    cbn [List.length Nat.leb face_item app]; try exact IH.
  constructor; [| exact IH].
  exists p0, p1, p2, rest, (FaceForms.built p0 p1 p2),
    (AngleForms.angle_log (FaceForms.side_a p0 p1) (FaceForms.side_b p1 p2)),
    (bearing (canonical (FaceForms.ab_raw p0 p1 p2))).
  split; [reflexivity |].
  split; [apply FaceFacts.face_new_run |].
  split; [reflexivity |].
  unfold processed_face. f_equal. apply Hrot, bearing_range.
Qed.

(** The strokes [parse_dimensions] keeps as edges all pass the guard of
    the batch. *)
Lemma pairs_pass_guard (strokes : list (list Point.t)) :
  filter (fun ps => (2 <=? List.length ps)%nat)
         (filter (fun ps => (List.length ps =? 2)%nat) strokes)
  = filter (fun ps => (List.length ps =? 2)%nat) strokes.
Proof.
  induction strokes as [| ps strokes IH]; [reflexivity |].
  cbn [filter]. destruct (List.length ps =? 2)%nat eqn:E; [| exact IH].
  cbn [filter]. apply Nat.eqb_eq in E. rewrite E. cbn [Nat.leb].
  f_equal. exact IH.
Qed.

End CorrectionFacts.

(** ** A face whose azimuth is 350 degrees *)

Module Face350Facts.
Import VectorForms Vector3DFacts Face350.

Lemma ab_raw_value :
  FaceForms.ab_raw p1 p2 p3 = Vector3D.mk (- sin (PI / 18)) (cos (PI / 18)) 0.
Proof.
  unfold FaceForms.ab_raw, Vector3D.mul, Vector3D.of_points, p1, p2, p3.
  cbn [Point.x Point.y Point.z Vector3D.x Vector3D.y Vector3D.z].
  f_equal; ring.
Qed.

Lemma bearing_350 : bearing (canonical (FaceForms.ab_raw p1 p2 p3)) = 350.
Proof.
  rewrite ab_raw_value, canonical_idem by (cbn [Vector3D.z]; lra).
  unfold bearing. cbn [Vector3D.x Vector3D.y].
  pose proof PI_RGT_0 as HPI.
  assert (Hc : 0 < cos (PI / 18)) by (apply cos_gt_0; lra).
  assert (Ha : atan2 (- sin (PI / 18)) (cos (PI / 18)) = - (PI / 18)).
  { unfold atan2. destruct (Rlt_dec 0 (cos (PI / 18))); [| lra].
    replace (- sin (PI / 18) / cos (PI / 18)) with (- tan (PI / 18))
      by (unfold tan; field; lra).
    rewrite atan_opp, atan_tan by lra. reflexivity. }
  rewrite Ha.
  replace (degrees (- (PI / 18))) with (-10) by (unfold degrees; field; lra).
  rewrite py_mod_neg by lra. lra.
Qed.

End Face350Facts.

(** ** The worked examples of the engine *)

Module Examples.
Import VectorForms Vector3DFacts AngleForms Wording.

(** The edge from (0,0,0) to (3,4,0) has length 5. *)
Example edge_3_4_length :
  exists e,
    Edge.new (Point.mk 0 0 0) (Point.mk 3 4 0) tt = (Ok e, tt, []) /\
    Edge.length e = Some 5.
Proof.
  eexists. split; [apply EdgeFacts.edge_new_run |].
  cbn [Edge.length EdgeForms.built]. f_equal.
  unfold Vector3D.of_points.
  cbn [Point.x Point.y Point.z Vector3D.x Vector3D.y Vector3D.z].
  replace ((3 - 0) ^ 2 + (4 - 0) ^ 2 + (0 - 0) ^ 2) with (5 * 5) by ring.
  apply sqrt_square. lra.
Qed.

(** The cross product is anti-commutative. *)
Example mul_anticommutative (a b : Vector3D.t) :
  Vector3D.mul a b
  = Vector3D.mk (- Vector3D.x (Vector3D.mul b a))
                (- Vector3D.y (Vector3D.mul b a))
                (- Vector3D.z (Vector3D.mul b a)).
Proof.
  unfold Vector3D.mul. cbn [Vector3D.x Vector3D.y Vector3D.z]. f_equal; ring.
Qed.

(** The length of an edge is never negative. *)
Example edge_length_nonneg (p1 p2 : Point.t) :
  exists e len,
    Edge.new p1 p2 tt = (Ok e, tt, []) /\
    Edge.length e = Some len /\ 0 <= len.
Proof.
  eexists. eexists. split; [apply EdgeFacts.edge_new_run |].
  split; [reflexivity | apply sqrt_pos].
Qed.

End Examples.

(** ** Binary64: the sum of 360 and a tiny negative number *)

Module Binary64Facts.
Import Binary64.

Lemma powerRZ_nonneg_exp (k : Z) : (0 <= k)%Z -> powerRZ 2 k = IZR (2 ^ k).
Proof.
  intros Hk. rewrite <- (Z2Nat.id k Hk) at 1.
  rewrite <- pow_powerRZ, pow_IZR, Z2Nat.id by exact Hk. reflexivity.
Qed.

Lemma powerRZ_split (e k : Z) : powerRZ 2 (e + k) = powerRZ 2 e * powerRZ 2 k.
Proof. apply powerRZ_add. lra. Qed.

Lemma pow2_m44 : powerRZ 2 (-44) = / 17592186044416.
Proof.
  change (-44)%Z with (- (44))%Z.
  rewrite powerRZ_neg', powerRZ_nonneg_exp by lia. reflexivity.
Qed.

Lemma pow2_m45 : powerRZ 2 (-45) = / 35184372088832.
Proof.
  change (-45)%Z with (- (45))%Z.
  rewrite powerRZ_neg', powerRZ_nonneg_exp by lia. reflexivity.
Qed.

Lemma pow2_m67 : powerRZ 2 (-67) = / 147573952589676412928.
Proof.
  change (-67)%Z with (- (67))%Z.
  rewrite powerRZ_neg', powerRZ_nonneg_exp by lia. reflexivity.
Qed.

Lemma representable_integer (n : Z) :
  (Z.abs n < 2 ^ 53)%Z -> representable (IZR n).
Proof.
  intros H. exists n, 0%Z. split; [cbn; ring | split; [exact H | lia]].
Qed.

Lemma nearest_of_representable (y f : R) :
  representable y -> nearest y f -> f = y.
Proof.
  intros Hy [_ Hn]. specialize (Hn y Hy).
  replace (y - y) with 0 in Hn by ring. rewrite Rabs_R0 in Hn.
  pose proof (Rabs_pos (f - y)) as Hp.
  destruct (Req_dec (f - y) 0) as [E0 | E0]; [lra |].
  apply Rabs_no_R0 in E0. lra.
Qed.

Lemma representable_is_nearest (y : R) : representable y -> nearest y y.
Proof.
  intros Hy. split; [exact Hy |]. intros g _.
  replace (y - y) with 0 by ring. rewrite Rabs_R0. apply Rabs_pos.
Qed.

(** Rounding does not cross a double. *)
Lemma nearest_between (lo hi y f : R) :
  representable lo -> representable hi -> lo <= y <= hi ->
  nearest y f -> lo <= f <= hi.
Proof.
  intros Hlo Hhi [H1 H2] [_ Hn].
  pose proof (Hn lo Hlo) as Ha. pose proof (Hn hi Hhi) as Hb.
  unfold Rabs in Ha, Hb.
  destruct (Rcase_abs (f - y)); destruct (Rcase_abs (lo - y));
    destruct (Rcase_abs (hi - y)); lra.
Qed.

(** Below 360 the doubles are at least [2 ^ -44] away from it. *)
Lemma spacing_below_360 (g : R) :
  representable g -> g < 360 -> g <= 360 - powerRZ 2 (-44).
Proof.
  intros (m & e & Hg & Hm & He) Hlt. rewrite pow2_m44.
  destruct (Z_le_gt_dec (-44) e) as [Hbig | Hsmall].
  - replace e with (-44 + (e + 44))%Z in Hg by lia.
    rewrite powerRZ_split, pow2_m44 in Hg.
    rewrite powerRZ_nonneg_exp in Hg by lia.
    assert (Hk : g = IZR (m * 2 ^ (e + 44)) / 17592186044416)
      by (rewrite Hg, mult_IZR; field).
    set (K := (m * 2 ^ (e + 44))%Z) in *.
    assert (HK : (K < 360 * 17592186044416)%Z).
    { apply lt_IZR. rewrite mult_IZR.
      assert (IZR K = g * 17592186044416) by (rewrite Hk; field). lra. }
    assert (HK' : (K <= 360 * 17592186044416 - 1)%Z) by lia.
    apply IZR_le in HK'. rewrite minus_IZR, mult_IZR in HK'.
    rewrite Hk. lra.
  - assert (Hp : 0 < powerRZ 2 e) by (apply powerRZ_lt; lra).
    assert (Hle : powerRZ 2 e <= / 35184372088832).
    { assert (E : powerRZ 2 (-45) = powerRZ 2 e * powerRZ 2 (-45 - e)).
      { rewrite <- powerRZ_split. f_equal. lia. }
      rewrite (powerRZ_nonneg_exp (-45 - e)) in E by lia.
      assert (H0 : (0 < 2 ^ (-45 - e))%Z) by (apply Z.pow_pos_nonneg; lia).
      assert (H1 : (1 <= 2 ^ (-45 - e))%Z) by lia.
      apply IZR_le in H1. rewrite pow2_m45 in E. nra. }
    assert (Hm' : IZR m <= 9007199254740992).
    { apply IZR_le. change (2 ^ 53)%Z with 9007199254740992%Z in Hm. lia. }
    assert (g <= 9007199254740992 * / 35184372088832).
    { rewrite Hg. destruct (Rle_dec (IZR m) 0); nra. }
    lra.
Qed.

(** The sum of 360 and a negative number above [- 2 ^ -45] has one
    nearest double, 360 itself. *)
Lemma rounds_up_to_360 (x : R) :
  - powerRZ 2 (-45) < x < 0 ->
  nearest (x + 360) 360 /\ forall f, nearest (x + 360) f -> f = 360.
Proof.
  intros Hx. rewrite pow2_m45 in Hx.
  assert (H360 : representable 360)
    by (apply (representable_integer 360); reflexivity).
  assert (Hfar : forall g, representable g -> g <> 360 ->
                   - x < Rabs (g - (x + 360))).
  { intros g Hg Hne.
    destruct (Rlt_dec g 360) as [Hlt | Hge].
    - pose proof (spacing_below_360 g Hg Hlt) as Hs. rewrite pow2_m44 in Hs.
      rewrite Rabs_left by lra. lra.
    - rewrite Rabs_right by lra. lra. }
  assert (Hself : Rabs (360 - (x + 360)) = - x).
  { replace (360 - (x + 360)) with (- x) by ring. apply Rabs_right. lra. }
  split.
  - split; [exact H360 |]. intros g Hg. rewrite Hself.
    destruct (Req_dec g 360) as [-> | Hne]; [rewrite Hself; lra |].
    left. apply Hfar; assumption.
  - intros f [Hf Hn].
    destruct (Req_dec f 360) as [E | Hne]; [exact E | exfalso].
    pose proof (Hfar f Hf Hne) as H1.
    pose proof (Hn 360 H360) as H2. rewrite Hself in H2. lra.
Qed.

Lemma fmod_small (v w : R) : 0 < w -> - w < v < w -> fmod v w = v.
Proof.
  intros Hw Hv. unfold fmod, trunc.
  assert (Hq : -1 < v / w < 1).
  { split.
    - apply (Rmult_lt_reg_r w); [exact Hw |].
      replace (v / w * w) with v by (field; lra). lra.
    - apply (Rmult_lt_reg_r w); [exact Hw |].
      replace (v / w * w) with v by (field; lra). lra. }
  destruct (Rlt_dec (v / w) 0).
  - rewrite (Zceil_eq 0) by (cbn; lra). cbn. ring.
  - rewrite (Zfloor_eq 0) by (cbn; lra). cbn. ring.
Qed.

(** On a remainder of the modulus's sign [%] is exact ... *)
Lemma py_mod_nonneg (v r : R) : 0 <= v < 360 -> (py_mod v 360 r <-> r = v).
Proof.
  intros Hv. unfold py_mod. cbv zeta.
  rewrite fmod_small by lra. unfold negative.
  destruct (Req_dec_T v 0) as [E | E]; [rewrite E; tauto |].
  destruct (Rlt_dec 360 0); [lra |].
  destruct (Rlt_dec v 0); [lra |]. cbn [Bool.eqb]. tauto.
Qed.

(** ... and on a negative remainder it is a rounded sum. *)
Lemma py_mod_negative (v r : R) :
  -360 < v < 0 -> (py_mod v 360 r <-> nearest (v + 360) r).
Proof.
  intros Hv. unfold py_mod. cbv zeta.
  rewrite fmod_small by lra. unfold negative.
  destruct (Req_dec_T v 0) as [E | E]; [lra |].
  destruct (Rlt_dec 360 0); [lra |].
  destruct (Rlt_dec v 0); [| lra]. cbn [Bool.eqb]. tauto.
Qed.

(** With rounding the float [%] wraps into the closed range. *)
Lemma py_mod_closed_range (v r : R) :
  -360 < v < 360 -> py_mod v 360 r -> 0 <= r <= 360.
Proof.
  intros Hv H.
  destruct (Rlt_dec v 0) as [Hneg | Hpos].
  - apply py_mod_negative in H; [| lra].
    apply (nearest_between 0 360 (v + 360) r); [| | lra | exact H].
    + apply (representable_integer 0). reflexivity.
    + apply (representable_integer 360). reflexivity.
  - apply py_mod_nonneg in H; lra.
Qed.

(** A tiny negative angle is wrapped to 360 itself. *)
Lemma py_mod_tiny_negative (v : R) :
  - powerRZ 2 (-45) < v < 0 ->
  py_mod v 360 360 /\ forall r, py_mod v 360 r -> r = 360.
Proof.
  intros Hv.
  assert (Hv' : -360 < v < 0) by (rewrite pow2_m45 in Hv; lra).
  destruct (rounds_up_to_360 v Hv) as [H1 H2].
  split; [apply py_mod_negative; assumption |].
  intros r Hr. apply H2. apply py_mod_negative in Hr; assumption.
Qed.

Lemma azimuth_tiny_negative (angle : R -> R -> R) (v : Vector3D.t) :
  ~ Vector3D.z v < 0 ->
  - powerRZ 2 (-45) < angle (Vector3D.x v) (Vector3D.y v) < 0 ->
  azimuth angle v 360 v /\
  forall az v', azimuth angle v az v' -> az = 360 /\ v' = v.
Proof.
  intros Hz Ha. unfold azimuth.
  destruct (Rlt_dec (Vector3D.z v) 0); [contradiction |].
  destruct (py_mod_tiny_negative _ Ha) as [H1 H2].
  split; [split; [reflexivity | exact H1] |].
  intros az v' [-> Hm]. split; [apply H2, Hm | reflexivity].
Qed.

(** The tangent of a small angle is at least half the angle ... *)
Lemma tan_ge_half (s : R) : 0 < s <= 1 -> s / 2 <= tan s.
Proof.
  intros Hs. pose proof PI2_1 as HPI.
  assert (Hsin : s - s ^ 3 / 6 <= sin s).
  { destruct (pre_sin_bound s 0) as [H _]; [lra | lra |].
    unfold sin_approx, sin_term in H. cbn in H.
    eapply Rle_trans; [| exact H]. right. field. }
  assert (Hcos : 0 < cos s) by (apply cos_gt_0; lra).
  pose proof (COS_bound s) as [_ Hc1].
  assert (Hs3 : s ^ 3 <= s) by nra.
  assert (Hsin' : s / 2 <= sin s) by lra.
  unfold tan.
  apply (Rmult_le_reg_r (cos s)); [exact Hcos |].
  replace (sin s / cos s * cos s) with (sin s) by (field; lra).
  nra.
Qed.

(** ... so the arc tangent of a small number is at most twice the
    number. *)
Lemma atan_le_double (t : R) : 0 < t <= 1 / 2 -> 0 < atan t <= 2 * t.
Proof.
  intros Ht. pose proof PI2_1 as HPI.
  assert (Hpos : 0 < atan t) by (rewrite <- atan_0; apply atan_increasing; lra).
  split; [exact Hpos |].
  destruct (Rle_dec (atan t) (2 * t)) as [H | H]; [exact H | exfalso].
  pose proof (atan_bound t) as [_ Hhi].
  assert (Hlt : tan (2 * t) < tan (atan t)) by (apply tan_increasing; lra).
  rewrite tan_atan in Hlt.
  pose proof (tan_ge_half (2 * t)) as Hge. lra.
Qed.

(** The exact angle of the vector [(- 2 ^ -67, 1, 0)] is negative and
    tiny. *)
Lemma exact_angle_tiny :
  - powerRZ 2 (-45) < exact_angle (- powerRZ 2 (-67)) 1 < 0.
Proof.
  rewrite pow2_m45, pow2_m67. unfold exact_angle, atan2.
  destruct (Rlt_dec 0 1); [| lra].
  replace (- / 147573952589676412928 / 1) with (- / 147573952589676412928)
    by field.
  rewrite atan_opp.
  pose proof (atan_le_double (/ 147573952589676412928)) as [Hlo Hhi]; [lra |].
  pose proof PI2_3_2 as HPI3. pose proof PI_RGT_0 as HPI.
  unfold degrees.
  assert (Hk : 0 < 180 / PI < 60).
  { split; [apply Rdiv_lt_0_compat; lra |].
    apply (Rmult_lt_reg_r PI); [exact HPI |].
    replace (180 / PI * PI) with 180 by (field; lra). lra. }
  nra.
Qed.

(** The delta as [get_processed_edges] rounds it. *)
Lemma calibration_delta_rounded_range (az_real az_model delta : R) :
  representable az_real -> representable az_model ->
  0 <= az_real < 360 -> 0 <= az_model < 360 ->
  calibration_delta az_real az_model delta -> 0 <= delta <= 360.
Proof.
  intros Hr Hm Hra Hma (pre & Hpre & Hd).
  assert (H360 : representable 360)
    by (apply (representable_integer 360); reflexivity).
  assert (H0 : representable 0)
    by (apply (representable_integer 0); reflexivity).
  assert (Hm360 : representable (-360))
    by (apply (representable_integer (-360)); reflexivity).
  assert (Hb : -360 <= pre <= az_real).
  { apply (nearest_between (-360) az_real (az_real - az_model) pre);
      [assumption | assumption | lra | assumption]. }
  destruct (Rlt_dec pre 0) as [Hneg | Hpos].
  - apply (nearest_between 0 360 (pre + 360) delta);
      [assumption | assumption | lra | assumption].
  - apply py_mod_nonneg in Hd; lra.
Qed.

Lemma calibration_delta_rounds_to_360 :
  calibration_delta 0 (powerRZ 2 (-67)) 360 /\
  forall delta, calibration_delta 0 (powerRZ 2 (-67)) delta -> delta = 360.
Proof.
  assert (Ht : representable (0 - powerRZ 2 (-67))).
  { exists (-1)%Z, (-67)%Z. split; [ring | split; [reflexivity | lia]]. }
  assert (Hx : - powerRZ 2 (-45) < 0 - powerRZ 2 (-67) < 0)
    by (rewrite pow2_m45, pow2_m67; lra).
  destruct (rounds_up_to_360 _ Hx) as [H1 H2].
  split.
  - exists (0 - powerRZ 2 (-67)). split; [apply representable_is_nearest, Ht |].
    destruct (Rlt_dec (0 - powerRZ 2 (-67)) 0); [exact H1 | lra].
  - intros delta (pre & Hpre & Hd).
    apply (nearest_of_representable _ _ Ht) in Hpre. subst pre.
    destruct (Rlt_dec (0 - powerRZ 2 (-67)) 0); [apply H2, Hd | lra].
Qed.

Lemma calibration_delta_rounded_40 :
  calibration_delta 30 350 40 /\
  forall delta, calibration_delta 30 350 delta -> delta = 40.
Proof.
  assert (Hp : representable (30 - 350)).
  { replace (30 - 350) with (-320) by lra.
    apply (representable_integer (-320)). reflexivity. }
  assert (H40 : representable 40)
    by (apply (representable_integer 40); reflexivity).
  assert (E : 30 - 350 + 360 = 40) by lra.
  split.
  - exists (30 - 350). split; [apply representable_is_nearest, Hp |].
    destruct (Rlt_dec (30 - 350) 0); [| lra].
    rewrite E. apply representable_is_nearest, H40.
  - intros delta (pre & Hpre & Hd).
    apply (nearest_of_representable _ _ Hp) in Hpre. subst pre.
    destruct (Rlt_dec (30 - 350) 0); [| lra].
    rewrite E in Hd. apply (nearest_of_representable _ _ H40), Hd.
Qed.

End Binary64Facts.

(** * The claims *)

Module Claims.
Import VectorForms Vector3DFacts AngleForms AngleFacts MeasurementsParser.
Import BatchForms ParserFacts CorrectionFacts Face350 Wording ExtraForms.

(** C1.  What the batch computes of the calibration inputs, and where it
    leaves the claim.  For [az_real], [az_model] in [[0,360)] the delta is
    the difference, plus 360 when the difference is negative; every group
    of at least two points gives one edge, every group of at least three
    points one face, in the order of the groups, and the
    [rotated_azimuth] of each is its raw azimuth plus [delta], reduced by
    360 if the sum is at least 360.  [az_real = 30] and [az_model = 350]
    give the delta 40, also with the rounding of binary64, and the face
    over [Face350.p1], [Face350.p2], [Face350.p3], of raw azimuth 350,
    gets the rotated azimuth 30.

    The delta is not always in [[0,360)].  In exact arithmetic the delta
    of [az_real = 0] and [az_model = 2 ^ -67] is [360 - 2 ^ -67]; the source
    computes it in binary64, where the sum [- 2 ^ -67 + 360] is rounded,
    and the delta is 360.  With rounding every delta of two doubles of
    [[0,360)] lies in [[0,360]], both ends included. *)
Theorem C1_delta_rounds_to_360 :
  (forall az_real az_model : R,
      0 <= az_real < 360 ->
      0 <= az_model < 360 ->
      let delta := calibration_delta az_real az_model in
      delta = wrapped_difference az_real az_model /\
      (forall self, exists out log,
          get_processed_edges az_real az_model self = (Ok out, self, log) /\
          Forall2 (edge_of_group (fun az => reduced_sum az delta))
            (filter (fun ps => (2 <=? List.length ps)%nat) (edges self)) out) /\
      (forall self, exists out log,
          get_processed_faces az_real az_model self = (Ok out, self, log) /\
          Forall2 (face_of_group (fun az => reduced_sum az delta))
            (filter (fun ps => (3 <=? List.length ps)%nat) (faces self)) out)) /\
  calibration_delta 30 350 = 40 /\
  reduced_sum 350 40 = 30 /\
  (Binary64.calibration_delta 30 350 40 /\
   forall delta, Binary64.calibration_delta 30 350 delta -> delta = 40) /\
  (let self := mk [[Face350.p1; Face350.p2; Face350.p3]] [] in
   exists f log,
     get_processed_faces 30 350 self = (Ok [f], self, log) /\
     Face.azimuth f = Some 350 /\
     Face.rotated_azimuth f = Some 30) /\
  calibration_delta 0 (powerRZ 2 (-67)) = 360 - powerRZ 2 (-67) /\
  (Binary64.calibration_delta 0 (powerRZ 2 (-67)) 360 /\
   forall delta,
     Binary64.calibration_delta 0 (powerRZ 2 (-67)) delta -> delta = 360) /\
  (forall az_real az_model delta : R,
      Binary64.representable az_real -> Binary64.representable az_model ->
      0 <= az_real < 360 ->
      0 <= az_model < 360 ->
      Binary64.calibration_delta az_real az_model delta ->
      0 <= delta <= 360).
Proof.
  assert (H40 : calibration_delta 30 350 = 40)
    by (rewrite calibration_delta_neg; lra).
  assert (Hsum : forall az d, 0 <= az -> 0 <= d ->
                   wrap_rotated (az + d) = reduced_sum az d).
  { intros az d Haz Hd. apply wrap_rotated_nonneg. lra. }
  assert (H30 : reduced_sum 350 40 = 30).
  { unfold reduced_sum. destruct (Rge_dec (350 + 40) 360); lra. }
  split; [| split; [exact H40 | split; [exact H30 |
    split; [exact Binary64Facts.calibration_delta_rounded_40 |
    split; [| split; [| split; [exact Binary64Facts.calibration_delta_rounds_to_360 |
      exact Binary64Facts.calibration_delta_rounded_range]]]]]]].
  - intros az_real az_model Hr Hm delta.
    assert (Hdelta : 0 <= delta < 360)
      by (apply calibration_delta_range; lra).
    split; [| split].
    + unfold delta, wrapped_difference, calibration_delta.
      destruct (Rlt_dec (az_real - az_model) 0); [reflexivity |].
      apply py_mod_small. lra.
    + intros self. eexists. eexists. split; [apply get_processed_edges_run |].
      apply edges_of_groups. intros az Haz. apply Hsum; lra.
    + intros self. eexists. eexists. split; [apply get_processed_faces_run |].
      apply faces_of_groups. intros az Haz. apply Hsum; lra.
  - cbv zeta. eexists. eexists.
    split; [rewrite get_processed_faces_run; cbn [faces flat_map face_item app]; reflexivity |].
    destruct (processed_face_azimuths (calibration_delta 30 350)
                Face350.p1 Face350.p2 Face350.p3) as (Ha & Hra & _).
    rewrite Ha, Hra, Face350Facts.bearing_350, H40. split; [reflexivity |].
    f_equal. rewrite Hsum by lra. exact H30.
  - rewrite calibration_delta_neg; rewrite Binary64Facts.pow2_m67; lra.
Qed.





(** C3.  Zero calibration delta is the identity: for every raw azimuth
    [a] in [[0,360)] and every real [x], the correction with
    [az_real = x] and [az_model = x] returns [a] unchanged; in the batch
    every edge and every face keeps its azimuth. *)
Theorem C3_zero_delta_identity (a x : R) :
  0 <= a < 360 ->
  calibration_delta x x = 0 /\
  wrap_rotated (a + calibration_delta x x) = a /\
  (forall self, exists out log,
      get_processed_edges x x self = (Ok out, self, log) /\
      Forall (fun e => Edge.rotated_azimuth e = Edge.azimuth e) out) /\
  (forall self, exists out log,
      get_processed_faces x x self = (Ok out, self, log) /\
      Forall (fun f => Face.rotated_azimuth f = Face.azimuth f) out).
Proof.
  intros Ha.
  assert (Hd : calibration_delta x x = 0)
    by (rewrite calibration_delta_small; lra).
  assert (Hid : forall az, 0 <= az < 360 -> wrap_rotated (az + 0) = az).
  { intros az Haz. rewrite wrap_rotated_nonneg by lra.
    destruct (Rge_dec (az + 0) 360); lra. }
  split; [exact Hd | split; [rewrite Hd; apply Hid, Ha | split]].
  - intros self. eexists. eexists. split; [apply get_processed_edges_run |].
    apply Forall_edge_items. intros p0 p1.
    destruct (processed_edge_azimuths (calibration_delta x x) p0 p1)
      as (Haz & Hra & Hrange).
    rewrite Haz, Hra, Hd. f_equal. apply Hid, Hrange.
  - intros self. eexists. eexists. split; [apply get_processed_faces_run |].
    apply Forall_face_items. intros p0 p1 p2.
    destruct (processed_face_azimuths (calibration_delta x x) p0 p1 p2)
      as (Haz & Hra & Hrange).
    rewrite Haz, Hra, Hd. f_equal. apply Hid, Hrange.
Qed.

(** C3 at the azimuth 350 with [x = 42]. *)
Lemma C3_witness : wrap_rotated (350 + calibration_delta 42 42) = 350.
Proof.
  assert (Ha : 0 <= 350 < 360) by lra.
  exact (proj1 (proj2 (C3_zero_delta_identity 350 42 Ha))).
Defined.

(** C4.  The edge list of the parser is what [parse_dimensions] made of
    the strokes.  From a stroke of two points and a stroke of four points,
    in either order, the parser keeps the stroke of two points and drops
    the other with one logged WARNING; the batch then returns exactly one
    Edge, the one over the two points, and neither step raises.  For any
    strokes, the edges of the batch are those of the strokes of two
    points, one each and in their order, and every stroke of neither two
    nor three points is answered by a WARNING. *)
Theorem C4_malformed_group_is_skipped (az_real az_model : R) :
  let rot := fun az => wrap_rotated (az + calibration_delta az_real az_model) in
  let long_stroke :=
    LogRecord WARNING "Stroke with unexpected number of points: 4" in
  (forall p q a b c d, exists parser plog e,
      MeasurementsParser.new (Some [[p; q]; [a; b; c; d]]) tt
      = (Ok parser, tt, plog) /\
      records_at WARNING plog = [long_stroke] /\
      get_processed_edges az_real az_model parser
      = (Ok [e], parser, [processed_summary 1 "edges"]) /\
      edge_of_group rot [p; q] e) /\
  (forall p q a b c d, exists parser plog e,
      MeasurementsParser.new (Some [[a; b; c; d]; [p; q]]) tt
      = (Ok parser, tt, plog) /\
      records_at WARNING plog = [long_stroke] /\
      get_processed_edges az_real az_model parser
      = (Ok [e], parser, [processed_summary 1 "edges"]) /\
      edge_of_group rot [p; q] e) /\
  (forall strokes, exists parser plog out log,
      MeasurementsParser.new (Some strokes) tt = (Ok parser, tt, plog) /\
      edges parser = filter (fun ps => (List.length ps =? 2)%nat) strokes /\
      records_at WARNING plog = flat_map stroke_log strokes /\
      get_processed_edges az_real az_model parser = (Ok out, parser, log) /\
      Forall2 (edge_of_group rot) (edges parser) out).
Proof.
  cbv zeta.
  assert (Hone : forall p q,
             edge_of_group
               (fun az => wrap_rotated (az + calibration_delta az_real az_model))
               [p; q] (processed_edge (calibration_delta az_real az_model) p q)).
  { intros p q.
    pose proof (edges_of_groups
                  (fun az => wrap_rotated (az + calibration_delta az_real az_model))
                  (calibration_delta az_real az_model) [[p; q]]
                  (fun az _ => eq_refl)) as H.
    cbn [filter List.length Nat.leb flat_map edge_item app] in H.
    inversion H; subst. assumption. }
  split; [| split].
  - intros p q a b c d. eexists. eexists. eexists.
    split; [apply new_run |].
    split; [reflexivity |].
    split; [rewrite get_processed_edges_run; reflexivity |].
    apply Hone.
  - intros p q a b c d. eexists. eexists. eexists.
    split; [apply new_run |].
    split; [reflexivity |].
    split; [rewrite get_processed_edges_run; reflexivity |].
    apply Hone.
  - intros strokes. eexists. eexists. eexists. eexists.
    split; [apply new_run |].
    split; [reflexivity |].
    split.
    { unfold records_at. cbn [filter lvl layer_found level_eqb].
      rewrite filter_app. cbn [filter lvl parsed_summary level_eqb].
      rewrite app_nil_r. apply stroke_logs_are_warnings. }
    split; [apply get_processed_edges_run |].
    cbn [edges]. unfold has_two.
    rewrite <- (pairs_pass_guard strokes) at 1.
    apply edges_of_groups. intros az _. reflexivity.
Qed.

(** C5.  What [Point.rotated] computes: the result lies at the plan
    distance [r] of [self] from [center], along the azimuth, from the
    ORIGIN; the coordinates of [center] are not added.  At
    [self = (13,24,7)], [center = (10,20,0)], azimuth 0, the distance is 5
    and the method returns (5,0,7), where the centre translated by
    [(r cos, r sin)] is (15,20,7). *)
Theorem C5_rotated_is_not_translated_to_center :
  (forall self center azimuth,
      let r := sqrt ((Point.x center - Point.x self) ^ 2
                     + (Point.y center - Point.y self) ^ 2) in
      Point.rotated self center azimuth
      = Ok (Point.mk (r * cos (radians azimuth)) (r * sin (radians azimuth))
                     (Point.z self))) /\
  Point.rotated (Point.mk 13 24 7) (Point.mk 10 20 0) 0 = Ok (Point.mk 5 0 7) /\
  Point.mk 5 0 7 <> Point.mk (10 + 5 * cos (radians 0)) (20 + 5 * sin (radians 0)) 7.
Proof.
  assert (Hgen : forall self center azimuth,
             Point.rotated self center azimuth
             = Ok (Point.mk
                     (sqrt ((Point.x center - Point.x self) ^ 2
                            + (Point.y center - Point.y self) ^ 2)
                      * cos (radians azimuth))
                     (sqrt ((Point.x center - Point.x self) ^ 2
                            + (Point.y center - Point.y self) ^ 2)
                      * sin (radians azimuth))
                     (Point.z self))).
  { intros self center azimuth. unfold Point.rotated. cbv zeta.
    rewrite py_sqrt_nonneg by apply sum_sq2_nonneg. reflexivity. }
  assert (Hr0 : radians 0 = 0) by (unfold radians; ring).
  split; [exact Hgen | split].
  - rewrite Hgen. cbn [Point.x Point.y Point.z].
    replace ((10 - 13) ^ 2 + (20 - 24) ^ 2) with (5 * 5) by ring.
    rewrite sqrt_square by lra.
    rewrite Hr0, cos_0, sin_0. do 2 f_equal; ring.
  - rewrite Hr0, cos_0, sin_0. intros E. injection E as Ex _. lra.
Qed.

(** C6.  What [Vector3D.azimuth] computes, and where it leaves the claim.
    It negates the vector in place exactly when its [z] is negative, then
    returns [atan2 x y] of the resulting state in degrees, taken modulo
    360; it never raises and logs nothing.  The azimuth of (1,0,0) is 90
    degrees, also with the rounding of binary64, and the vector is left as
    it is.

    The result is not always in [[0,360)].  The float [%] adds 360 to a
    negative angle and rounds the sum: whenever the angle of the math
    library lies between [- 2 ^ -45] and 0, the azimuth returned is 360.
    The vector [(- 2 ^ -67, 1, 0)] is such a vector, already for a math
    library without error.  With rounding the azimuth lies in
    [[0,360]], both ends included. *)
Theorem C6_azimuth_wraps_to_360 :
  (forall v : Vector3D.t,
      exists az v',
        Vector3D.azimuth v = (Ok az, v', []) /\
        (Vector3D.z v < 0 ->
         v' = Vector3D.mk (- Vector3D.x v) (- Vector3D.y v) (- Vector3D.z v)) /\
        (~ Vector3D.z v < 0 -> v' = v) /\
        az = py_mod (degrees (atan2 (Vector3D.x v') (Vector3D.y v'))) 360) /\
  Vector3D.azimuth (Vector3D.mk 1 0 0) = (Ok 90, Vector3D.mk 1 0 0, []) /\
  (Binary64.azimuth Binary64.exact_angle (Vector3D.mk 1 0 0) 90 (Vector3D.mk 1 0 0) /\
   forall az v',
     Binary64.azimuth Binary64.exact_angle (Vector3D.mk 1 0 0) az v' ->
     az = 90 /\ v' = Vector3D.mk 1 0 0) /\
  (forall (angle : R -> R -> R) (v : Vector3D.t),
      ~ Vector3D.z v < 0 ->
      - powerRZ 2 (-45) < angle (Vector3D.x v) (Vector3D.y v) < 0 ->
      Binary64.azimuth angle v 360 v /\
      forall az v', Binary64.azimuth angle v az v' -> az = 360 /\ v' = v) /\
  (let v := Vector3D.mk (- powerRZ 2 (-67)) 1 0 in
   Binary64.azimuth Binary64.exact_angle v 360 v /\
   forall az v', Binary64.azimuth Binary64.exact_angle v az v' -> az = 360 /\ v' = v) /\
  (forall (angle : R -> R -> R) (v v' : Vector3D.t) (az : R),
      -360 < angle (Vector3D.x v') (Vector3D.y v') < 360 ->
      Binary64.azimuth angle v az v' ->
      0 <= az <= 360).
Proof.
  assert (H90 : degrees (atan2 1 0) = 90).
  { rewrite atan2_pos_axis by lra.
    unfold degrees. pose proof PI_RGT_0. field. lra. }
  split; [| split; [| split; [| split; [| split]]]].
  - intros v. exists (bearing (canonical v)), (canonical v).
    split; [apply azimuth_run |].
    split; [| split; [| reflexivity]].
    + intros Hz. unfold canonical. destruct (Rlt_dec (Vector3D.z v) 0); [reflexivity | lra].
    + intros Hz. unfold canonical. destruct (Rlt_dec (Vector3D.z v) 0); [lra | reflexivity].
  - rewrite azimuth_run.
    rewrite canonical_idem by (cbn [Vector3D.z]; lra).
    unfold bearing. cbn [Vector3D.x Vector3D.y].
    rewrite H90, py_mod_small by lra. reflexivity.
  - unfold Binary64.azimuth. cbn [Vector3D.z].
    destruct (Rlt_dec 0 0); [lra |].
    split.
    + split; [reflexivity |]. cbn [Vector3D.x Vector3D.y].
      unfold Binary64.exact_angle. rewrite H90.
      apply Binary64Facts.py_mod_nonneg; [lra | reflexivity].
    + intros az v' [-> Hm]. cbn [Vector3D.x Vector3D.y] in Hm.
      unfold Binary64.exact_angle in Hm. rewrite H90 in Hm.
      apply Binary64Facts.py_mod_nonneg in Hm; [| lra].
      split; [exact Hm | reflexivity].
  - exact Binary64Facts.azimuth_tiny_negative.
  - cbv zeta. apply Binary64Facts.azimuth_tiny_negative.
    + cbn [Vector3D.z]. lra.
    + cbn [Vector3D.x Vector3D.y]. exact Binary64Facts.exact_angle_tiny.
  - intros angle v v' az Ha [_ Hm].
    apply (Binary64Facts.py_mod_closed_range _ _ Ha Hm).
Qed.

Lemma ab_raw_is_cross (p1 p2 p3 : Point.t) :
  FaceForms.ab_raw p1 p2 p3 = cross_of_sides p1 p2 p3.
Proof.
  unfold FaceForms.ab_raw, cross_of_sides, Vector3D.mul, Vector3D.of_points.
  cbn [Vector3D.x Vector3D.y Vector3D.z]. f_equal; ring.
Qed.

Lemma norm_canonical (v : Vector3D.t) : norm (canonical v) = norm v.
Proof.
  unfold canonical, norm. destruct (Rlt_dec (Vector3D.z v) 0); [| reflexivity].
  cbn [Vector3D.x Vector3D.y Vector3D.z]. f_equal. ring.
Qed.

(** C7, as stated, fails: the face over (0,0,0), (0,1,0), (1,0,0) holds
    [ab = (0,0,1)], where the cross product is (0,0,-1). *)
Lemma C7_counterexample :
  let '(p1, p2, p3) := south_east_face in
  cross_of_sides p1 p2 p3 = Vector3D.mk 0 0 (-1) /\
  exists f log,
    Face.new p1 p2 p3 tt = (Ok f, tt, log) /\
    Face.ab f = Some (Vector3D.mk 0 0 1) /\
    Face.ab f <> Some (cross_of_sides p1 p2 p3).
Proof.
  unfold south_east_face.
  assert (Hc : cross_of_sides (Point.mk 0 0 0) (Point.mk 0 1 0) (Point.mk 1 0 0)
               = Vector3D.mk 0 0 (-1)).
  { unfold cross_of_sides, Vector3D.mul, Vector3D.of_points.
    cbn [Point.x Point.y Point.z Vector3D.x Vector3D.y Vector3D.z].
    f_equal; ring. }
  split; [exact Hc |].
  eexists. eexists. split; [apply FaceFacts.face_new_run |].
  assert (Hab : Face.ab (FaceForms.built (Point.mk 0 0 0) (Point.mk 0 1 0) (Point.mk 1 0 0))
                = Some (Vector3D.mk 0 0 1)).
  { cbn [Face.ab FaceForms.built]. rewrite ab_raw_is_cross, Hc.
    unfold canonical. cbn [Vector3D.x Vector3D.y Vector3D.z].
    destruct (Rlt_dec (-1) 0); [| lra]. do 2 f_equal; ring. }
  split; [exact Hab |].
  rewrite Hab, Hc. intros E. injection E as E. lra.
Qed.

(** C7, amended.  [ab_vector] returns the cross product
    [cross(P2 - P1, P3 - P1)]; the constructor never raises, and the [ab]
    it leaves in the Face is that cross product after the azimuth call:
    negated when its [z] is negative, unchanged otherwise.  The area is
    [|ab| / 2], which is also half the length of the cross product.  The
    Face over (0,0,0), (1,0,0), (0,1,0) has area 0.5. *)
Theorem C7_face_ab_and_area (p1 p2 p3 : Point.t) :
  let cross := cross_of_sides p1 p2 p3 in
  (forall o : Face.t,
      Face.point1 o = Some p1 -> Face.point2 o = Some p2 -> Face.point3 o = Some p3 ->
      exists v, Face.ab_vector o = (Ok v, o, []) /\ v = cross) /\
  (exists f log ab,
      Face.new p1 p2 p3 tt = (Ok f, tt, log) /\
      Face.ab f = Some ab /\
      (Vector3D.z cross < 0 ->
       ab = Vector3D.mk (- Vector3D.x cross) (- Vector3D.y cross) (- Vector3D.z cross)) /\
      (~ Vector3D.z cross < 0 -> ab = cross) /\
      Face.area f = Some (norm ab / 2) /\
      norm ab = norm cross) /\
  (exists f log,
      Face.new (Point.mk 0 0 0) (Point.mk 1 0 0) (Point.mk 0 1 0) tt = (Ok f, tt, log) /\
      Face.area f = Some (1 / 2)).
Proof.
  cbv zeta. split; [| split].
  - intros o H1 H2 H3. eexists. split.
    + unfold Face.ab_vector. run_monad. rewrite H1, H2, H3. reflexivity.
    + apply ab_raw_is_cross.
  - exists (FaceForms.built p1 p2 p3).
    exists (angle_log (FaceForms.side_a p1 p2) (FaceForms.side_b p2 p3)).
    exists (canonical (cross_of_sides p1 p2 p3)).
    split; [apply FaceFacts.face_new_run |].
    split; [cbn [Face.ab FaceForms.built]; rewrite ab_raw_is_cross; reflexivity |].
    split; [| split; [| split]].
    + intros Hz. unfold canonical.
      destruct (Rlt_dec (Vector3D.z (cross_of_sides p1 p2 p3)) 0); [reflexivity | lra].
    + intros Hz. unfold canonical.
      destruct (Rlt_dec (Vector3D.z (cross_of_sides p1 p2 p3)) 0); [lra | reflexivity].
    + cbn [Face.area FaceForms.built]. rewrite ab_raw_is_cross. reflexivity.
    + apply norm_canonical.
  - eexists. eexists. split; [apply FaceFacts.face_new_run |].
    cbn [Face.area FaceForms.built]. f_equal.
    rewrite norm_canonical, ab_raw_is_cross.
    unfold norm, cross_of_sides, Vector3D.mul, Vector3D.of_points.
    cbn [Point.x Point.y Point.z Vector3D.x Vector3D.y Vector3D.z].
    match goal with |- sqrt ?a / 2 = _ => replace a with 1 by ring end.
    rewrite sqrt_1. reflexivity.
Qed.

(** C7 (amended): [ab_vector] on the Face over (0,0,0), (1,0,0), (0,1,0). *)
Lemma C7_witness :
  exists v,
    Face.ab_vector (FaceForms.built origin east north)
    = (Ok v, FaceForms.built origin east north, []) /\
    v = cross_of_sides origin east north.
Proof.
  exact (proj1 (C7_face_ab_and_area origin east north)
               (FaceForms.built origin east north) eq_refl eq_refl eq_refl).
Defined.

(** C8.  For every vector, [dip] returns a value in [[0, 180]] degrees; it
    never raises and leaves the vector as it is. *)
Theorem C8_dip_range (v : Vector3D.t) :
  exists d, Vector3D.dip v = (Ok d, v, []) /\ 0 <= d <= 180.
Proof.
  eexists. split; [apply dip_run |].
  pose proof (atan2_nonneg (horizontal v) (Vector3D.z v) (horizontal_nonneg v))
    as [Hlo Hhi].
  apply degrees_le in Hlo. apply degrees_le in Hhi.
  rewrite degrees_0 in Hlo. rewrite degrees_PI in Hhi. lra.
Qed.

Lemma norm_zero_vector : norm zero_vector = 0.
Proof.
  unfold norm, zero_vector. cbn [Vector3D.x Vector3D.y Vector3D.z].
  replace (0 ^ 2 + 0 ^ 2 + 0 ^ 2) with 0 by ring. apply sqrt_0.
Qed.

(** C9.  Constructing an Edge from two coincident points raises nothing
    and logs nothing; the Edge has length 0 and azimuth 0 (and dip 0).
    [degrees_with] on a zero-length vector, as [self] or as [other],
    catches the division by zero, logs it and returns 0. *)
Theorem C9_degenerate_inputs_do_not_raise :
  (forall p : Point.t,
      exists e,
        Edge.new p p tt = (Ok e, tt, []) /\
        Edge.length e = Some 0 /\
        Edge.azimuth e = Some 0 /\
        Edge.dip e = Some 0 /\
        Edge.rotated_azimuth e = Some 0) /\
  (forall other : Vector3D.t,
      Vector3D.degrees_with other zero_vector = (Ok 0, zero_vector, [degrees_error])) /\
  (forall self : Vector3D.t,
      Vector3D.degrees_with zero_vector self = (Ok 0, self, [degrees_error])).
Proof.
  split; [| split].
  - intros p. exists (EdgeForms.built p p).
    split; [apply EdgeFacts.edge_new_run |].
    assert (Hv : EdgeForms.edge_vector p p = Vector3D.mk 0 0 0).
    { unfold EdgeForms.edge_vector, Vector3D.of_points.
      rewrite canonical_idem by (cbn [Vector3D.z]; lra).
      f_equal; ring. }
    assert (Hh : horizontal (Vector3D.mk 0 0 0) = 0).
    { unfold horizontal. cbn [Vector3D.x Vector3D.y].
      replace (0 ^ 2 + 0 ^ 2) with 0 by ring. apply sqrt_0. }
    cbn [Edge.length Edge.azimuth Edge.dip Edge.rotated_azimuth EdgeForms.built].
    rewrite Hv. cbn [Vector3D.z]. rewrite Hh.
    unfold bearing. cbn [Vector3D.x Vector3D.y].
    rewrite atan2_origin, degrees_0, py_mod_small by lra.
    repeat split.
    f_equal. unfold Vector3D.of_points. cbn [Vector3D.x Vector3D.y Vector3D.z].
    match goal with |- sqrt ?a = _ => replace a with 0 by ring end.
    apply sqrt_0.
  - intros other. rewrite degrees_with_run. unfold angle, angle_log.
    destruct (Req_dec_T (norm zero_vector * norm other) 0) as [_ | Hne];
      [reflexivity |].
    exfalso. apply Hne. rewrite norm_zero_vector. ring.
  - intros self. rewrite degrees_with_run. unfold angle, angle_log.
    destruct (Req_dec_T (norm self * norm zero_vector) 0) as [_ | Hne];
      [reflexivity |].
    exfalso. apply Hne. rewrite norm_zero_vector. ring.
Qed.

(** What [edge2face] followed by [azimuth] leaves of a canonical vector
    with a horizontal part: the same horizontal part, and a [z] equal to
    its length. *)
Lemma face_normal_canonical (v : Vector3D.t) :
  0 <= Vector3D.z v ->
  Vector3D.x v <> 0 \/ Vector3D.y v <> 0 ->
  canonical (face_normal v)
  = Vector3D.mk (Vector3D.x v) (Vector3D.y v) (horizontal v).
Proof.
  intros Hz Hne.
  assert (Hne' : Vector3D.y v <> 0 \/ Vector3D.x v <> 0) by tauto.
  pose proof (hypot_pos _ _ Hne) as Hlen. fold (horizontal v) in Hlen.
  destruct (sin_cos_atan2 (Vector3D.x v) (Vector3D.y v) Hne') as [Hsin Hcos].
  replace (Vector3D.y v ^ 2 + Vector3D.x v ^ 2)
    with (Vector3D.x v ^ 2 + Vector3D.y v ^ 2) in Hsin, Hcos by ring.
  fold (horizontal v) in Hsin, Hcos.
  destruct (trig_radians_wrapped _ (atan2_bound (Vector3D.x v) (Vector3D.y v)))
    as [Hs Hc].
  unfold face_normal. rewrite (canonical_idem v Hz). cbv zeta.
  unfold canonical at 1. cbn [Vector3D.x Vector3D.y Vector3D.z].
  destruct (Rlt_dec (- horizontal v) 0); [| lra].
  unfold bearing. rewrite Hs, Hc, Hsin, Hcos.
  f_equal; field; lra.
Qed.

Lemma edge_vector_horizontal (p1 p2 : Point.t) :
  Point.x p1 <> Point.x p2 \/ Point.y p1 <> Point.y p2 ->
  Vector3D.x (EdgeForms.edge_vector p1 p2) <> 0 \/
  Vector3D.y (EdgeForms.edge_vector p1 p2) <> 0.
Proof.
  intros H. unfold EdgeForms.edge_vector, canonical, Vector3D.of_points.
  cbn [Vector3D.z].
  destruct (Rlt_dec (Point.z p2 - Point.z p1) 0);
    cbn [Vector3D.x Vector3D.y]; destruct H; [left | right | left | right]; lra.
Qed.

(** In exact arithmetic, for every Edge whose endpoints differ in their
    x-y projection, the constructor raises nothing, and the attributes
    read after [edge2face] are [edge_azimuth = azimuth] and
    [edge_dip = 45] degrees.  The source computes the vector of
    [edge2face] through the [sin], [cos] and [atan2] of the math library,
    in binary64: there the two azimuths agree, and the edge dip is 45, up
    to the rounding of these functions only, which is outside this
    embedding. *)
Theorem edge2face_in_exact_arithmetic (p1 p2 : Point.t) :
  Point.x p1 <> Point.x p2 \/ Point.y p1 <> Point.y p2 ->
  exists e az,
    Edge.new p1 p2 tt = (Ok e, tt, []) /\
    Edge.azimuth e = Some az /\
    Edge.edge_azimuth e = Some az /\
    Edge.edge_dip e = Some 45.
Proof.
  intros Hxy.
  exists (EdgeForms.built p1 p2), (bearing (EdgeForms.edge_vector p1 p2)).
  split; [apply EdgeFacts.edge_new_run |].
  pose proof (edge_vector_horizontal p1 p2 Hxy) as Hne.
  assert (Hz : 0 <= Vector3D.z (EdgeForms.edge_vector p1 p2))
    by apply canonical_z_nonneg.
  pose proof (face_normal_canonical _ Hz Hne) as Hn.
  fold (EdgeForms.normal_vector p1 p2) in Hn.
  pose proof (hypot_pos _ _ Hne) as Hlen.
  fold (horizontal (EdgeForms.edge_vector p1 p2)) in Hlen.
  cbn [Edge.azimuth Edge.edge_azimuth Edge.edge_dip EdgeForms.built].
  rewrite Hn. split; [reflexivity | split; [reflexivity |]].
  f_equal. cbn [Vector3D.z].
  replace (horizontal
             (Vector3D.mk (Vector3D.x (EdgeForms.edge_vector p1 p2))
                          (Vector3D.y (EdgeForms.edge_vector p1 p2))
                          (horizontal (EdgeForms.edge_vector p1 p2))))
    with (horizontal (EdgeForms.edge_vector p1 p2)) by reflexivity.
  rewrite atan2_diag by exact Hlen.
  unfold degrees. pose proof PI_RGT_0. field. lra.
Qed.

End Claims.


(** * Further properties of the engine *)

(** ** More of the [math] layer *)

Section MoreMathFacts.

(** The remainder is unchanged by whole multiples of the modulus. *)
Lemma py_mod_shift (x m : R) (k : Z) :
  m <> 0 -> py_mod (x + m * IZR k) m = py_mod x m.
Proof.
  intros Hm. unfold py_mod.
  replace ((x + m * IZR k) / m) with (x / m + IZR k) by (field; exact Hm).
  rewrite Zfloor_addz, plus_IZR. ring.
Qed.

Lemma py_mod_inner (x y m : R) :
  m <> 0 -> py_mod (py_mod x m + y) m = py_mod (x + y) m.
Proof.
  intros Hm. unfold py_mod at 2.
  replace (x - m * IZR (Zfloor (x / m)) + y)
    with (x + y + m * IZR (- Zfloor (x / m))) by (rewrite opp_IZR; ring).
  apply py_mod_shift, Hm.
Qed.

(** In the first quadrant [atan2] stays within a right angle. *)
Lemma atan2_first_quadrant (y x : R) :
  0 <= y -> 0 <= x -> 0 <= atan2 y x <= PI / 2.
Proof.
  intros Hy Hx. pose proof (atan2_nonneg y x Hy) as [Hlo _].
  split; [exact Hlo |].
  unfold atan2. pose proof PI_RGT_0 as HPI.
  destruct (Rlt_dec 0 x) as [Hx' | Hx'].
  - pose proof (atan_bound (y / x)). lra.
  - destruct (Rlt_dec x 0); [lra |].
    destruct (Rlt_dec 0 y); [lra |].
    destruct (Rlt_dec y 0); lra.
Qed.

Lemma atan_pos (t : R) : 0 < t -> 0 < atan t.
Proof. intros H. rewrite <- atan_0. apply atan_increasing, H. Qed.

Lemma atan_nonpos (t : R) : t <= 0 -> atan t <= 0.
Proof.
  intros H. destruct (Req_dec t 0) as [E | E].
  - rewrite E, atan_0. lra.
  - left. rewrite <- atan_0. apply atan_increasing. lra.
Qed.

(** The opposite point lies half a turn away. *)
Lemma atan2_opposite (y x : R) :
  x <> 0 \/ y <> 0 ->
  atan2 (- y) (- x)
  = if Rlt_dec 0 (atan2 y x) then atan2 y x - PI else atan2 y x + PI.
Proof.
  intros Hne. pose proof PI_RGT_0 as HPI.
  pose proof (atan_bound (y / x)) as Hb.
  unfold atan2.
  destruct (Rlt_dec 0 x) as [Hx | Hx].
  - assert (Hinv : 0 < / x) by (apply Rinv_0_lt_compat; exact Hx).
    destruct (Rlt_dec 0 (- x)); [lra |].
    destruct (Rlt_dec (- x) 0); [| lra].
    replace (- y / - x) with (y / x) by (field; lra).
    destruct (Rle_dec 0 (- y)) as [Hy | Hy].
    + assert (y / x <= 0) by (unfold Rdiv; nra).
      pose proof (atan_nonpos _ H).
      destruct (Rlt_dec 0 (atan (y / x))); [lra | reflexivity].
    + assert (0 < y / x) by (unfold Rdiv; nra).
      pose proof (atan_pos _ H).
      destruct (Rlt_dec 0 (atan (y / x))); [reflexivity | lra].
  - destruct (Rlt_dec x 0) as [Hx' | Hx'].
    + destruct (Rlt_dec 0 (- x)); [| lra].
      replace (- y / - x) with (y / x) by (field; lra).
      destruct (Rle_dec 0 y).
      * destruct (Rlt_dec 0 (atan (y / x) + PI)); lra.
      * destruct (Rlt_dec 0 (atan (y / x) - PI)); lra.
    + assert (x = 0) by lra. subst x.
      destruct (Rlt_dec 0 (- 0)); [lra |].
      destruct (Rlt_dec (- 0) 0); [lra |].
      destruct (Rlt_dec 0 y) as [Hy | Hy].
      * destruct (Rlt_dec 0 (- y)); [lra |].
        destruct (Rlt_dec (- y) 0); [| lra].
        destruct (Rlt_dec 0 (PI / 2)); lra.
      * destruct (Rlt_dec y 0) as [Hy' | Hy'].
        -- destruct (Rlt_dec 0 (- y)); [| lra].
           destruct (Rlt_dec 0 (- (PI / 2))); lra.
        -- destruct Hne; lra.
Qed.

End MoreMathFacts.

(** ** Vector3D: length, sign and angle *)

Module VectorExtras.
Import Vector3D VectorForms Vector3DFacts AngleForms AngleFacts Wording.

Lemma vector_eta (v : t) : mk (x v) (y v) (z v) = v.
Proof. destruct v. reflexivity. Qed.

Lemma norm_zero_iff (v : t) : norm v = 0 <-> v = zero_vector.
Proof.
  split.
  - intros H. unfold norm in H.
    apply sqrt_eq_0 in H; [| apply sum_sq3_nonneg].
    pose proof (pow2_ge_0 (x v)). pose proof (pow2_ge_0 (y v)).
    pose proof (pow2_ge_0 (z v)).
    assert (Hx : x v ^ 2 = 0) by lra.
    assert (Hy : y v ^ 2 = 0) by lra.
    assert (Hz : z v ^ 2 = 0) by lra.
    rewrite <- (vector_eta v). unfold zero_vector.
    f_equal; [revert Hx | revert Hy | revert Hz];
      rewrite <- Rsqr_pow2; apply Rsqr_0_uniq.
  - intros ->. unfold norm, zero_vector. cbn [x y z].
    replace (0 ^ 2 + 0 ^ 2 + 0 ^ 2) with 0 by ring. apply sqrt_0.
Qed.

(** [length] never raises and never touches the vector; the length is
    never negative, and it is 0 for the zero vector only. *)
Theorem vector_length_zero_iff (v : t) :
  exists len,
    length v = (Ok len, v, []) /\
    0 <= len /\
    (len = 0 <-> v = mk 0 0 0).
Proof.
  exists (norm v). split; [apply length_run |].
  split; [apply norm_nonneg | apply norm_zero_iff].
Qed.

(** [multiply_minus] called twice restores the vector, and one call leaves
    its length as it was. *)
Theorem multiply_minus_involutive (v : t) :
  (multiply_minus ;; multiply_minus) v = (Ok tt, v, []) /\
  exists len,
    length v = (Ok len, v, []) /\
    (multiply_minus ;; length) v = (Ok len, mk (- x v) (- y v) (- z v), []).
Proof.
  split.
  - unfold multiply_minus. run_monad. cbn [x y z].
    rewrite !Ropp_involutive, vector_eta. reflexivity.
  - exists (norm v). split; [apply length_run |].
    unfold multiply_minus, bind, modify. rewrite length_run.
    cbn [app x y z]. unfold norm.
    match goal with
    | |- (Ok (sqrt ?a), _, _) = _ =>
        replace a with (x v ^ 2 + y v ^ 2 + z v ^ 2) by ring
    end.
    reflexivity.
Qed.

(** After one [azimuth] call the vector points upwards ([z >= 0]) and is
    settled: a second call returns the same azimuth and changes nothing. *)
Theorem azimuth_settles (v : t) :
  exists az v',
    azimuth v = (Ok az, v', []) /\
    0 <= z v' /\
    azimuth v' = (Ok az, v', []).
Proof.
  exists (bearing (canonical v)), (canonical v).
  split; [apply azimuth_run |].
  split; [apply canonical_z_nonneg |].
  rewrite azimuth_run, canonical_idem by apply canonical_z_nonneg.
  reflexivity.
Qed.

Lemma canonical_reversed (v : t) :
  z v <> 0 -> canonical (mk (- x v) (- y v) (- z v)) = canonical v.
Proof.
  intros Hz. unfold canonical. cbn [x y z].
  destruct (Rlt_dec (- z v) 0); destruct (Rlt_dec (z v) 0); try lra.
  - rewrite !Ropp_involutive. apply vector_eta.
  - reflexivity.
Qed.

(** A vector and its opposite, when they are not horizontal, have the same
    azimuth and are left in the same state: the direction of an edge does
    not matter. *)
Theorem azimuth_ignores_direction (v : t) :
  z v <> 0 ->
  (multiply_minus ;; azimuth) v = azimuth v.
Proof.
  intros Hz. unfold multiply_minus, bind, modify.
  rewrite !azimuth_run, canonical_reversed by exact Hz. reflexivity.
Qed.

Lemma azimuth_ignores_direction_witness :
  (multiply_minus ;; azimuth) (mk 1 2 3) = azimuth (mk 1 2 3).
Proof.
  apply (azimuth_ignores_direction (mk 1 2 3)). cbn [z]. lra.
Defined.

Lemma bearing_reversed (v : t) :
  x v <> 0 \/ y v <> 0 ->
  bearing (mk (- x v) (- y v) (z v)) = py_mod (bearing v + 180) 360.
Proof.
  intros Hne. unfold bearing. cbn [x y].
  assert (Hne' : y v <> 0 \/ x v <> 0) by tauto.
  rewrite (atan2_opposite _ _ Hne'), py_mod_inner by lra.
  pose proof PI_RGT_0 as HPI.
  destruct (Rlt_dec 0 (atan2 (x v) (y v))).
  - replace (degrees (atan2 (x v) (y v) - PI))
      with (degrees (atan2 (x v) (y v)) + 180 + 360 * IZR (-1))
      by (unfold degrees; field; lra).
    apply py_mod_shift. lra.
  - f_equal. unfold degrees. field. lra.
Qed.

(** A horizontal vector and its opposite have azimuths half a turn apart. *)
Theorem azimuth_of_reversed_horizontal (v : t) :
  z v = 0 ->
  x v <> 0 \/ y v <> 0 ->
  exists az,
    azimuth v = (Ok az, v, []) /\
    (multiply_minus ;; azimuth) v
    = (Ok (py_mod (az + 180) 360), mk (- x v) (- y v) (- z v), []).
Proof.
  intros Hz Hne. exists (bearing v).
  split.
  - rewrite azimuth_run, canonical_idem by lra. reflexivity.
  - unfold multiply_minus, bind, modify. rewrite azimuth_run.
    rewrite canonical_idem by (cbn [z]; lra). cbn [app].
    rewrite <- (bearing_reversed v Hne).
    unfold bearing. cbn [x y]. reflexivity.
Qed.

Lemma azimuth_of_reversed_horizontal_witness :
  exists az,
    azimuth (mk 1 0 0) = (Ok az, mk 1 0 0, []) /\
    (multiply_minus ;; azimuth) (mk 1 0 0)
    = (Ok (py_mod (az + 180) 360), mk (- 1) (- 0) (- 0), []).
Proof.
  apply (azimuth_of_reversed_horizontal (mk 1 0 0)).
  - reflexivity.
  - left. cbn [x]. lra.
Defined.

(** Read in the order of the constructors, azimuth first and dip second,
    the dip is at most 90 degrees: the vector has been turned upwards. *)
Theorem azimuth_then_dip (v : t) :
  exists az d v',
    (az <- azimuth ;; d <- dip ;; ret (az, d)) v = (Ok (az, d), v', []) /\
    0 <= az < 360 /\
    0 <= d <= 90.
Proof.
  exists (bearing (canonical v)).
  exists (degrees (atan2 (horizontal (canonical v)) (z (canonical v)))).
  exists (canonical v).
  split.
  - unfold bind at 1. rewrite azimuth_run. cbv beta iota.
    unfold bind at 1. rewrite dip_run. reflexivity.
  - split; [apply bearing_range |].
    pose proof (atan2_first_quadrant _ _ (horizontal_nonneg (canonical v))
                  (canonical_z_nonneg v)) as [Hlo Hhi].
    apply degrees_le in Hlo. apply degrees_le in Hhi.
    rewrite degrees_0 in Hlo.
    replace (degrees (PI / 2)) with 90 in Hhi
      by (unfold degrees; pose proof PI_RGT_0; field; lra).
    lra.
Qed.

End VectorExtras.

(** ** Vector3D: the angle between two vectors, the cross product *)

Module AngleExtras.
Import Vector3D VectorForms Vector3DFacts AngleForms AngleFacts Wording.
Import VectorExtras.

Lemma norm_product_zero (a b : t) :
  norm a * norm b = 0 <-> a = zero_vector \/ b = zero_vector.
Proof.
  split.
  - intros H. apply Rmult_integral in H.
    destruct H as [H | H]; [left | right]; apply norm_zero_iff, H.
  - intros [H | H]; apply norm_zero_iff in H; rewrite H; ring.
Qed.

Lemma angle_range (a b : t) : 0 <= angle a b <= 180.
Proof.
  unfold angle. destruct (Req_dec_T (norm a * norm b) 0); [lra |].
  pose proof (acos_bound (dot a b / (norm a * norm b))) as [Hlo Hhi].
  apply degrees_le in Hlo. apply degrees_le in Hhi.
  rewrite degrees_0 in Hlo. rewrite degrees_PI in Hhi. lra.
Qed.

(** [degrees_with] never raises and never touches its vectors; the angle
    lies in [[0, 180]]; nothing is logged when both vectors are non-zero,
    and when one of them is the zero vector the division by zero is
    caught: one ERROR record is logged and the angle is 0. *)
Theorem degrees_with_total (self other : t) :
  exists a l,
    degrees_with other self = (Ok a, self, l) /\
    0 <= a <= 180 /\
    (self <> zero_vector -> other <> zero_vector -> l = []) /\
    (self = zero_vector \/ other = zero_vector ->
     a = 0 /\ l = [degrees_error]).
Proof.
  exists (angle self other), (angle_log self other).
  split; [apply degrees_with_run |].
  split; [apply angle_range |].
  unfold angle, angle_log.
  destruct (Req_dec_T (norm self * norm other) 0) as [Hz | Hnz].
  - apply norm_product_zero in Hz. split.
    + intros Hs Ho. destruct Hz; contradiction.
    + intros _. split; reflexivity.
  - split; [reflexivity |].
    intros H. apply norm_product_zero in H. contradiction.
Qed.

(** The angle does not depend on which vector is [self]: the two calls
    return the same angle and log the same records. *)
Theorem degrees_with_symmetric (a b : t) :
  exists ang l,
    degrees_with b a = (Ok ang, a, l) /\
    degrees_with a b = (Ok ang, b, l).
Proof.
  exists (angle a b), (angle_log a b).
  split; [apply degrees_with_run |].
  rewrite degrees_with_run. unfold angle, angle_log.
  replace (norm b * norm a) with (norm a * norm b) by ring.
  replace (dot b a) with (dot a b) by (unfold dot; ring).
  reflexivity.
Qed.

Lemma angle_perpendicular (a b : t) :
  a <> zero_vector -> b <> zero_vector -> dot a b = 0 -> angle a b = 90.
Proof.
  intros Ha Hb Hdot. unfold angle.
  destruct (Req_dec_T (norm a * norm b) 0) as [Hz | Hnz].
  - apply norm_product_zero in Hz. destruct Hz; contradiction.
  - rewrite Hdot. replace (0 / (norm a * norm b)) with 0 by (unfold Rdiv; ring).
    rewrite acos_0. unfold degrees. pose proof PI_RGT_0. field. lra.
Qed.

Lemma mul_dot_left (a b : t) : dot (mul a b) a = 0.
Proof. unfold dot, mul. cbn [x y z]. ring. Qed.

Lemma mul_dot_right (a b : t) : dot (mul a b) b = 0.
Proof. unfold dot, mul. cbn [x y z]. ring. Qed.

Lemma mul_zero_left (b : t) : mul zero_vector b = zero_vector.
Proof. unfold mul, zero_vector. cbn [x y z]. f_equal; ring. Qed.

Lemma mul_zero_right (a : t) : mul a zero_vector = zero_vector.
Proof. unfold mul, zero_vector. cbn [x y z]. f_equal; ring. Qed.

(** The cross product [a * b], when it is not the zero vector, is at a
    right angle to both [a] and [b]: [degrees_with] returns 90 for each of
    them and logs nothing. *)
Theorem cross_product_is_perpendicular (a b : t) :
  mul a b <> zero_vector ->
  degrees_with a (mul a b) = (Ok 90, mul a b, []) /\
  degrees_with b (mul a b) = (Ok 90, mul a b, []).
Proof.
  intros Hne.
  assert (Ha : a <> zero_vector).
  { intros ->. apply Hne, mul_zero_left. }
  assert (Hb : b <> zero_vector).
  { intros ->. apply Hne, mul_zero_right. }
  assert (Hlog : forall c, c <> zero_vector -> angle_log (mul a b) c = []).
  { intros c Hc. unfold angle_log.
    destruct (Req_dec_T (norm (mul a b) * norm c) 0) as [Hz | Hnz]; [| reflexivity].
    apply norm_product_zero in Hz. destruct Hz; contradiction. }
  split; rewrite degrees_with_run.
  - rewrite (angle_perpendicular _ _ Hne Ha (mul_dot_left a b)), (Hlog a Ha).
    reflexivity.
  - rewrite (angle_perpendicular _ _ Hne Hb (mul_dot_right a b)), (Hlog b Hb).
    reflexivity.
Qed.

Lemma cross_product_is_perpendicular_witness :
  degrees_with (mk 1 0 0) (mul (mk 1 0 0) (mk 0 1 0))
  = (Ok 90, mul (mk 1 0 0) (mk 0 1 0), []) /\
  degrees_with (mk 0 1 0) (mul (mk 1 0 0) (mk 0 1 0))
  = (Ok 90, mul (mk 1 0 0) (mk 0 1 0), []).
Proof.
  apply (cross_product_is_perpendicular (mk 1 0 0) (mk 0 1 0)).
  unfold mul, zero_vector. cbn [x y z]. intros E. injection E as _ _ E. lra.
Defined.

(** The cross product of a vector with any multiple of it is the zero
    vector. *)
Theorem cross_product_of_parallel (a : t) (k : R) :
  mul a (mk (k * x a) (k * y a) (k * z a)) = mk 0 0 0.
Proof. unfold mul. cbn [x y z]. f_equal; ring. Qed.

End AngleExtras.

(** ** Edge: what every constructed edge satisfies *)

Module EdgeExtras.
Import VectorForms Vector3DFacts AngleForms AngleFacts EdgeForms.
Import VectorExtras.

Lemma degrees_right_angle : degrees (PI / 2) = 90.
Proof. unfold degrees. pose proof PI_RGT_0. field. lra. Qed.

Lemma dip_of_upward (v : Vector3D.t) :
  0 <= Vector3D.z v ->
  0 <= degrees (atan2 (horizontal v) (Vector3D.z v)) <= 90.
Proof.
  intros Hz.
  pose proof (atan2_first_quadrant _ _ (horizontal_nonneg v) Hz) as [Hlo Hhi].
  apply degrees_le in Hlo. apply degrees_le in Hhi.
  rewrite degrees_0 in Hlo. rewrite degrees_right_angle in Hhi. lra.
Qed.

(** Every [Edge(p1, p2)] is built completely, without an exception and
    without a log record.  Its length is not negative, both azimuths lie
    in [[0, 360]], its dip and its edge dip in [[0, 180]], the dip in
    [[0, 90]] when the edge has a length, and [rotated_azimuth] starts at
    0.  In exact arithmetic the centre is the midpoint of the two points
    (the host stores it in single precision). *)
Theorem edge_is_complete_and_in_range (p1 p2 : Point.t) :
  exists e len az d eaz ed,
    Edge.new p1 p2 tt = (Ok e, tt, []) /\
    Edge.point1 e = Some p1 /\ Edge.point2 e = Some p2 /\
    Edge.center e
    = Some (Point.mk ((Point.x p1 + Point.x p2) / 2)
                     ((Point.y p1 + Point.y p2) / 2)
                     ((Point.z p1 + Point.z p2) / 2)) /\
    Edge.length e = Some len /\ 0 <= len /\
    Edge.azimuth e = Some az /\ 0 <= az <= 360 /\
    Edge.dip e = Some d /\ 0 <= d <= 180 /\ (len <> 0 -> d <= 90) /\
    Edge.edge_azimuth e = Some eaz /\ 0 <= eaz <= 360 /\
    Edge.edge_dip e = Some ed /\ 0 <= ed <= 180 /\
    Edge.rotated_azimuth e = Some 0.
Proof.
  eexists. eexists. eexists. eexists. eexists. eexists.
  split; [apply EdgeFacts.edge_new_run |].
  cbn [Edge.point1 Edge.point2 Edge.center Edge.length Edge.azimuth Edge.dip
       Edge.edge_azimuth Edge.edge_dip Edge.rotated_azimuth built].
  repeat (split; [reflexivity |]).
  split; [apply sqrt_pos |].
  split; [reflexivity |].
  split; [pose proof (bearing_range (edge_vector p1 p2)); lra |].
  split; [reflexivity |].
  pose proof (dip_of_upward (edge_vector p1 p2) (canonical_z_nonneg _)) as Hd.
  split; [lra |].
  split; [intros _; lra |].
  split; [reflexivity |].
  split; [pose proof (bearing_range (normal_vector p1 p2)); lra |].
  split; [reflexivity |].
  split; [| reflexivity].
  pose proof (dip_of_upward (normal_vector p1 p2) (canonical_z_nonneg _)). lra.
Qed.

Lemma of_points_reversed (p1 p2 : Point.t) :
  Vector3D.of_points p2 p1
  = Vector3D.mk (- Vector3D.x (Vector3D.of_points p1 p2))
                (- Vector3D.y (Vector3D.of_points p1 p2))
                (- Vector3D.z (Vector3D.of_points p1 p2)).
Proof.
  unfold Vector3D.of_points. cbn [Vector3D.x Vector3D.y Vector3D.z].
  f_equal; ring.
Qed.

Lemma midpoint_sym (p1 p2 : Point.t) : midpoint p2 p1 = midpoint p1 p2.
Proof. unfold midpoint. f_equal; field. Qed.

Lemma edge_vector_reversed (p1 p2 : Point.t) :
  Point.z p1 <> Point.z p2 -> edge_vector p2 p1 = edge_vector p1 p2.
Proof.
  intros Hz. unfold edge_vector. rewrite of_points_reversed.
  apply canonical_reversed. unfold Vector3D.of_points. cbn [Vector3D.z]. lra.
Qed.

(** The edge between two points of different heights does not depend on
    the order of its points: [Edge(p2, p1)] has the centre, length and dip
    of [Edge(p1, p2)], and, when the points are also apart in plan, its
    azimuth, edge azimuth, edge dip and stored vector. *)
Theorem edge_ignores_point_order (p1 p2 : Point.t) :
  Point.z p1 <> Point.z p2 ->
  exists e e',
    Edge.new p1 p2 tt = (Ok e, tt, []) /\
    Edge.new p2 p1 tt = (Ok e', tt, []) /\
    Edge.center e' = Edge.center e /\
    Edge.length e' = Edge.length e /\
    Edge.dip e' = Edge.dip e /\
    (Point.x p1 <> Point.x p2 \/ Point.y p1 <> Point.y p2 ->
     Edge.azimuth e' = Edge.azimuth e /\
     Edge.edge_azimuth e' = Edge.edge_azimuth e /\
     Edge.edge_dip e' = Edge.edge_dip e /\
     Edge.a e' = Edge.a e).
Proof.
  intros Hz. exists (built p1 p2), (built p2 p1).
  split; [apply EdgeFacts.edge_new_run |].
  split; [apply EdgeFacts.edge_new_run |].
  cbn [Edge.center Edge.length Edge.azimuth Edge.dip Edge.edge_azimuth
       Edge.edge_dip Edge.a built].
  unfold normal_vector. rewrite (edge_vector_reversed p1 p2 Hz), midpoint_sym.
  split; [reflexivity |].
  split; [| split; [reflexivity | intros _; repeat split]].
  f_equal. rewrite of_points_reversed. cbn [Vector3D.x Vector3D.y Vector3D.z].
  f_equal. ring.
Qed.

Lemma edge_ignores_point_order_witness :
  exists e e',
    Edge.new (Point.mk 0 0 0) (Point.mk 1 2 3) tt = (Ok e, tt, []) /\
    Edge.new (Point.mk 1 2 3) (Point.mk 0 0 0) tt = (Ok e', tt, []) /\
    Edge.center e' = Edge.center e /\
    Edge.length e' = Edge.length e /\
    Edge.dip e' = Edge.dip e /\
    (Point.x (Point.mk 0 0 0) <> Point.x (Point.mk 1 2 3) \/
     Point.y (Point.mk 0 0 0) <> Point.y (Point.mk 1 2 3) ->
     Edge.azimuth e' = Edge.azimuth e /\
     Edge.edge_azimuth e' = Edge.edge_azimuth e /\
     Edge.edge_dip e' = Edge.edge_dip e /\
     Edge.a e' = Edge.a e).
Proof.
  apply (edge_ignores_point_order (Point.mk 0 0 0) (Point.mk 1 2 3)).
  cbn [Point.z]. lra.
Defined.

(** A level edge (both points at one height, apart in plan) has dip 90;
    in exact arithmetic, turning it round moves its azimuth by half a
    turn. *)
Theorem level_edge_dip_and_reversal (p1 p2 : Point.t) :
  Point.z p1 = Point.z p2 ->
  Point.x p1 <> Point.x p2 \/ Point.y p1 <> Point.y p2 ->
  exists e e' az,
    Edge.new p1 p2 tt = (Ok e, tt, []) /\
    Edge.new p2 p1 tt = (Ok e', tt, []) /\
    Edge.dip e = Some 90 /\ Edge.dip e' = Some 90 /\
    Edge.azimuth e = Some az /\
    Edge.azimuth e' = Some (py_mod (az + 180) 360).
Proof.
  intros Hz Hxy.
  exists (built p1 p2), (built p2 p1), (bearing (Vector3D.of_points p1 p2)).
  split; [apply EdgeFacts.edge_new_run |].
  split; [apply EdgeFacts.edge_new_run |].
  assert (Hz0 : Vector3D.z (Vector3D.of_points p1 p2) = 0)
    by (unfold Vector3D.of_points; cbn [Vector3D.z]; lra).
  assert (Hne : Vector3D.x (Vector3D.of_points p1 p2) <> 0 \/
                Vector3D.y (Vector3D.of_points p1 p2) <> 0).
  { unfold Vector3D.of_points. cbn [Vector3D.x Vector3D.y].
    destruct Hxy; [left | right]; lra. }
  assert (Hv : edge_vector p1 p2 = Vector3D.of_points p1 p2)
    by (unfold edge_vector; apply canonical_idem; lra).
  assert (Hv' : edge_vector p2 p1 = Vector3D.of_points p2 p1).
  { unfold edge_vector. apply canonical_idem.
    unfold Vector3D.of_points. cbn [Vector3D.z]. lra. }
  assert (Hdip : forall v, Vector3D.z v = 0 ->
                   Vector3D.x v <> 0 \/ Vector3D.y v <> 0 ->
                   degrees (atan2 (horizontal v) (Vector3D.z v)) = 90).
  { intros v Hvz Hvne. rewrite Hvz.
    rewrite atan2_pos_axis by (apply hypot_pos, Hvne).
    apply degrees_right_angle. }
  cbn [Edge.dip Edge.azimuth built]. rewrite Hv, Hv'.
  split; [f_equal; apply Hdip; assumption |].
  split.
  - f_equal. apply Hdip.
    + unfold Vector3D.of_points. cbn [Vector3D.z]. lra.
    + unfold Vector3D.of_points. cbn [Vector3D.x Vector3D.y].
      destruct Hxy; [left | right]; lra.
  - split; [reflexivity |]. f_equal.
    rewrite <- (bearing_reversed _ Hne), of_points_reversed.
    unfold bearing. cbn [Vector3D.x Vector3D.y]. reflexivity.
Qed.

Lemma level_edge_dip_and_reversal_witness :
  exists e e' az,
    Edge.new (Point.mk 0 0 5) (Point.mk 1 0 5) tt = (Ok e, tt, []) /\
    Edge.new (Point.mk 1 0 5) (Point.mk 0 0 5) tt = (Ok e', tt, []) /\
    Edge.dip e = Some 90 /\ Edge.dip e' = Some 90 /\
    Edge.azimuth e = Some az /\
    Edge.azimuth e' = Some (py_mod (az + 180) 360).
Proof.
  apply (level_edge_dip_and_reversal (Point.mk 0 0 5) (Point.mk 1 0 5)).
  - reflexivity.
  - left. cbn [Point.x]. lra.
Defined.



End EdgeExtras.

(** ** Face: what every constructed face satisfies *)

Module FaceExtras.
Import VectorForms Vector3DFacts AngleForms AngleFacts FaceForms Wording.
Import VectorExtras AngleExtras EdgeExtras.

Lemma norm_of_canonical (v : Vector3D.t) : norm (canonical v) = norm v.
Proof.
  unfold canonical, norm. destruct (Rlt_dec (Vector3D.z v) 0); [| reflexivity].
  cbn [Vector3D.x Vector3D.y Vector3D.z]. f_equal. ring.
Qed.

Lemma point_eta (p : Point.t) : Point.mk (Point.x p) (Point.y p) (Point.z p) = p.
Proof. destruct p. reflexivity. Qed.

Lemma of_points_zero_iff (p q : Point.t) :
  Vector3D.of_points p q = zero_vector <-> p = q.
Proof.
  unfold Vector3D.of_points, zero_vector. split.
  - intros E. injection E as Ex Ey Ez.
    rewrite <- (point_eta p), <- (point_eta q). f_equal; lra.
  - intros ->. f_equal; ring.
Qed.

(** Every [Face(p1, p2, p3)] is built completely and without an exception.
    Its azimuth lies in [[0, 360]], its dip in [[0, 180]] and, when the
    face has an area, in [[0, 90]]; its area is not negative, its degree
    lies in [[0, 180]], and [rotated_azimuth] starts at 0.  In exact
    arithmetic the centre is the mean of the three points (the host
    stores it in single precision), and nothing is logged when [p2]
    differs from [p1] and from [p3]; when it coincides with one of them,
    the angle at [p2] cannot be computed: one ERROR record is logged and
    the degree is 0. *)
Theorem face_is_complete_and_in_range (p1 p2 p3 : Point.t) :
  exists f l az d ar dg,
    Face.new p1 p2 p3 tt = (Ok f, tt, l) /\
    Face.point1 f = Some p1 /\ Face.point2 f = Some p2 /\
    Face.point3 f = Some p3 /\
    Face.center f
    = Some (Point.mk ((Point.x p1 + Point.x p2 + Point.x p3) / 3)
                     ((Point.y p1 + Point.y p2 + Point.y p3) / 3)
                     ((Point.z p1 + Point.z p2 + Point.z p3) / 3)) /\
    Face.azimuth f = Some az /\ 0 <= az <= 360 /\
    Face.dip f = Some d /\ 0 <= d <= 180 /\ (ar <> 0 -> d <= 90) /\
    Face.area f = Some ar /\ 0 <= ar /\
    Face.degree f = Some dg /\ 0 <= dg <= 180 /\
    Face.rotated_azimuth f = Some 0 /\
    (p2 <> p1 -> p2 <> p3 -> l = []) /\
    (p2 = p1 \/ p2 = p3 -> dg = 0 /\ l = [degrees_error]).
Proof.
  eexists. eexists. eexists. eexists. eexists. eexists.
  split; [apply FaceFacts.face_new_run |].
  cbn [Face.point1 Face.point2 Face.point3 Face.center Face.azimuth Face.dip
       Face.area Face.degree Face.rotated_azimuth built].
  repeat (split; [reflexivity |]).
  split; [pose proof (bearing_range (canonical (ab_raw p1 p2 p3))); lra |].
  split; [reflexivity |].
  pose proof (dip_of_upward (canonical (ab_raw p1 p2 p3)) (canonical_z_nonneg _))
    as Hdip.
  split; [lra |].
  split; [intros _; lra |].
  split; [reflexivity |].
  split.
  { pose proof (norm_nonneg (canonical (ab_raw p1 p2 p3))). lra. }
  split; [reflexivity |].
  split; [apply angle_range |].
  split; [reflexivity |].
  unfold angle, angle_log, side_a, side_b.
  destruct (Req_dec_T (norm (Vector3D.of_points p2 p1)
                       * norm (Vector3D.of_points p2 p3)) 0) as [Hz | Hnz].
  - apply norm_product_zero in Hz. split.
    + intros H1 H3. destruct Hz as [Hz | Hz];
        apply of_points_zero_iff in Hz; congruence.
    + intros _. split; reflexivity.
  - split; [reflexivity |].
    intros H. exfalso. apply Hnz, norm_product_zero.
    destruct H as [H | H]; [left | right]; apply of_points_zero_iff; exact H.
Qed.

Lemma ab_raw_cycle (p1 p2 p3 : Point.t) : ab_raw p2 p3 p1 = ab_raw p1 p2 p3.
Proof.
  unfold ab_raw, Vector3D.mul, Vector3D.of_points.
  cbn [Vector3D.x Vector3D.y Vector3D.z]. f_equal; ring.
Qed.


Lemma centroid_cycle (p1 p2 p3 : Point.t) : centroid p2 p3 p1 = centroid p1 p2 p3.
Proof. unfold centroid. f_equal; field. Qed.


(** Starting the same triangle at its second point changes nothing but the
    corner the degree is measured at: [Face(p2, p3, p1)] has the centre,
    [ab] and area of [Face(p1, p2, p3)]; it has its dip when the face has
    an area, and its azimuth when the face is not level (the cross product
    has a horizontal part). *)
Theorem face_ignores_starting_point (p1 p2 p3 : Point.t) :
  exists f f' l l' ar,
    Face.new p1 p2 p3 tt = (Ok f, tt, l) /\
    Face.new p2 p3 p1 tt = (Ok f', tt, l') /\
    Face.center f' = Face.center f /\
    Face.ab f' = Face.ab f /\
    Face.area f = Some ar /\
    Face.area f' = Some ar /\
    (ar <> 0 -> Face.dip f' = Face.dip f) /\
    (let cross := Vector3D.mul (Vector3D.of_points p2 p1)
                               (Vector3D.of_points p3 p1) in
     Vector3D.x cross <> 0 \/ Vector3D.y cross <> 0 ->
     Face.azimuth f' = Face.azimuth f).
Proof.
  eexists. eexists. eexists. eexists. eexists.
  split; [apply FaceFacts.face_new_run |].
  split; [apply FaceFacts.face_new_run |].
  cbn [Face.center Face.ab Face.azimuth Face.dip Face.area built].
  rewrite ab_raw_cycle, centroid_cycle.
  repeat split.
Qed.


(** Three points on one line make a face of area 0, built like any other
    face. *)
Theorem collinear_face_has_no_area (p1 p2 : Point.t) (k : R) :
  let p3 := Point.mk (Point.x p1 + k * (Point.x p2 - Point.x p1))
                     (Point.y p1 + k * (Point.y p2 - Point.y p1))
                     (Point.z p1 + k * (Point.z p2 - Point.z p1)) in
  exists f l,
    Face.new p1 p2 p3 tt = (Ok f, tt, l) /\
    Face.area f = Some 0.
Proof.
  cbv zeta. eexists. eexists.
  split; [apply FaceFacts.face_new_run |].
  cbn [Face.area built]. f_equal. rewrite norm_of_canonical.
  unfold norm, ab_raw, Vector3D.mul, Vector3D.of_points.
  cbn [Point.x Point.y Point.z Vector3D.x Vector3D.y Vector3D.z].
  match goal with |- sqrt ?a / 2 = _ => replace a with 0 by ring end.
  rewrite sqrt_0. unfold Rdiv. ring.
Qed.

Lemma atan2_zero_up (zz : R) : 0 <= zz -> atan2 0 zz = 0.
Proof.
  intros Hzz. unfold atan2.
  destruct (Rlt_dec 0 zz).
  - replace (0 / zz) with 0 by (unfold Rdiv; ring). apply atan_0.
  - destruct (Rlt_dec zz 0); [lra |].
    destruct (Rlt_dec 0 0); [lra | reflexivity].
Qed.

(** A level face (its three points at one height, not on one line) has
    dip 0. *)
Theorem level_face_has_no_dip (p1 p2 p3 : Point.t) :
  Point.z p1 = Point.z p2 ->
  Point.z p1 = Point.z p3 ->
  Vector3D.z (Vector3D.mul (Vector3D.of_points p2 p1)
                           (Vector3D.of_points p3 p1)) <> 0 ->
  exists f l,
    Face.new p1 p2 p3 tt = (Ok f, tt, l) /\
    Face.dip f = Some 0.
Proof.
  intros H2 H3 _. eexists. eexists.
  split; [apply FaceFacts.face_new_run |].
  cbn [Face.dip built]. f_equal.
  assert (Hh : horizontal (canonical (ab_raw p1 p2 p3)) = 0).
  { rewrite horizontal_canonical.
    unfold horizontal, ab_raw, Vector3D.mul, Vector3D.of_points.
    cbn [Vector3D.x Vector3D.y Vector3D.z]. rewrite <- H2, <- H3.
    match goal with |- sqrt ?a = _ => replace a with 0 by ring end.
    apply sqrt_0. }
  rewrite Hh, atan2_zero_up by apply canonical_z_nonneg.
  apply degrees_0.
Qed.

Lemma level_face_has_no_dip_witness :
  exists f l,
    Face.new (Point.mk 0 0 2) (Point.mk 1 0 2) (Point.mk 0 1 2) tt = (Ok f, tt, l) /\
    Face.dip f = Some 0.
Proof.
  apply (level_face_has_no_dip (Point.mk 0 0 2) (Point.mk 1 0 2) (Point.mk 0 1 2));
    try reflexivity.
  unfold Vector3D.mul, Vector3D.of_points.
  cbn [Point.x Point.y Point.z Vector3D.x Vector3D.y Vector3D.z]. lra.
Defined.

End FaceExtras.

(** ** Lengths, areas and angles together *)

Module MetricExtras.
Import VectorForms Vector3DFacts AngleForms AngleFacts EdgeForms FaceForms Wording.
Import VectorExtras AngleExtras EdgeExtras FaceExtras.

Lemma dot_le_norms (a b : Vector3D.t) : dot a b <= norm a * norm b.
Proof.
  pose proof (norm_nonneg a). pose proof (norm_nonneg b).
  assert (Hpos : 0 <= norm a * norm b) by (apply Rmult_le_pos; assumption).
  pose proof (dot_sq_le a b) as Hcs.
  assert (Hle : Rabs (dot a b) <= Rabs (norm a * norm b))
    by (apply Rsqr_le_abs_0; unfold Rsqr; exact Hcs).
  rewrite (Rabs_pos_eq (norm a * norm b)) in Hle by exact Hpos.
  pose proof (Rle_abs (dot a b)). lra.
Qed.

Lemma norm_triangle (u w : Vector3D.t) :
  norm (Vector3D.mk (Vector3D.x u + Vector3D.x w)
                    (Vector3D.y u + Vector3D.y w)
                    (Vector3D.z u + Vector3D.z w))
  <= norm u + norm w.
Proof.
  pose proof (norm_nonneg u). pose proof (norm_nonneg w).
  apply Rsqr_incr_0_var; [| lra].
  unfold Rsqr. rewrite norm_sq. cbn [Vector3D.x Vector3D.y Vector3D.z].
  pose proof (norm_sq u) as Hu. pose proof (norm_sq w) as Hw.
  pose proof (dot_le_norms u w) as Hd. unfold dot in Hd.
  nra.
Qed.

(** The lengths of the edges between three points obey the triangle
    inequality: going from [p1] to [p3] directly is never longer than
    going through [p2]. *)
Theorem edge_lengths_triangle (p1 p2 p3 : Point.t) :
  exists e12 e23 e13 l12 l23 l13,
    Edge.new p1 p2 tt = (Ok e12, tt, []) /\
    Edge.new p2 p3 tt = (Ok e23, tt, []) /\
    Edge.new p1 p3 tt = (Ok e13, tt, []) /\
    Edge.length e12 = Some l12 /\
    Edge.length e23 = Some l23 /\
    Edge.length e13 = Some l13 /\
    l13 <= l12 + l23.
Proof.
  exists (EdgeForms.built p1 p2), (EdgeForms.built p2 p3), (EdgeForms.built p1 p3).
  exists (norm (Vector3D.of_points p1 p2)), (norm (Vector3D.of_points p2 p3)).
  exists (norm (Vector3D.of_points p1 p3)).
  repeat (split; [apply EdgeFacts.edge_new_run |]).
  repeat (split; [reflexivity |]).
  replace (Vector3D.of_points p1 p3)
    with (Vector3D.mk
            (Vector3D.x (Vector3D.of_points p1 p2) + Vector3D.x (Vector3D.of_points p2 p3))
            (Vector3D.y (Vector3D.of_points p1 p2) + Vector3D.y (Vector3D.of_points p2 p3))
            (Vector3D.z (Vector3D.of_points p1 p2) + Vector3D.z (Vector3D.of_points p2 p3))).
  - apply norm_triangle.
  - unfold Vector3D.of_points. cbn [Vector3D.x Vector3D.y Vector3D.z].
    f_equal; ring.
Qed.

Lemma ab_raw_norm_sq (p1 p2 p3 : Point.t) :
  norm (ab_raw p1 p2 p3) * norm (ab_raw p1 p2 p3)
  = (norm (side_a p1 p2) * norm (side_b p2 p3))
    * (norm (side_a p1 p2) * norm (side_b p2 p3))
    - dot (side_a p1 p2) (side_b p2 p3) * dot (side_a p1 p2) (side_b p2 p3).
Proof.
  replace (norm (side_a p1 p2) * norm (side_b p2 p3)
           * (norm (side_a p1 p2) * norm (side_b p2 p3)))
    with ((norm (side_a p1 p2) * norm (side_a p1 p2))
          * (norm (side_b p2 p3) * norm (side_b p2 p3))) by ring.
  rewrite !norm_sq.
  unfold dot, ab_raw, side_a, side_b, Vector3D.mul, Vector3D.of_points.
  cbn [Vector3D.x Vector3D.y Vector3D.z]. ring.
Qed.

(** The area of a face is half the product of the two sides that meet at
    [p2] and the sine of the angle the face stores as its degree. *)
Theorem face_area_from_sides_and_degree (p1 p2 p3 : Point.t) :
  exists f l ar dg la lb,
    Face.new p1 p2 p3 tt = (Ok f, tt, l) /\
    Face.area f = Some ar /\
    Face.degree f = Some dg /\
    Vector3D.length (Vector3D.of_points p2 p1)
    = (Ok la, Vector3D.of_points p2 p1, []) /\
    Vector3D.length (Vector3D.of_points p2 p3)
    = (Ok lb, Vector3D.of_points p2 p3, []) /\
    ar = la * lb * sin (radians dg) / 2.
Proof.
  eexists. eexists. eexists. eexists. eexists. eexists.
  split; [apply FaceFacts.face_new_run |].
  cbn [Face.area Face.degree FaceForms.built].
  split; [reflexivity |]. split; [reflexivity |].
  split; [apply length_run |]. split; [apply length_run |].
  fold (norm (Vector3D.of_points p2 p1)). fold (norm (Vector3D.of_points p2 p3)).
  fold (side_a p1 p2). fold (side_b p2 p3).
  rewrite norm_of_canonical.
  set (a := side_a p1 p2). set (b := side_b p2 p3).
  pose proof (ab_raw_norm_sq p1 p2 p3) as Hsq. fold a b in Hsq.
  pose proof (norm_nonneg (ab_raw p1 p2 p3)) as Hn.
  pose proof (norm_nonneg a) as Ha. pose proof (norm_nonneg b) as Hb.
  assert (Hab : 0 <= norm a * norm b) by (apply Rmult_le_pos; assumption).
  enough (E : norm (ab_raw p1 p2 p3) = norm a * norm b * sin (radians (angle a b)))
    by (rewrite E; reflexivity).
  unfold angle. destruct (Req_dec_T (norm a * norm b) 0) as [Hz | Hnz].
  - rewrite Hz in Hsq |- *.
    assert (norm (ab_raw p1 p2 p3) = 0) by nra.
    lra.
  - pose proof (cosine_in_domain a b Hnz) as Hq.
    rewrite radians_degrees, sin_acos by exact Hq.
    set (q := dot a b / (norm a * norm b)) in *.
    assert (Hq2 : 0 <= 1 - q²) by (unfold Rsqr; nra).
    apply Rsqr_inj.
    + exact Hn.
    + apply Rmult_le_pos; [exact Hab | apply sqrt_pos].
    + unfold Rsqr at 1 2.
      replace (norm a * norm b * sqrt (1 - q²) * (norm a * norm b * sqrt (1 - q²)))
        with ((norm a * norm b) * (norm a * norm b) * (sqrt (1 - q²) * sqrt (1 - q²)))
        by ring.
      rewrite sqrt_sqrt by exact Hq2.
      rewrite Hsq. unfold Rsqr, q. field.
      split; intros E; apply Hnz; rewrite E; ring.
Qed.

End MetricExtras.

(** ** Moving the points: measurements do not depend on the position *)

Module TranslationExtras.
Import VectorForms Vector3DFacts AngleForms AngleFacts EdgeForms FaceForms.

Lemma of_points_translated (p q t : Point.t) :
  Vector3D.of_points (Point.add p t) (Point.add q t) = Vector3D.of_points p q.
Proof.
  unfold Vector3D.of_points, Point.add. cbn [Point.x Point.y Point.z].
  f_equal; ring.
Qed.

(** Moving both points of an edge by the same offset [t] (with
    [Point.__add__]) moves its centre by [t] and changes nothing else:
    length, azimuth, dip, edge azimuth, edge dip and the stored vector are
    those of the edge that was not moved. *)
Theorem edge_translation_invariant (p1 p2 t : Point.t) :
  exists e e' c,
    Edge.new p1 p2 tt = (Ok e, tt, []) /\
    Edge.new (Point.add p1 t) (Point.add p2 t) tt = (Ok e', tt, []) /\
    Edge.center e = Some c /\
    Edge.center e' = Some (Point.add c t) /\
    Edge.length e' = Edge.length e /\
    Edge.azimuth e' = Edge.azimuth e /\
    Edge.dip e' = Edge.dip e /\
    Edge.edge_azimuth e' = Edge.edge_azimuth e /\
    Edge.edge_dip e' = Edge.edge_dip e /\
    Edge.a e' = Edge.a e.
Proof.
  exists (EdgeForms.built p1 p2).
  exists (EdgeForms.built (Point.add p1 t) (Point.add p2 t)).
  exists (midpoint p1 p2).
  split; [apply EdgeFacts.edge_new_run |].
  split; [apply EdgeFacts.edge_new_run |].
  cbn [Edge.center Edge.length Edge.azimuth Edge.dip Edge.edge_azimuth
       Edge.edge_dip Edge.a EdgeForms.built].
  unfold normal_vector, edge_vector. rewrite !of_points_translated.
  split; [reflexivity |].
  split; [| repeat split].
  f_equal. unfold midpoint, Point.add. cbn [Point.x Point.y Point.z].
  f_equal; field.
Qed.

(** Moving the three points of a face by the same offset [t] moves its
    centre by [t] and changes nothing else: [ab], azimuth, dip, area,
    degree and the records logged are those of the face that was not
    moved. *)
Theorem face_translation_invariant (p1 p2 p3 t : Point.t) :
  exists f f' l c,
    Face.new p1 p2 p3 tt = (Ok f, tt, l) /\
    Face.new (Point.add p1 t) (Point.add p2 t) (Point.add p3 t) tt = (Ok f', tt, l) /\
    Face.center f = Some c /\
    Face.center f' = Some (Point.add c t) /\
    Face.ab f' = Face.ab f /\
    Face.azimuth f' = Face.azimuth f /\
    Face.dip f' = Face.dip f /\
    Face.area f' = Face.area f /\
    Face.degree f' = Face.degree f.
Proof.
  exists (FaceForms.built p1 p2 p3).
  exists (FaceForms.built (Point.add p1 t) (Point.add p2 t) (Point.add p3 t)).
  exists (angle_log (side_a p1 p2) (side_b p2 p3)).
  exists (centroid p1 p2 p3).
  split; [apply FaceFacts.face_new_run |].
  split.
  { rewrite FaceFacts.face_new_run. unfold side_a, side_b.
    rewrite !of_points_translated. reflexivity. }
  cbn [Face.center Face.ab Face.azimuth Face.dip Face.area Face.degree
       FaceForms.built].
  unfold ab_raw, side_a, side_b. rewrite !of_points_translated.
  split; [reflexivity |].
  split; [| repeat split].
  f_equal. unfold centroid, Point.add. cbn [Point.x Point.y Point.z].
  f_equal; field.
Qed.

(** [Point.__sub__] undoes [Point.__add__], and the vector from a point to
    that point moved by [d] has the coordinates of [d]. *)
Theorem point_add_sub_round_trip (p d : Point.t) :
  Point.sub (Point.add p d) d = p /\
  Point.add (Point.sub p d) d = p /\
  Vector3D.of_points p (Point.add p d)
  = Vector3D.mk (Point.x d) (Point.y d) (Point.z d).
Proof.
  unfold Point.sub, Point.add, Vector3D.of_points.
  cbn [Point.x Point.y Point.z].
  repeat split.
  - rewrite <- (FaceExtras.point_eta p) at 4. f_equal; ring.
  - rewrite <- (FaceExtras.point_eta p) at 4. f_equal; ring.
  - f_equal; ring.
Qed.

End TranslationExtras.

(** ** MeasurementsParser: from the strokes to the processed entities *)

Module BatchExtras.
Import VectorForms Vector3DFacts AngleForms AngleFacts MeasurementsParser.
Import BatchForms ParserFacts CorrectionFacts ExtraForms.

Lemma filter_length_split (strokes : list (list Point.t)) :
  (List.length (filter has_three strokes)
   + List.length (filter has_two strokes)
   + List.length (flat_map stroke_log strokes)
   = List.length strokes)%nat.
Proof.
  unfold stroke_log, has_three, has_two.
  induction strokes as [| ps strokes IH]; [reflexivity |].
  cbn [filter flat_map]. rewrite length_app.
  destruct (List.length ps =? 3)%nat eqn:E3;
    destruct (List.length ps =? 2)%nat eqn:E2;
    cbn [List.length]; try lia.
  apply Nat.eqb_eq in E3. apply Nat.eqb_eq in E2. lia.
Qed.

(** [parse_dimensions] never raises.  It throws away what the parser held
    and sorts the strokes by their number of points: those of three points
    become [faces], those of two points become [edges], both in the order
    of the strokes, and every other stroke is dropped with one WARNING
    record; no stroke is lost or counted twice. *)
Theorem parse_dimensions_sorts_strokes (strokes : list (list Point.t)) (self : t) :
  exists self' log,
    parse_dimensions (Some strokes) self = (Ok tt, self', log) /\
    faces self' = filter (fun ps => (List.length ps =? 3)%nat) strokes /\
    edges self' = filter (fun ps => (List.length ps =? 2)%nat) strokes /\
    Forall (fun ps => List.length ps = 3%nat) (faces self') /\
    Forall (fun ps => List.length ps = 2%nat) (edges self') /\
    (List.length (faces self') + List.length (edges self')
     + List.length (records_at WARNING log) = List.length strokes)%nat.
Proof.
  eexists. eexists. split; [apply parse_dimensions_run |].
  cbn [faces edges].
  split; [reflexivity |]. split; [reflexivity |].
  split.
  { apply Forall_forall. intros ps Hin. apply filter_In in Hin.
    destruct Hin as [_ H]. apply Nat.eqb_eq, H. }
  split.
  { apply Forall_forall. intros ps Hin. apply filter_In in Hin.
    destruct Hin as [_ H]. apply Nat.eqb_eq, H. }
  unfold records_at. cbn [filter lvl layer_found level_eqb].
  rewrite filter_app. cbn [filter lvl parsed_summary level_eqb].
  rewrite app_nil_r. fold (records_at WARNING (flat_map stroke_log strokes)).
  rewrite stroke_logs_are_warnings. apply filter_length_split.
Qed.

(** Without the annotation layer the parser is empty and says so: one
    WARNING record, no faces, no edges, and both batches then return the
    empty list. *)
Theorem missing_layer_gives_empty_batches (az_real az_model : R) :
  MeasurementsParser.new None tt = (Ok (mk [] []), tt, [layer_missing]) /\
  get_processed_edges az_real az_model (mk [] [])
  = (Ok [], mk [] [], [processed_summary 0 "edges"]) /\
  get_processed_faces az_real az_model (mk [] [])
  = (Ok [], mk [] [], [processed_summary 0 "faces"]).
Proof.
  split; [reflexivity |].
  split; [rewrite get_processed_edges_run | rewrite get_processed_faces_run];
    reflexivity.
Qed.

Lemma edge_logs_of_pairs (groups : list (list Point.t)) :
  Forall (fun ps => List.length ps = 2%nat) groups ->
  flat_map edge_logs groups = [].
Proof.
  induction 1 as [| ps groups Hps _ IH]; [reflexivity |].
  destruct ps as [| p0 [| p1 [| p2 rest]]]; try discriminate Hps.
  cbn [flat_map edge_logs app]. exact IH.
Qed.

Lemma edge_items_count (delta : R) (groups : list (list Point.t)) :
  Forall (fun ps => List.length ps = 2%nat) groups ->
  List.length (flat_map (edge_item delta) groups) = List.length groups.
Proof.
  induction 1 as [| ps groups Hps _ IH]; [reflexivity |].
  destruct ps as [| p0 [| p1 [| p2 rest]]]; try discriminate Hps.
  cbn [flat_map edge_item app List.length]. rewrite IH. reflexivity.
Qed.

Lemma face_items_count (delta : R) (groups : list (list Point.t)) :
  Forall (fun ps => List.length ps = 3%nat) groups ->
  List.length (flat_map (face_item delta) groups) = List.length groups /\
  records_at WARNING (flat_map face_logs groups) = [].
Proof.
  induction 1 as [| ps groups Hps _ IH]; [split; reflexivity |].
  destruct IH as [IH1 IH2].
  destruct ps as [| p0 [| p1 [| p2 [| p3 rest]]]]; try discriminate Hps.
  cbn [flat_map face_item face_logs app List.length]. rewrite IH1.
  split; [reflexivity |].
  unfold records_at in *. rewrite filter_app, IH2, app_nil_r.
  unfold angle_log.
  destruct (Req_dec_T _ 0); reflexivity.
Qed.

(** A parser made from the strokes hands the batches only groups of the
    right size: [get_processed_edges] returns one edge for every stroke of
    two points and logs nothing but its summary, and
    [get_processed_faces] returns one face for every stroke of three
    points and logs no warning. *)
Theorem parsed_strokes_are_all_processed
    (strokes : list (list Point.t)) (az_real az_model : R) :
  exists parser plog edges_out faces_out flog,
    MeasurementsParser.new (Some strokes) tt = (Ok parser, tt, plog) /\
    get_processed_edges az_real az_model parser
    = (Ok edges_out, parser,
       [processed_summary (List.length edges_out) "edges"]) /\
    List.length edges_out
    = List.length (filter (fun ps => (List.length ps =? 2)%nat) strokes) /\
    get_processed_faces az_real az_model parser
    = (Ok faces_out, parser, flog) /\
    List.length faces_out
    = List.length (filter (fun ps => (List.length ps =? 3)%nat) strokes) /\
    records_at WARNING flog = [].
Proof.
  assert (H2 : Forall (fun ps => List.length ps = 2%nat) (filter has_two strokes)).
  { apply Forall_forall. intros ps Hin. apply filter_In in Hin.
    destruct Hin as [_ H]. apply Nat.eqb_eq, H. }
  assert (H3 : Forall (fun ps => List.length ps = 3%nat) (filter has_three strokes)).
  { apply Forall_forall. intros ps Hin. apply filter_In in Hin.
    destruct Hin as [_ H]. apply Nat.eqb_eq, H. }
  eexists. eexists. eexists. eexists. eexists.
  split; [apply new_run |].
  split.
  { rewrite get_processed_edges_run. cbv zeta. cbn [edges].
    rewrite (edge_logs_of_pairs _ H2). reflexivity. }
  split; [cbn [edges]; apply edge_items_count, H2 |].
  split; [apply get_processed_faces_run |].
  cbn [faces].
  split; [apply (face_items_count (calibration_delta az_real az_model) _ H3) |].
  unfold records_at. rewrite filter_app. cbn [filter lvl level_eqb].
  rewrite app_nil_r. apply (face_items_count 0 _ H3).
Qed.

End BatchExtras.

(** ** The azimuth correction within the configured range *)

Module CorrectionExtras.
Import VectorForms Vector3DFacts MeasurementsParser.
Import BatchForms ParserFacts CorrectionFacts Wording.

Lemma calibration_delta_is_remainder (az_real az_model : R) :
  -360 <= az_real - az_model ->
  calibration_delta az_real az_model = py_mod (az_real - az_model) 360.
Proof.
  intros H. unfold calibration_delta.
  destruct (Rlt_dec (az_real - az_model) 0); [| reflexivity].
  symmetry. apply py_mod_neg. lra.
Qed.

Lemma wrap_rotated_is_remainder (r : R) :
  0 <= r < 720 -> wrap_rotated r = py_mod r 360.
Proof.
  intros H. unfold wrap_rotated.
  destruct (Rge_dec r 360).
  - replace r with (r - 360 + 360 * IZR 1) at 2 by (simpl; ring).
    rewrite py_mod_shift by lra. symmetry. apply py_mod_small. lra.
  - destruct (Rlt_dec r 0); [lra |]. symmetry. apply py_mod_small. lra.
Qed.

Lemma correction_is_remainder (az az_real az_model : R) :
  0 <= az < 360 ->
  -360 <= az_real - az_model ->
  wrap_rotated (az + calibration_delta az_real az_model)
  = py_mod (az + az_real - az_model) 360.
Proof.
  intros Haz Hdiff.
  pose proof (calibration_delta_range az_real az_model Hdiff) as Hd.
  rewrite wrap_rotated_is_remainder by lra.
  rewrite calibration_delta_is_remainder by exact Hdiff.
  rewrite Rplus_comm, py_mod_inner by lra.
  f_equal. ring.
Qed.

(** In exact arithmetic, for calibration inputs in the configured range
    [[0, 360]] (both ends included), the correction of an azimuth of
    [[0, 360)] is the remainder modulo 360 of
    [azimuth + az_real - az_model]; the batch makes one edge of every
    group of at least two points and one face of every group of at least
    three, in the order of the groups, and the rotated azimuth of each is
    this remainder for its own azimuth. *)
Theorem rotated_azimuth_is_sum_modulo_360 (az_real az_model : R) :
  0 <= az_real <= 360 ->
  0 <= az_model <= 360 ->
  let rot := fun az => py_mod (az + az_real - az_model) 360 in
  (forall az, 0 <= az < 360 ->
     wrap_rotated (az + calibration_delta az_real az_model) = rot az) /\
  (forall self, exists out log,
      get_processed_edges az_real az_model self = (Ok out, self, log) /\
      Forall2 (edge_of_group rot)
        (filter (fun ps => (2 <=? List.length ps)%nat) (edges self)) out) /\
  (forall self, exists out log,
      get_processed_faces az_real az_model self = (Ok out, self, log) /\
      Forall2 (face_of_group rot)
        (filter (fun ps => (3 <=? List.length ps)%nat) (faces self)) out).
Proof.
  intros Hr Hm rot.
  assert (Hdiff : -360 <= az_real - az_model) by lra.
  assert (Hrot : forall az, 0 <= az < 360 ->
                   wrap_rotated (az + calibration_delta az_real az_model) = rot az).
  { intros az Haz. apply correction_is_remainder; assumption. }
  split; [exact Hrot | split].
  - intros self. eexists. eexists. split; [apply get_processed_edges_run |].
    apply edges_of_groups, Hrot.
  - intros self. eexists. eexists. split; [apply get_processed_faces_run |].
    apply faces_of_groups, Hrot.
Qed.

(** The edge from (0,0,0) to (0,1,0) with [az_real = 360] and
    [az_model = 0]: the batch returns one edge. *)
Lemma rotated_azimuth_is_sum_modulo_360_witness :
  exists out log,
    get_processed_edges 360 0 (mk [] [[Point.mk 0 0 0; Point.mk 0 1 0]])
    = (Ok out, mk [] [[Point.mk 0 0 0; Point.mk 0 1 0]], log) /\
    Forall2 (edge_of_group (fun az => py_mod (az + 360 - 0) 360))
      [[Point.mk 0 0 0; Point.mk 0 1 0]] out.
Proof.
  assert (Hr : 0 <= 360 <= 360) by lra.
  assert (Hm : 0 <= 0 <= 360) by lra.
  exact (proj1 (proj2 (rotated_azimuth_is_sum_modulo_360 360 0 Hr Hm))
               (mk [] [[Point.mk 0 0 0; Point.mk 0 1 0]])).
Defined.

(** Correcting with the two calibration inputs exchanged undoes the
    correction: an azimuth rotated for [(az_real, az_model)] and then for
    [(az_model, az_real)] is the azimuth one started from. *)
Theorem exchanged_calibration_undoes (az az_real az_model : R) :
  0 <= az < 360 ->
  0 <= az_real <= 360 ->
  0 <= az_model <= 360 ->
  wrap_rotated
    (wrap_rotated (az + calibration_delta az_real az_model)
     + calibration_delta az_model az_real)
  = az.
Proof.
  intros Haz Hr Hm.
  rewrite (correction_is_remainder az az_real az_model) by lra.
  pose proof (py_mod_range (az + az_real - az_model) 360) as Hrange.
  rewrite correction_is_remainder by lra.
  replace (py_mod (az + az_real - az_model) 360 + az_model - az_real)
    with (py_mod (az + az_real - az_model) 360 + (az_model - az_real)) by ring.
  rewrite py_mod_inner by lra.
  replace (az + az_real - az_model + (az_model - az_real)) with az by ring.
  apply py_mod_small, Haz.
Qed.

Lemma exchanged_calibration_undoes_witness :
  wrap_rotated (wrap_rotated (350 + calibration_delta 30 350)
                + calibration_delta 350 30) = 350.
Proof.
  apply (exchanged_calibration_undoes 350 30 350); lra.
Defined.

(** The two ends of the configured range mean the same rotation: with
    [az_real = 360] and [az_model = 0], or the other way round, every
    edge and every face keeps its azimuth, as with equal inputs. *)
Theorem full_turn_calibration_is_identity :
  calibration_delta 360 0 = 0 /\
  calibration_delta 0 360 = 0 /\
  (forall self, exists out log,
      get_processed_edges 360 0 self = (Ok out, self, log) /\
      Forall (fun e => Edge.rotated_azimuth e = Edge.azimuth e) out) /\
  (forall self, exists out log,
      get_processed_faces 0 360 self = (Ok out, self, log) /\
      Forall (fun f => Face.rotated_azimuth f = Face.azimuth f) out).
Proof.
  assert (H1 : calibration_delta 360 0 = 0).
  { rewrite calibration_delta_is_remainder by lra.
    replace (360 - 0) with (0 + 360 * IZR 1) by (simpl; ring).
    rewrite py_mod_shift by lra. apply py_mod_small. lra. }
  assert (H2 : calibration_delta 0 360 = 0)
    by (rewrite calibration_delta_neg; lra).
  assert (Hid : forall az, 0 <= az < 360 -> wrap_rotated (az + 0) = az).
  { intros az Haz. rewrite wrap_rotated_nonneg by lra.
    destruct (Rge_dec (az + 0) 360); lra. }
  split; [exact H1 | split; [exact H2 | split]].
  - intros self. eexists. eexists. split; [apply get_processed_edges_run |].
    apply Forall_edge_items. intros p0 p1.
    destruct (processed_edge_azimuths (calibration_delta 360 0) p0 p1)
      as (Haz & Hra & Hrange).
    rewrite Haz, Hra, H1. f_equal. apply Hid, Hrange.
  - intros self. eexists. eexists. split; [apply get_processed_faces_run |].
    apply Forall_face_items. intros p0 p1 p2.
    destruct (processed_face_azimuths (calibration_delta 0 360) p0 p1 p2)
      as (Haz & Hra & Hrange).
    rewrite Haz, Hra, H2. f_equal. apply Hid, Hrange.
Qed.

End CorrectionExtras.

(** ** The batch of faces *)

Module FaceBatchExtras.
Import VectorForms Vector3DFacts AngleForms AngleFacts MeasurementsParser.
Import BatchForms ParserFacts CorrectionFacts ExtraForms Wording.

Lemma face_items_filter (delta : R) (groups : list (list Point.t)) :
  flat_map (face_item delta) groups
  = map (fun ps => processed_face delta (nth 0 ps origin) (nth 1 ps origin)
                                  (nth 2 ps origin))
        (filter (fun ps => (3 <=? List.length ps)%nat) groups).
Proof.
  induction groups as [| ps groups IH]; [reflexivity |].
  cbn [flat_map filter]. rewrite IH.
  destruct ps as [| p0 [| p1 [| p2 rest]]]; reflexivity.
Qed.

Lemma face_logs_warnings (groups : list (list Point.t)) :
  records_at WARNING (flat_map face_logs groups)
  = map (fun _ => face_warning)
        (filter (fun ps => (List.length ps <? 3)%nat) groups).
Proof.
  induction groups as [| ps groups IH]; [reflexivity |].
  cbn [flat_map filter]. unfold records_at in *. rewrite filter_app, IH.
  destruct ps as [| p0 [| p1 [| p2 rest]]]; try reflexivity.
  cbn [face_logs List.length Nat.ltb Nat.leb]. unfold angle_log.
  destruct (Req_dec_T _ 0); reflexivity.
Qed.

Lemma face_logs_infos (groups : list (list Point.t)) :
  records_at INFO (flat_map face_logs groups) = [].
Proof.
  induction groups as [| ps groups IH]; [reflexivity |].
  cbn [flat_map]. unfold records_at in *. rewrite filter_app, IH, app_nil_r.
  destruct ps as [| p0 [| p1 [| p2 rest]]]; try reflexivity.
  cbn [face_logs]. unfold angle_log.
  destruct (Req_dec_T _ 0); reflexivity.
Qed.

(** [get_processed_faces] never raises and never aborts.  Every group of
    at least three points yields one face, built from its first three
    points; every group of fewer than three points is skipped with one
    WARNING record; the faces come in the order of their groups, and the
    only INFO record is the final count of the faces returned. *)
Theorem face_batch_skips_short_groups (az_real az_model : R) (self : t) :
  let delta := calibration_delta az_real az_model in
  let kept := filter (fun ps => (3 <=? List.length ps)%nat) (faces self) in
  let skipped := filter (fun ps => (List.length ps <? 3)%nat) (faces self) in
  let out := map (fun ps => processed_face delta (nth 0 ps origin)
                              (nth 1 ps origin) (nth 2 ps origin)) kept in
  exists log,
    get_processed_faces az_real az_model self = (Ok out, self, log) /\
    records_at WARNING log = map (fun _ => face_warning) skipped /\
    records_at INFO log = [processed_summary (List.length out) "faces"].
Proof.
  cbv zeta. eexists. split.
  - rewrite get_processed_faces_run. cbv zeta.
    rewrite face_items_filter. reflexivity.
  - unfold records_at. rewrite !filter_app. cbn [filter lvl level_eqb].
    fold (records_at WARNING (flat_map face_logs (faces self))).
    fold (records_at INFO (flat_map face_logs (faces self))).
    rewrite face_logs_warnings, face_logs_infos, app_nil_r.
    split; reflexivity.
Qed.

(** A group whose first two points coincide still yields a face: the
    angle at the second point cannot be computed, so one ERROR record is
    logged, and the face comes out with degree 0 and area 0. *)
Theorem degenerate_face_is_still_emitted
    (az_real az_model : R) (p q : Point.t) (es : list (list Point.t)) :
  exists f,
    get_processed_faces az_real az_model (mk [[p; p; q]] es)
    = (Ok [f], mk [[p; p; q]] es,
       [degrees_error; processed_summary 1 "faces"]) /\
    Face.degree f = Some 0 /\
    Face.area f = Some 0.
Proof.
  assert (Hz : norm (FaceForms.side_a p p) * norm (FaceForms.side_b p q) = 0).
  { replace (FaceForms.side_a p p) with zero_vector.
    - rewrite (proj2 (VectorExtras.norm_zero_iff zero_vector) eq_refl). ring.
    - unfold FaceForms.side_a, Vector3D.of_points, zero_vector. f_equal; ring. }
  eexists. split; [| split].
  - rewrite get_processed_faces_run. cbv zeta.
    cbn [faces flat_map face_item face_logs app List.length].
    unfold angle_log.
    destruct (Req_dec_T (norm (FaceForms.side_a p p) * norm (FaceForms.side_b p q)) 0)
      as [_ | Hn]; [reflexivity | contradiction].
  - cbn [Face.degree processed_face Face.set_rotated_azimuth FaceForms.built].
    f_equal. unfold angle.
    destruct (Req_dec_T (norm (FaceForms.side_a p p) * norm (FaceForms.side_b p q)) 0)
      as [_ | Hn]; [reflexivity | contradiction].
  - cbn [Face.area processed_face Face.set_rotated_azimuth FaceForms.built].
    f_equal. rewrite FaceExtras.norm_of_canonical.
    unfold norm, FaceForms.ab_raw, Vector3D.mul, Vector3D.of_points.
    cbn [Vector3D.x Vector3D.y Vector3D.z].
    match goal with |- sqrt ?a / 2 = _ => replace a with 0 by ring end.
    rewrite sqrt_0. unfold Rdiv. ring.
Qed.

End FaceBatchExtras.

(** ** numpy: where the statistics lie *)

Module NumpyFacts.
Import Numpy.

Lemma min_le_head (x : R) (xs : list R) : min x xs <= x.
Proof.
  induction xs as [| a xs IH]; cbn [min fold_right]; [lra |].
  fold (min x xs). pose proof (Rmin_r a (min x xs)). lra.
Qed.

Lemma min_le_all (x : R) (xs : list R) : Forall (fun v => min x xs <= v) (x :: xs).
Proof.
  constructor; [apply min_le_head |].
  induction xs as [| a xs IH]; [constructor |].
  cbn [min fold_right]. fold (min x xs). constructor.
  - apply Rmin_l.
  - eapply Forall_impl; [| exact IH]. cbv beta. intros v Hv.
    pose proof (Rmin_r a (min x xs)). lra.
Qed.

Lemma head_le_max (x : R) (xs : list R) : x <= max x xs.
Proof.
  induction xs as [| a xs IH]; cbn [max fold_right]; [lra |].
  fold (max x xs). pose proof (Rmax_r a (max x xs)). lra.
Qed.

Lemma all_le_max (x : R) (xs : list R) : Forall (fun v => v <= max x xs) (x :: xs).
Proof.
  constructor; [apply head_le_max |].
  induction xs as [| a xs IH]; [constructor |].
  cbn [max fold_right]. fold (max x xs). constructor.
  - apply Rmax_l.
  - eapply Forall_impl; [| exact IH]. cbv beta. intros v Hv.
    pose proof (Rmax_r a (max x xs)). lra.
Qed.

(** The least item is an item of the list. *)
Lemma min_in (x : R) (xs : list R) : In (min x xs) (x :: xs).
Proof.
  induction xs as [| a xs IH]; [left; reflexivity |].
  cbn [min fold_right]. fold (min x xs). unfold Rmin.
  destruct (Rle_dec a (min x xs)).
  - right. left. reflexivity.
  - destruct IH as [E | Hin]; [left; exact E | right; right; exact Hin].
Qed.

Lemma sum_between (lo hi : R) (l : list R) :
  Forall (fun v => lo <= v <= hi) l ->
  INR (List.length l) * lo <= sum l <= INR (List.length l) * hi.
Proof.
  induction 1 as [| v l Hv _ IH].
  - cbn [sum fold_right List.length INR]. lra.
  - change (sum (v :: l)) with (v + sum l).
    change (List.length (v :: l)) with (S (List.length l)).
    rewrite S_INR. lra.
Qed.

Lemma mean_between (lo hi x : R) (xs : list R) :
  Forall (fun v => lo <= v <= hi) (x :: xs) ->
  lo <= mean x xs <= hi.
Proof.
  intros H. pose proof (sum_between lo hi _ H) as [Hlo Hhi].
  unfold mean.
  assert (Hn : 0 < INR (List.length (x :: xs))).
  { change (List.length (x :: xs)) with (S (List.length xs)).
    rewrite S_INR. pose proof (pos_INR (List.length xs)). lra. }
  split.
  - apply (Rmult_le_reg_r (INR (List.length (x :: xs)))); [exact Hn |].
    unfold Rdiv. rewrite Rmult_assoc, Rinv_l by lra. lra.
  - apply (Rmult_le_reg_r (INR (List.length (x :: xs)))); [exact Hn |].
    unfold Rdiv. rewrite Rmult_assoc, Rinv_l by lra. lra.
Qed.

Lemma insert_in (a b : R) (l : list R) : In b (insert a l) <-> b = a \/ In b l.
Proof.
  induction l as [| c l IH]; cbn [insert].
  - cbn [In]. intuition.
  - destruct (Rle_dec a c); cbn [In]; [intuition |].
    rewrite IH. intuition.
Qed.

Lemma insert_length (a : R) (l : list R) :
  List.length (insert a l) = S (List.length l).
Proof.
  induction l as [| c l IH]; cbn [insert]; [reflexivity |].
  destruct (Rle_dec a c); cbn [List.length]; [reflexivity |].
  rewrite IH. reflexivity.
Qed.

Lemma sort_in (b : R) (l : list R) : In b (sort l) <-> In b l.
Proof.
  induction l as [| a l IH]; [reflexivity |].
  cbn [sort fold_right]. fold (sort l). rewrite insert_in, IH.
  cbn [In]. intuition.
Qed.

Lemma sort_length (l : list R) : List.length (sort l) = List.length l.
Proof.
  induction l as [| a l IH]; [reflexivity |].
  cbn [sort fold_right]. fold (sort l). rewrite insert_length, IH. reflexivity.
Qed.

Lemma median_between (lo hi x : R) (xs : list R) :
  Forall (fun v => lo <= v <= hi) (x :: xs) ->
  lo <= median x xs <= hi.
Proof.
  intros H. unfold median. cbv zeta.
  set (s := sort (x :: xs)).
  assert (Hlen : List.length s = S (List.length xs))
    by (unfold s; rewrite sort_length; reflexivity).
  assert (Hnth : forall i, (i < List.length s)%nat -> lo <= nth i s 0 <= hi).
  { intros i Hi. pose proof (nth_In s 0 Hi) as Hin.
    unfold s in Hin. apply (proj1 (sort_in _ _)) in Hin.
    rewrite Forall_forall in H. apply H, Hin. }
  assert (Hmid : (List.length s / 2 < List.length s)%nat)
    by (apply Nat.div_lt; lia).
  assert (Hmid' : (List.length s / 2 - 1 < List.length s)%nat) by lia.
  destruct (Nat.even (List.length s)).
  - pose proof (Hnth _ Hmid). pose proof (Hnth _ Hmid'). lra.
  - apply Hnth, Hmid.
Qed.

Lemma std_nonneg (x : R) (xs : list R) : 0 <= std x xs.
Proof. unfold std. cbv zeta. cbn [map]. apply sqrt_pos. Qed.

End NumpyFacts.

(** ** Visualizer: statistics of the edges *)

Module StatisticsExtras.
Import VectorForms Vector3DFacts AngleForms AngleFacts MeasurementsParser.
Import BatchForms ParserFacts ExtraForms Visualizer NumpyFacts.

Lemma edge_lengths_loop (es : list Edge.t) :
  forall (ls acc : list R) (v : Visualizer.t),
    map Edge.length es = map Some ls ->
    for_each es
      (fun edge lengths =>
         len <- on_object edge (getattr Edge.length) ;;
         ret (lengths ++ [len]))
      acc v
    = (Ok (acc ++ ls), v, []).
Proof.
  induction es as [| e es IH]; intros ls acc v Hmap.
  - destruct ls; [| discriminate Hmap].
    cbn [for_each]. unfold ret. rewrite app_nil_r. reflexivity.
  - destruct ls as [| l ls]; [discriminate Hmap |].
    cbn [map] in Hmap. injection Hmap as He Hrest.
    cbn [for_each]. unfold bind at 1.
    unfold bind at 1, on_object at 1, getattr at 1. rewrite He.
    cbv beta iota. unfold ret at 1. cbn [app].
    rewrite (IH ls (acc ++ [l]) v Hrest), <- app_assoc. reflexivity.
Qed.

Lemma edge_lengths_missing (es : list Edge.t) :
  (exists e, In e es /\ Edge.length e = None) ->
  forall (acc : list R) (v : Visualizer.t),
    for_each es
      (fun edge lengths =>
         len <- on_object edge (getattr Edge.length) ;;
         ret (lengths ++ [len]))
      acc v
    = (Raise AttributeError, v, []).
Proof.
  induction es as [| e es IH]; intros (e0 & Hin & Hnone) acc v.
  - destruct Hin.
  - cbn [for_each]. unfold bind at 1.
    unfold bind at 1, on_object at 1, getattr at 1.
    destruct (Edge.length e) as [l |] eqn:He.
    + cbv beta iota. unfold ret at 1. cbn [app].
      destruct Hin as [-> | Hin]; [congruence |].
      rewrite IH; [reflexivity |]. exists e0. split; assumption.
    + reflexivity.
Qed.

Lemma lengths_or_missing (es : list Edge.t) :
  (exists ls, map Edge.length es = map Some ls) \/
  (exists e, In e es /\ Edge.length e = None).
Proof.
  induction es as [| e es [(ls & IH) | (e0 & Hin & Hnone)]].
  - left. exists []. reflexivity.
  - destruct (Edge.length e) as [l |] eqn:He.
    + left. exists (l :: ls). cbn [map]. rewrite He, IH. reflexivity.
    + right. exists e. split; [left; reflexivity | exact He].
  - right. exists e0. split; [right; exact Hin | exact Hnone].
Qed.

Lemma statistics_run (v : Visualizer.t) (ls : list R) :
  map Edge.length (edges_data v) = map Some ls ->
  get_edges_statistics (Ok tt) v = (Ok (stats_of ls), v, []).
Proof.
  intros Hmap. unfold get_edges_statistics.
  unfold bind at 1, lift at 1. cbv beta iota.
  unfold try_except.
  unfold bind at 1, get at 1. cbv beta iota.
  unfold bind at 1, edge_lengths.
  rewrite (edge_lengths_loop _ ls [] v Hmap). cbn [app].
  destruct ls; reflexivity.
Qed.

Lemma statistics_missing (v : Visualizer.t) :
  (exists e, In e (edges_data v) /\ Edge.length e = None) ->
  get_edges_statistics (Ok tt) v = (Ok [], v, [statistics_error]).
Proof.
  intros Hmiss. unfold get_edges_statistics.
  unfold bind at 1, lift at 1. cbv beta iota.
  unfold try_except.
  unfold bind at 1, get at 1. cbv beta iota.
  unfold bind at 1, edge_lengths.
  rewrite (edge_lengths_missing _ Hmiss). reflexivity.
Qed.

Lemma statistics_without_numpy (e : exn) (v : Visualizer.t) :
  get_edges_statistics (Raise e) v = (Raise e, v, []).
Proof. reflexivity. Qed.

(** [get_edges_statistics] raises only when its [import numpy] fails: the
    import stands before the [try] block, so the exception reaches the
    caller, and nothing is logged.  With numpy imported it never raises.
    Without edges it returns the empty dict and logs nothing; when an edge
    has no [length] attribute the [AttributeError] is caught, one ERROR
    record is logged and the empty dict is returned; otherwise the dict
    has the keys Mean, Median, Std Dev, Min and Max, in this order, and
    nothing is logged. *)
Theorem statistics_raise_only_without_numpy (v : Visualizer.t) :
  (forall e, get_edges_statistics (Raise e) v = (Raise e, v, [])) /\
  exists d l,
    get_edges_statistics (Ok tt) v = (Ok d, v, l) /\
    (edges_data v = [] -> d = [] /\ l = []) /\
    ((exists e, In e (edges_data v) /\ Edge.length e = None) ->
     d = [] /\ l = [statistics_error]) /\
    (edges_data v <> [] ->
     (forall e, In e (edges_data v) -> Edge.length e <> None) ->
     map fst d = ["Mean"; "Median"; "Std Dev"; "Min"; "Max"]%string /\ l = []).
Proof.
  split; [intros e; apply statistics_without_numpy |].
  destruct (lengths_or_missing (edges_data v)) as [(ls & Hls) | Hmiss].
  - exists (stats_of ls), []. split; [apply statistics_run, Hls |].
    split; [| split].
    + intros E. rewrite E in Hls. destruct ls; [| discriminate Hls].
      split; reflexivity.
    + intros (e & Hin & Hnone). exfalso.
      assert (Hsome : In (Edge.length e) (map Some ls))
        by (rewrite <- Hls; apply in_map, Hin).
      rewrite Hnone in Hsome. apply in_map_iff in Hsome.
      destruct Hsome as (x & Hx & _). discriminate Hx.
    + intros Hne _. destruct ls as [| x xs].
      * destruct (edges_data v); [contradiction | discriminate Hls].
      * split; reflexivity.
  - exists [], [statistics_error]. split; [apply statistics_missing, Hmiss |].
    split; [| split].
    + intros E. destruct Hmiss as (e & Hin & _). rewrite E in Hin. destruct Hin.
    + intros _. split; reflexivity.
    + intros _ Hall. destruct Hmiss as (e & Hin & Hnone).
      exfalso. apply (Hall e Hin), Hnone.
Qed.

(** Where the statistics lie, in exact arithmetic and with numpy
    imported: the Min is the least of the lengths and one of them, the Max
    is above them all, the Mean and the Median lie between the Min and
    the Max, the standard deviation is not negative, and the five keys
    can be looked up. *)
Theorem statistics_are_ordered (v : Visualizer.t) (x : R) (xs : list R) :
  map Edge.length (edges_data v) = map Some (x :: xs) ->
  exists d mean median std_dev min_val max_val,
    get_edges_statistics (Ok tt) v = (Ok d, v, []) /\
    dict_get d "Mean" = Some mean /\
    dict_get d "Median" = Some median /\
    dict_get d "Std Dev" = Some std_dev /\
    dict_get d "Min" = Some min_val /\
    dict_get d "Max" = Some max_val /\
    In min_val (x :: xs) /\
    Forall (fun len => min_val <= len <= max_val) (x :: xs) /\
    min_val <= mean <= max_val /\
    min_val <= median <= max_val /\
    0 <= std_dev.
Proof.
  intros Hmap.
  exists (stats_of (x :: xs)).
  exists (Numpy.mean x xs), (Numpy.median x xs), (Numpy.std x xs).
  exists (Numpy.min x xs), (Numpy.max x xs).
  split; [apply statistics_run, Hmap |].
  repeat (split; [reflexivity |]).
  assert (Hall : Forall (fun len => Numpy.min x xs <= len <= Numpy.max x xs) (x :: xs)).
  { pose proof (min_le_all x xs) as Hmin. pose proof (all_le_max x xs) as Hmax.
    rewrite Forall_forall in *. intros len Hin.
    split; [apply Hmin | apply Hmax]; exact Hin. }
  split; [apply min_in |].
  split; [exact Hall |].
  split; [apply mean_between, Hall |].
  split; [apply median_between, Hall | apply std_nonneg].
Qed.

(** The edge from (0,0,0) to (1,0,0) and the edge from (0,0,0) to (0,0,2):
    the Min is 1, the length of the first, and lies below the Max. *)
Lemma statistics_are_ordered_witness :
  exists d mean median std_dev min_val max_val,
    get_edges_statistics (Ok tt)
      (Visualizer.mk [EdgeForms.built (Point.mk 0 0 0) (Point.mk 1 0 0);
                      EdgeForms.built (Point.mk 0 0 0) (Point.mk 0 0 2)] [] 6 6 2 1)
    = (Ok d,
       Visualizer.mk [EdgeForms.built (Point.mk 0 0 0) (Point.mk 1 0 0);
                      EdgeForms.built (Point.mk 0 0 0) (Point.mk 0 0 2)] [] 6 6 2 1,
       []) /\
    dict_get d "Mean" = Some mean /\
    dict_get d "Median" = Some median /\
    dict_get d "Std Dev" = Some std_dev /\
    dict_get d "Min" = Some min_val /\
    dict_get d "Max" = Some max_val /\
    min_val = 1 /\
    min_val < max_val /\
    min_val <= mean <= max_val /\
    min_val <= median <= max_val /\
    0 <= std_dev.
Proof.
  assert (H1 : norm (Vector3D.of_points (Point.mk 0 0 0) (Point.mk 1 0 0)) = 1).
  { unfold norm, Vector3D.of_points.
    cbn [Point.x Point.y Point.z Vector3D.x Vector3D.y Vector3D.z].
    replace ((1 - 0) ^ 2 + (0 - 0) ^ 2 + (0 - 0) ^ 2) with 1 by ring.
    apply sqrt_1. }
  assert (H2 : norm (Vector3D.of_points (Point.mk 0 0 0) (Point.mk 0 0 2)) = 2).
  { unfold norm, Vector3D.of_points.
    cbn [Point.x Point.y Point.z Vector3D.x Vector3D.y Vector3D.z].
    replace ((0 - 0) ^ 2 + (0 - 0) ^ 2 + (2 - 0) ^ 2) with (2 * 2) by ring.
    apply sqrt_square. lra. }
  destruct (statistics_are_ordered
              (Visualizer.mk [EdgeForms.built (Point.mk 0 0 0) (Point.mk 1 0 0);
                              EdgeForms.built (Point.mk 0 0 0) (Point.mk 0 0 2)]
                             [] 6 6 2 1)
              (norm (Vector3D.of_points (Point.mk 0 0 0) (Point.mk 1 0 0)))
              [norm (Vector3D.of_points (Point.mk 0 0 0) (Point.mk 0 0 2))]
              eq_refl)
    as (d & mean & median & std_dev & min_val & max_val
        & Hrun & Hmean & Hmedian & Hstd & Hmin & Hmax & Hin & Hall & Hm & Hmd & Hs).
  rewrite H1, H2 in Hin, Hall.
  inversion Hall as [| ? ? Ha Hall']; subst.
  inversion Hall' as [| ? ? Hb _]; subst.
  exists d, mean, median, std_dev, min_val, max_val.
  split; [exact Hrun |].
  split; [exact Hmean |]. split; [exact Hmedian |]. split; [exact Hstd |].
  split; [exact Hmin |]. split; [exact Hmax |].
  split.
  { destruct Hin as [E | [E | []]]; lra. }
  split; [lra |].
  split; [exact Hm |]. split; [exact Hmd | exact Hs].
Defined.

Lemma batch_lengths (delta : R) (groups : list (list Point.t)) :
  exists ls,
    map Edge.length (flat_map (edge_item delta) groups) = map Some ls /\
    Forall (fun len => 0 <= len) ls.
Proof.
  induction groups as [| ps groups (ls & IH1 & IH2)].
  - exists []. split; [reflexivity | constructor].
  - destruct ps as [| p0 [| p1 rest]].
    + exists ls. split; assumption.
    + exists ls. split; assumption.
    + exists (norm (Vector3D.of_points p0 p1) :: ls).
      cbn [flat_map edge_item app map]. rewrite IH1.
      split; [reflexivity |].
      constructor; [apply norm_nonneg | exact IH2].
Qed.

(** The statistics of a batch, as the panel and the histogram take them,
    numpy being imported: whatever the parser holds, the edges of
    [get_processed_edges] all have a length, so the statistics log
    nothing; they are the empty dict when the batch is empty, and
    otherwise all five keys are there, with [0 <= Min <= Median <= Max]
    and a standard deviation that is not negative.  In exact arithmetic
    the Mean lies between the Min and the Max as well. *)
Theorem statistics_of_a_batch
    (az_real az_model : R) (self : MeasurementsParser.t) (w h ms ew : R) :
  exists out log d,
    get_processed_edges az_real az_model self = (Ok out, self, log) /\
    get_edges_statistics (Ok tt) (Visualizer.mk out [] w h ms ew)
    = (Ok d, Visualizer.mk out [] w h ms ew, []) /\
    (out = [] -> d = []) /\
    (out <> [] ->
     exists mean median std_dev min_val max_val,
       dict_get d "Mean" = Some mean /\
       dict_get d "Median" = Some median /\
       dict_get d "Std Dev" = Some std_dev /\
       dict_get d "Min" = Some min_val /\
       dict_get d "Max" = Some max_val /\
       0 <= min_val /\
       min_val <= median <= max_val /\
       0 <= std_dev /\
       min_val <= mean <= max_val).
Proof.
  destruct (batch_lengths (calibration_delta az_real az_model) (edges self))
    as (ls & Hls & Hpos).
  eexists. eexists. exists (stats_of ls).
  split; [apply get_processed_edges_run |].
  split; [apply statistics_run; exact Hls |].
  split.
  - intros E. rewrite E in Hls. destruct ls; [reflexivity | discriminate Hls].
  - intros Hne. destruct ls as [| x xs].
    + destruct (flat_map _ _); [contradiction | discriminate Hls].
    + exists (Numpy.mean x xs), (Numpy.median x xs), (Numpy.std x xs).
      exists (Numpy.min x xs), (Numpy.max x xs).
      repeat (split; [reflexivity |]).
      assert (Hall : Forall (fun len => Numpy.min x xs <= len <= Numpy.max x xs) (x :: xs)).
      { pose proof (min_le_all x xs) as Hmin. pose proof (all_le_max x xs) as Hmax.
        rewrite Forall_forall in *. intros len Hin.
        split; [apply Hmin | apply Hmax]; exact Hin. }
      split.
      { rewrite Forall_forall in Hpos. apply Hpos, min_in. }
      split; [apply median_between, Hall |].
      split; [apply std_nonneg | apply mean_between, Hall].
Qed.

End StatisticsExtras.

(** ** Visualizer: what is handed to the plots *)

Module PlotExtras.
Import VectorForms Vector3DFacts AngleForms AngleFacts MeasurementsParser.
Import BatchForms ParserFacts ExtraForms Visualizer StatisticsExtras.

Lemma stereonet_loop_pure (fs : list Face.t) :
  forall (acc : list R * list R) (v : Visualizer.t),
  exists r,
    for_each fs
      (fun face (sd : list R * list R) =>
         rot <- on_object face (getattr Face.rotated_azimuth) ;;
         dip <- on_object face (getattr Face.dip) ;;
         ret (fst sd ++ [py_mod (rot + 90) 360], snd sd ++ [dip]))
      acc v
    = (r, v, []).
Proof.
  induction fs as [| f fs IH]; intros acc v.
  - eexists. reflexivity.
  - cbn [for_each]. unfold bind at 1.
    unfold bind at 1, on_object at 1, getattr at 1.
    destruct (Face.rotated_azimuth f) as [rot |]; [| eexists; reflexivity].
    cbv beta iota.
    unfold bind at 1, on_object at 1, getattr at 1.
    destruct (Face.dip f) as [d |]; [| eexists; reflexivity].
    cbv beta iota. unfold ret at 1. cbn [app].
    destruct (IH (fst acc ++ [py_mod (rot + 90) 360], snd acc ++ [d]) v) as (r & Hr).
    rewrite Hr. eexists. reflexivity.
Qed.

Lemma stereonet_loop (fs : list Face.t) :
  forall (rots dips : list R) (acc : list R * list R) (v : Visualizer.t),
    map Face.rotated_azimuth fs = map Some rots ->
    map Face.dip fs = map Some dips ->
    for_each fs
      (fun face (sd : list R * list R) =>
         rot <- on_object face (getattr Face.rotated_azimuth) ;;
         dip <- on_object face (getattr Face.dip) ;;
         ret (fst sd ++ [py_mod (rot + 90) 360], snd sd ++ [dip]))
      acc v
    = (Ok (fst acc ++ map strike_of rots, snd acc ++ dips), v, []).
Proof.
  induction fs as [| f fs IH]; intros rots dips acc v Hr Hd.
  - destruct rots; [| discriminate Hr]. destruct dips; [| discriminate Hd].
    cbn [for_each map]. unfold ret. rewrite !app_nil_r.
    destruct acc. reflexivity.
  - destruct rots as [| rot rots]; [discriminate Hr |].
    destruct dips as [| d dips]; [discriminate Hd |].
    cbn [map] in Hr, Hd. injection Hr as Hr0 Hr. injection Hd as Hd0 Hd.
    cbn [for_each]. unfold bind at 1.
    unfold bind at 1, on_object at 1, getattr at 1. rewrite Hr0.
    cbv beta iota.
    unfold bind at 1, on_object at 1, getattr at 1. rewrite Hd0.
    cbv beta iota. unfold ret at 1. cbn [app].
    rewrite (IH rots dips _ v Hr Hd). cbn [fst snd map].
    rewrite <- !app_assoc. reflexivity.
Qed.

(** [plot_faces_stereonet] never raises, whatever the plotting libraries
    do and whatever the faces lack.  When an import fails, the exception
    is logged and [None] returned.  Without faces, nothing is drawn: one
    WARNING record and [None].  And [None] always comes with a record in
    the log. *)
Theorem stereonet_never_raises
    (imports : result unit)
    (draw : R -> R -> list R -> list R -> R -> R -> result string)
    (v : Visualizer.t) :
  exists r l,
    plot_faces_stereonet imports draw v = (Ok r, v, l) /\
    (forall e, imports = Raise e -> r = None /\ l = [stereonet_error e]) /\
    (imports = Ok tt -> faces_data v = [] -> r = None /\ l = [no_face_data]) /\
    (r = None -> l <> []) /\
    (forall path, r = Some path -> l = [stereonet_saved path]).
Proof.
  unfold plot_faces_stereonet, try_except. cbv zeta.
  destruct imports as [[] | e0].
  - unfold bind at 1, lift at 1. cbv beta iota.
    unfold bind at 1, get at 1. cbv beta iota.
    destruct (faces_data v) as [| f fs] eqn:Hfs.
    + eexists. eexists. split; [reflexivity |].
      split; [intros e E; discriminate E |].
      split; [intros _ _; split; reflexivity |].
      split; [intros _; discriminate | intros path E; discriminate E].
    + unfold bind at 1.
      destruct (stereonet_loop_pure (f :: fs) ([], []) v) as (r0 & Hr0).
      rewrite Hr0. destruct r0 as [sd | e1].
      * cbv beta iota. unfold bind at 1, lift at 1.
        destruct (draw (figure_width v) (figure_height v) (fst sd) (snd sd)
                       (marker_size v) (edge_width v)) as [path | e2].
        -- run_monad. eexists. eexists. split; [reflexivity |].
           split; [intros e E; discriminate E |].
           split; [intros _ E; discriminate E |].
           split; [intros E; discriminate E |].
           intros p E. injection E as <-. reflexivity.
        -- run_monad. eexists. eexists. split; [reflexivity |].
           split; [intros e E; discriminate E |].
           split; [intros _ E; discriminate E |].
           split; [intros _; discriminate | intros p E; discriminate E].
      * run_monad. eexists. eexists. split; [reflexivity |].
        split; [intros e E; discriminate E |].
        split; [intros _ E; discriminate E |].
        split; [intros _; discriminate | intros p E; discriminate E].
  - run_monad. eexists. eexists. split; [reflexivity |].
    split; [intros e E; injection E as <-; split; reflexivity |].
    split; [intros E; discriminate E |].
    split; [intros _; discriminate | intros p E; discriminate E].
Qed.

Lemma batch_faces_attributes (delta : R) (groups : list (list Point.t)) :
  exists rots dips,
    map Face.rotated_azimuth (flat_map (face_item delta) groups) = map Some rots /\
    map Face.dip (flat_map (face_item delta) groups) = map Some dips /\
    Forall (fun d => 0 <= d <= 90) dips.
Proof.
  induction groups as [| ps groups (rots & dips & IH1 & IH2 & IH3)].
  - exists [], []. repeat split; constructor.
  - destruct ps as [| p0 [| p1 [| p2 rest]]];
      try (exists rots, dips; repeat split; assumption).
    eexists (_ :: rots), (_ :: dips).
    cbn [flat_map face_item app map]. rewrite IH1, IH2.
    split; [reflexivity |]. split; [reflexivity |].
    constructor; [| exact IH3].
    apply EdgeExtras.dip_of_upward, canonical_z_nonneg.
Qed.

Lemma strikes_in_range (rots : list R) :
  Forall (fun s => 0 <= s < 360) (map strike_of rots).
Proof.
  apply Forall_forall. intros s Hin. apply in_map_iff in Hin.
  destruct Hin as (rot & <- & _). unfold strike_of. apply py_mod_range. lra.
Qed.

(** The stereonet of a batch: for the faces [get_processed_faces]
    returns, whatever the calibration, the plot is handed one strike and
    one dip per face, in the order of the faces; every strike is the
    rotated azimuth plus 90 modulo 360 and lies in [[0, 360)], every dip
    is the dip of its face.  The path the drawing returns is returned and
    logged; an exception of the drawing is caught, and logged. *)
Theorem stereonet_of_a_batch
    (draw : R -> R -> list R -> list R -> R -> R -> result string)
    (az_real az_model : R) (self : MeasurementsParser.t) (w h ms ew : R) :
  exists out flog rots dips,
    get_processed_faces az_real az_model self = (Ok out, self, flog) /\
    map Face.rotated_azimuth out = map Some rots /\
    map Face.dip out = map Some dips /\
    Forall (fun s => 0 <= s < 360) (map strike_of rots) /\
    (out <> [] ->
     plot_faces_stereonet (Ok tt) draw (Visualizer.mk [] out w h ms ew)
     = match draw w h (map strike_of rots) dips ms ew with
       | Ok path =>
           (Ok (Some path), Visualizer.mk [] out w h ms ew, [stereonet_saved path])
       | Raise e =>
           (Ok None, Visualizer.mk [] out w h ms ew, [stereonet_error e])
       end).
Proof.
  destruct (batch_faces_attributes (calibration_delta az_real az_model) (faces self))
    as (rots & dips & Hr & Hd & Hdips).
  eexists. eexists. exists rots, dips.
  split; [apply get_processed_faces_run |].
  split; [exact Hr |]. split; [exact Hd |].
  split; [apply strikes_in_range |].
  cbv zeta. intros Hne.
  unfold plot_faces_stereonet, try_except. cbv zeta.
  unfold bind at 1, lift at 1. cbv beta iota.
  unfold bind at 1, get at 1. cbv beta iota.
  cbn [faces_data figure_width figure_height marker_size edge_width].
  destruct (flat_map (face_item (calibration_delta az_real az_model)) (faces self))
    as [| f fs] eqn:Hout; [contradiction |].
  unfold bind at 1. rewrite (stereonet_loop _ rots dips ([], []) _ Hr Hd).
  cbn [fst snd app]. cbv beta iota.
  unfold bind at 1, lift at 1.
  destruct (draw w h (map strike_of rots) dips ms ew) as [path | e];
    run_monad; reflexivity.
Qed.

(** [plot_edges_histogram] never raises, whatever the plotting libraries
    do and whatever the edges lack.  A failing import, an edge without a
    [length] attribute, a failing import of numpy in
    [get_edges_statistics] and an exception of the drawing are all caught
    and logged as one ERROR record, and no path and the empty dict are
    returned.  Without edges nothing is drawn: one WARNING record, no
    path and the empty dict.  With edges that all have a length, the
    drawing is handed the lengths in the order of the edges, and the dict
    returned with the path is the one [get_edges_statistics] returns. *)
Theorem histogram_never_raises
    (imports numpy_import : result unit)
    (draw : R -> R -> list R -> result string) (v : Visualizer.t) :
  exists r l,
    plot_edges_histogram imports numpy_import draw v = (Ok r, v, l) /\
    (forall e, imports = Raise e -> r = (None, []) /\ l = [histogram_error e]) /\
    (imports = Ok tt -> edges_data v = [] ->
     r = (None, []) /\ l = [no_edge_data]) /\
    (imports = Ok tt ->
     (exists e, In e (edges_data v) /\ Edge.length e = None) ->
     r = (None, []) /\ l = [histogram_error AttributeError]) /\
    (forall ls e,
        imports = Ok tt ->
        map Edge.length (edges_data v) = map Some ls -> ls <> [] ->
        numpy_import = Raise e ->
        r = (None, []) /\ l = [histogram_error e]) /\
    (forall ls,
        imports = Ok tt ->
        map Edge.length (edges_data v) = map Some ls -> ls <> [] ->
        numpy_import = Ok tt ->
        match draw (figure_width v) (figure_height v) ls with
        | Ok path =>
            get_edges_statistics (Ok tt) v = (Ok (stats_of ls), v, []) /\
            r = (Some path, stats_of ls) /\ l = [histogram_saved path]
        | Raise e => r = (None, []) /\ l = [histogram_error e]
        end).
Proof.
  assert (Hsame : forall ls ls' : list R, map Some ls = map Some ls' -> ls = ls').
  { induction ls as [| a ls IH]; intros [| b ls'] E; try discriminate E;
      [reflexivity |].
    cbn [map] in E. injection E as -> E. f_equal. apply IH, E. }
  assert (Hnot : forall ls,
             map Edge.length (edges_data v) = map Some ls ->
             (exists e, In e (edges_data v) /\ Edge.length e = None) -> False).
  { intros ls Hls (e & Hin & Hnone).
    assert (Hsome : In (Edge.length e) (map Some ls))
      by (rewrite <- Hls; apply in_map, Hin).
    rewrite Hnone in Hsome. apply in_map_iff in Hsome.
    destruct Hsome as (x & Hx & _). discriminate Hx. }
  unfold plot_edges_histogram, try_except.
  destruct imports as [[] | e0].
  - unfold bind at 1, lift at 1. cbv beta iota.
    unfold bind at 1, get at 1. cbv beta iota.
    unfold bind at 1, edge_lengths.
    destruct (lengths_or_missing (edges_data v)) as [(ls0 & Hls0) | Hmiss].
    + rewrite (edge_lengths_loop _ ls0 [] v Hls0). cbn [app]. cbv beta iota.
      destruct ls0 as [| x xs].
      * run_monad. eexists. eexists. split; [reflexivity |].
        split; [intros e E; discriminate E |].
        split; [intros _ _; split; reflexivity |].
        split; [intros _ Hm; destruct (Hnot _ Hls0 Hm) |].
        split.
        -- intros ls e _ Hls Hne _. rewrite Hls0 in Hls.
           apply Hsame in Hls. subst ls. contradiction.
        -- intros ls _ Hls Hne _. rewrite Hls0 in Hls.
           apply Hsame in Hls. subst ls. contradiction.
      * assert (Hedges : edges_data v <> []).
        { intros E. rewrite E in Hls0. discriminate Hls0. }
        unfold bind at 1.
        destruct numpy_import as [[] | e1].
        -- rewrite (statistics_run v (x :: xs) Hls0).
           cbv beta iota. unfold bind at 1, lift at 1.
           destruct (draw (figure_width v) (figure_height v) (x :: xs))
             as [path | e2] eqn:Hdraw.
           ++ run_monad. eexists. eexists. split; [reflexivity |].
              split; [intros e E; discriminate E |].
              split; [intros _ E; contradiction |].
              split; [intros _ Hm; destruct (Hnot _ Hls0 Hm) |].
              split; [intros ls e _ _ _ E; discriminate E |].
              intros ls _ Hls _ _. rewrite Hls0 in Hls.
              apply Hsame in Hls. subst ls. rewrite Hdraw.
              split; [reflexivity | split; reflexivity].
           ++ run_monad. eexists. eexists. split; [reflexivity |].
              split; [intros e E; discriminate E |].
              split; [intros _ E; contradiction |].
              split; [intros _ Hm; destruct (Hnot _ Hls0 Hm) |].
              split; [intros ls e _ _ _ E; discriminate E |].
              intros ls _ Hls _ _. rewrite Hls0 in Hls.
              apply Hsame in Hls. subst ls. rewrite Hdraw.
              split; reflexivity.
        -- rewrite statistics_without_numpy.
           run_monad. eexists. eexists. split; [reflexivity |].
           split; [intros e E; discriminate E |].
           split; [intros _ E; contradiction |].
           split; [intros _ Hm; destruct (Hnot _ Hls0 Hm) |].
           split; [intros ls e _ _ _ E; injection E as <-; split; reflexivity |].
           intros ls _ _ _ E. discriminate E.
    + rewrite (edge_lengths_missing _ Hmiss).
      run_monad. eexists. eexists. split; [reflexivity |].
      split; [intros e E; discriminate E |].
      split.
      { intros _ E. destruct Hmiss as (e & Hin & _). rewrite E in Hin. destruct Hin. }
      split; [intros _ _; split; reflexivity |].
      split.
      * intros ls e _ Hls _ _. destruct (Hnot _ Hls Hmiss).
      * intros ls _ Hls _ _. destruct (Hnot _ Hls Hmiss).
  - run_monad. eexists. eexists. split; [reflexivity |].
    split; [intros e E; injection E as <-; split; reflexivity |].
    split; [intros E; discriminate E |].
    split; [intros E; discriminate E |].
    split; [intros ls e E; discriminate E | intros ls E; discriminate E].
Qed.

(** The histogram of the edge from (0,0,0) to (3,4,0): the path of the
    drawing comes back with the statistics of the one length. *)
Lemma histogram_never_raises_witness :
  exists r l,
    plot_edges_histogram (Ok tt) (Ok tt)
      (fun _ _ _ => Ok "edges_histogram.png"%string)
      (Visualizer.mk [EdgeForms.built (Point.mk 0 0 0) (Point.mk 3 4 0)] [] 6 6 2 1)
    = (Ok r,
       Visualizer.mk [EdgeForms.built (Point.mk 0 0 0) (Point.mk 3 4 0)] [] 6 6 2 1,
       l) /\
    r = (Some "edges_histogram.png"%string,
         stats_of [norm (Vector3D.of_points (Point.mk 0 0 0) (Point.mk 3 4 0))]) /\
    l = [histogram_saved "edges_histogram.png"].
Proof.
  destruct (histogram_never_raises (Ok tt) (Ok tt)
              (fun _ _ _ => Ok "edges_histogram.png"%string)
              (Visualizer.mk [EdgeForms.built (Point.mk 0 0 0) (Point.mk 3 4 0)]
                             [] 6 6 2 1))
    as (r & l & Hrun & _ & _ & _ & _ & Hok).
  exists r, l. split; [exact Hrun |].
  assert (Hne : [norm (Vector3D.of_points (Point.mk 0 0 0) (Point.mk 3 4 0))] <> [])
    by discriminate.
  exact (proj2 (Hok [norm (Vector3D.of_points (Point.mk 0 0 0) (Point.mk 3 4 0))]
                    eq_refl eq_refl Hne eq_refl)).
Defined.

End PlotExtras.
